(** * Color Confusion: the Stroop session engine

    A shallow embedding of the scoring, rating, ranking and session code of
    the repository, which exists in four languages:

    - [confusion_engine.cpp]  (module [Cpp]):    ranking engine, scoring, rating;
    - [ConfusionEngine.cs]    (module [CSharp]): the game session state machine;
    - [ConfusionEngine.java]  (module [Java]):   question validator, combo
      tracker, session analyzer;
    - [app.js]                (module [Js]):     the client and its four games;
    - the ranking utility of Memory Master, a second C++ program (module
      [Leaderboard]).

    Numbers are kept the way the code has them.  A [double] is a primitive
    binary64 [float]; an [int] is a [Z] reduced by [wrap32] after every
    operation; a [long] is reduced by [wrap64].  Integer-valued JavaScript
    numbers (counters, millisecond differences of [Date.now()]) are kept as
    [Z], which is exact below 2^53. *)

From Stdlib Require Import ZArith Floats Uint63 Bool List String Ascii Lia.
From Stdlib Require Import Permutation Sorted.
Import ListNotations.

#[local] Set Warnings "-inexact-float".
#[local] Open Scope Z_scope.

(** ** Machine integers *)

Definition wrap32 (z : Z) : Z := (z + 2147483648) mod 4294967296 - 2147483648.
Definition wrap64 (z : Z) : Z :=
  (z + 9223372036854775808) mod 18446744073709551616 - 9223372036854775808.

Definition add32 (a b : Z) : Z := wrap32 (a + b).
Definition sub32 (a b : Z) : Z := wrap32 (a - b).
Definition mul32 (a b : Z) : Z := wrap32 (a * b).
(** [/] and [%] of C++, C# and Java truncate toward zero. *)
Definition div32 (a b : Z) : Z := wrap32 (Z.quot a b).
Definition rem32 (a b : Z) : Z := wrap32 (Z.rem a b).

Definition int_range (z : Z) : Prop := -2147483648 <= z <= 2147483647.

(** ** Doubles *)

(** Conversion of an integer to [double]; exact for every [int] and for every
    [long] of magnitude below 2^53, rounded to nearest above. *)
Definition to_double (z : Z) : float :=
  if z <? 0 then (- of_uint63 (Uint63.of_Z (- z)))%float
  else of_uint63 (Uint63.of_Z z).

(** How a rounding function breaks the tie of a value halfway between two
    integers: [std::round] goes away from zero, C#'s [Math.Round(double)]
    (whose default is [MidpointRounding.ToEven]) to the even neighbour,
    Java's and JavaScript's [Math.round] toward positive infinity. *)
Inductive tie_rule : Type := TieAway | TieEven | TieUp.

(** The integer nearest to the magnitude [m * 2^e] of a finite double of sign
    [s], as a magnitude. *)
Definition nearest (t : tie_rule) (s : bool) (m : positive) (e : Z) : Z :=
  match e with
  | Zneg p =>
      let d := Z.pow_pos 2 p in
      let q := Z.pos m / d in
      let r := Z.pos m mod d in
      match 2 * r ?= d with
      | Lt => q
      | Gt => q + 1
      | Eq => match t with
              | TieAway => q + 1
              | TieEven => if Z.even q then q else q + 1
              | TieUp => if s then q else q + 1
              end
      end
  | _ => Z.pos m * 2 ^ e
  end.

(** The integer a rounding function yields on a finite [x]; on NaN and the
    infinities a rounding function returns its argument, which is no integer. *)
Definition round_finite (t : tie_rule) (x : float) : option Z :=
  match Prim2SF x with
  | S754_finite s m e => let k := nearest t s m e in Some (if s then - k else k)
  | S754_zero _ => Some 0
  | _ => None
  end.

(** [static_cast<int>] and [(int)] of a rounded double.  Outside the range of
    [int], and on NaN, the conversion is undefined in C++ and unspecified in
    C#; the embedding takes what the conversion instruction of x86 yields
    there, the least [int]. *)
Definition cast_int (k : option Z) : Z :=
  match k with
  | Some k => if (-2147483648 <=? k) && (k <=? 2147483647) then k else -2147483648
  | None => -2147483648
  end.

(** [Math.Max(double, double)] of .NET: NaN if the second is NaN, the first
    when the second is smaller or a negative zero. *)
Definition Math_Max (val1 val2 : float) : float :=
  if negb (val1 =? val2)%float then
    if negb (PrimFloat.is_nan val1) then (if (val2 <? val1)%float then val1 else val2)
    else val1
  else if get_sign val2 then val1 else val2.

(** [std::max] and [std::min] of two doubles: the first argument, unless the
    comparison [a < b] (for [max]) or [b < a] (for [min]) picks the second;
    a NaN in second place is dropped, a NaN in first place is returned. *)
Definition std_max (a b : float) : float := if (a <? b)%float then b else a.
Definition std_min (a b : float) : float := if (b <? a)%float then b else a.

(** A double that is neither a negative number nor the negative infinity:
    a zero of either sign, a positive number, the positive infinity or NaN. *)
Definition neg_free (x : spec_float) : Prop :=
  match x with
  | S754_infinity true | S754_finite true _ _ => False
  | _ => True
  end.

(** A double, read as its sign, mantissa and exponent, that carries the sign
    [s]: what rounding returns carries the sign it was given. *)
Definition carries_sign (s : bool) (x : spec_float) : Prop :=
  match x with
  | S754_zero s' | S754_infinity s' | S754_finite s' _ _ => s' = s
  | S754_nan => True
  end.

(** A double that is a number and is not below zero: a zero, a positive
    number or the positive infinity. *)
Definition is_number_from_zero (x : spec_float) : Prop :=
  match x with
  | S754_zero _ | S754_infinity false | S754_finite false _ _ => True
  | _ => False
  end.

(** ** Sorting *)

(** Insertion sort by a strict "goes before" test; an element moves past
    another only when that one goes strictly before it, so equivalent elements
    keep their input order.  LINQ's [OrderBy] is this stable sort; [std::sort]
    only promises some ordering without inversions, of which this is one. *)
Fixpoint sort_insert {A : Type} (before : A -> A -> bool) (x : A) (l : list A) : list A :=
  match l with
  | [] => [x]
  | y :: l' => if before y x then y :: sort_insert before x l' else x :: y :: l'
  end.

Fixpoint insertion_sort {A : Type} (before : A -> A -> bool) (l : list A) : list A :=
  match l with
  | [] => []
  | x :: l' => sort_insert before x (insertion_sort before l')
  end.

(** What [std::sort] promises of its output when the comparator is a strict
    weak ordering of the elements: the elements of the input, rearranged so
    that none goes before an element that precedes it.  The order of
    equivalent elements is not fixed, and with another comparator (one that
    compares a NaN, for one) nothing is. *)
Definition sorted_by {A : Type} (before : A -> A -> bool) (input output : list A) : Prop :=
  Permutation output input /\ StronglySorted (fun a b => before b a = false) output.

(** ** Strings *)

Definition upper_ascii (c : ascii) : ascii :=
  let n := nat_of_ascii c in
  if ((97 <=? n) && (n <=? 122))%nat then ascii_of_nat (n - 32) else c.

Fixpoint toUpper (s : string) : string :=
  match s with
  | EmptyString => EmptyString
  | String c r => String (upper_ascii c) (toUpper r)
  end.

(** [String.Equals(.., OrdinalIgnoreCase)] and [equalsIgnoreCase]. *)
Definition equalsIgnoreCase (a b : string) : bool :=
  String.eqb (toUpper a) (toUpper b).

Definition contains (l : list string) (x : string) : bool :=
  existsb (String.eqb x) l.

(** ** The color registry, in its canonical iteration order *)

Definition Colors : list (string * string) :=
  [ ("Red", "#ef4444"); ("Blue", "#3b82f6"); ("Green", "#22c55e");
    ("Yellow", "#eab308"); ("Purple", "#8b5cf6"); ("Orange", "#f97316");
    ("Pink", "#ff29ff"); ("Cyan", "#06b6d4"); ("Indigo", "#6366f1");
    ("Violet", "#8b5cf6"); ("Black", "#1a1a1a"); ("Brown", "#78350f");
    ("Lavender", "#a78bfa"); ("White", "#ffffff"); ("Beige", "#f5f5dc") ]%string.

Definition Colors_Keys : list string := map fst Colors.
Definition Colors_Count : Z := Z.of_nat (List.length Colors).

Fixpoint lookup_color (table : list (string * string)) (k : string) : option string :=
  match table with
  | [] => None
  | (k', v) :: rest => if String.eqb k k' then Some v else lookup_color rest k
  end.

Definition GetValueOrDefault (k dflt : string) : string :=
  match lookup_color Colors k with Some v => v | None => dflt end.

(** [Colors.Keys.Take(count)]: [Take] of a count below 1 is empty. *)
Definition GetColorPool (difficulty : Z) : list string :=
  let count := Z.min Colors_Count (add32 4 (mul32 (sub32 difficulty 1) 2)) in
  firstn (Z.to_nat count) Colors_Keys.

(** ** The rating names *)

Inductive Rating : Type :=
  | Legendary | Grandmaster | Master | Expert | Advanced
  | Proficient | Intermediate | Beginner | Trainee.

Definition rating_name (r : Rating) : string :=
  match r with
  | Legendary => "Legendary" | Grandmaster => "Grandmaster" | Master => "Master"
  | Expert => "Expert" | Advanced => "Advanced" | Proficient => "Proficient"
  | Intermediate => "Intermediate" | Beginner => "Beginner" | Trainee => "Trainee"
  end%string.

(** The place of a rating name in the order of the cascade, Trainee lowest. *)
Definition rating_tier (name : string) : Z :=
  if String.eqb name "Legendary" then 8
  else if String.eqb name "Grandmaster" then 7
  else if String.eqb name "Master" then 6
  else if String.eqb name "Expert" then 5
  else if String.eqb name "Advanced" then 4
  else if String.eqb name "Proficient" then 3
  else if String.eqb name "Intermediate" then 2
  else if String.eqb name "Beginner" then 1
  else 0.

(** ** confusion_engine.cpp *)

Module Cpp.

Record PlayerScore : Type := mkPlayerScore {
  username : string;
  mode : string;
  totalPoints : Z;
  correctAnswers : Z;
  maxCombo : Z;
  avgReactionMs : float;
  elapsedSeconds : float;
  rating : string
}.

Record RankEntry : Type := mkRankEntry {
  rank : Z;
  r_username : string;
  r_totalPoints : Z;
  r_avgReactionMs : float;
  r_rating : string;
  percentile : float
}.

(** What a [RankEntry] copies from its [PlayerScore]. *)
Definition copied_of_score (p : PlayerScore) : string * Z * float * string :=
  (username p, totalPoints p, avgReactionMs p, rating p).
Definition copied_of_entry (e : RankEntry) : string * Z * float * string :=
  (r_username e, r_totalPoints e, r_avgReactionMs e, r_rating e).

(** [PerformanceRater::getPerformanceRating] *)
Definition getPerformanceRating (avgReactionMs : float) (score : Z) : string :=
  if (avgReactionMs <? 400)%float && (score >? 50) then "Legendary"
  else if (avgReactionMs <? 500)%float && (score >? 40) then "Grandmaster"
  else if (avgReactionMs <? 600)%float && (score >? 30) then "Master"
  else if (avgReactionMs <? 700)%float && (score >? 25) then "Expert"
  else if (avgReactionMs <? 800)%float && (score >? 20) then "Advanced"
  else if (avgReactionMs <? 1000)%float && (score >? 15) then "Proficient"
  else if (avgReactionMs <? 1200)%float && (score >? 10) then "Intermediate"
  else if (avgReactionMs <? 1500)%float && (score >? 5) then "Beginner"
  else "Trainee".

(** [PerformanceRater::getNumericalRating] *)
Definition getNumericalRating (avgReactionMs : float) (score maxCombo : Z) : float :=
  let speedScore := std_max 0.0 (40.0 * (1.0 - (avgReactionMs / 2000.0)))%float in
  let scorePoints := std_min 35.0 (to_double score * 0.7)%float in
  let comboPoints := std_min 25.0 (to_double maxCombo * 2.5)%float in
  std_min 100.0 (speedScore + scorePoints + comboPoints)%float.

(** [ScoringEngine::calculatePoints]; [std::round] breaks ties away from
    zero. *)
Definition calculatePoints (reactionTimeMs currentCombo difficulty : Z) : Z :=
  let basePoints := 10 in
  let speedBonus := Z.max 0 (div32 (sub32 2000 reactionTimeMs) 100) in
  let comboMultiplier := (1.0 + to_double currentCombo * 0.1)%float in
  let difficultyBonus := (1.0 + to_double (sub32 difficulty 1) * 0.15)%float in
  cast_int (round_finite TieAway
              (to_double (add32 basePoints speedBonus) * comboMultiplier * difficultyBonus)).

Definition calculateCoins (totalPoints : Z) : Z := div32 totalPoints 100.
Definition calculateStars (correctAnswers : Z) : Z := div32 correctAnswers 10.

(** The comparator of [std::sort] in [getRankings]: more points first, then
    the shorter average reaction time. *)
Definition ranks_before (a b : PlayerScore) : bool :=
  if negb (totalPoints a =? totalPoints b) then totalPoints a >? totalPoints b
  else (avgReactionMs a <? avgReactionMs b)%float.

Definition mode_matches (modeFilter : string) (s : PlayerScore) : bool :=
  String.eqb modeFilter "" || String.eqb (mode s) modeFilter.

(** The percentile the loop of [getRankings] computes at index [i]. *)
Definition percentile_at (totalPlayers i : Z) : float :=
  if totalPlayers >? 1
  then ((to_double (sub32 totalPlayers i) - 1.0) / (to_double totalPlayers - 1.0) * 100.0)%float
  else 100.0%float.

(** The loop [for (int i = 0; i < totalPlayers; ++i)], from index [i] on. *)
Fixpoint rank_from (totalPlayers i : Z) (sorted : list PlayerScore) : list RankEntry :=
  match sorted with
  | [] => []
  | player :: rest =>
      mkRankEntry (add32 i 1) (username player) (totalPoints player)
                  (avgReactionMs player) (rating player)
                  (percentile_at totalPlayers i)
        :: rank_from totalPlayers (add32 i 1) rest
  end.

(** [StroopRanker::getRankings] over the ranker's [scores].  The library
    function [std::sort] is a parameter, [std_sort]: the standard fixes what
    it returns only up to [sorted_by], and only for a comparator that is a
    strict weak ordering of the elements. *)
Definition getRankings
    (std_sort : (PlayerScore -> PlayerScore -> bool) -> list PlayerScore -> list PlayerScore)
    (scores : list PlayerScore) (modeFilter : string) : list RankEntry :=
  let filtered := filter (mode_matches modeFilter) scores in
  let sorted := std_sort ranks_before filtered in
  let totalPlayers := wrap32 (Z.of_nat (List.length sorted)) in
  rank_from totalPlayers 0 sorted.

(** [StroopRanker::addScore] on the ranker's [scores]. *)
Definition addScore (scores : list PlayerScore) (score : PlayerScore) : list PlayerScore :=
  scores ++ [score].

(** The counting loop of [calculatePercentile]. *)
Definition belowCount (scores : list PlayerScore) (playerPoints : Z) : Z :=
  fold_left (fun count s => if totalPoints s <? playerPoints then add32 count 1 else count)
            scores 0.

(** [StroopRanker::calculatePercentile]; the size of the vector, a [size_t]
    below 2^63, is converted to [double] for the division. *)
Definition calculatePercentile (scores : list PlayerScore) (playerPoints : Z) : float :=
  match scores with
  | [] => 100.0%float
  | _ => (to_double (belowCount scores playerPoints)
          / to_double (Z.of_nat (List.length scores)) * 100.0)%float
  end.

Record Stats : Type := mkStats {
  meanScore : float;
  medianScore : float;
  meanReactionMs : float;
  stdDevScore : float;
  totalGames : Z
}.

(** [allPoints] of [getStatistics] after [std::sort], which on [int]s has one
    possible outcome, the ascending order. *)
Definition sorted_points (scores : list PlayerScore) : list Z :=
  insertion_sort Z.ltb (map totalPoints scores).

(** The median [getStatistics] computes from the sorted points: the middle
    one of an odd number, half the [int] sum of the two middle ones of an
    even number. *)
Definition median_of (allPoints : list Z) : float :=
  let size := Z.of_nat (List.length allPoints) in
  let mid := wrap32 (size / 2) in
  if size mod 2 =? 0
  then (to_double (add32 (nth (Z.to_nat (mid - 1)) allPoints 0%Z)
                          (nth (Z.to_nat mid) allPoints 0%Z)) / 2.0)%float
  else to_double (nth (Z.to_nat mid) allPoints 0).

(** [StroopRanker::getStatistics] *)
Definition getStatistics (scores : list PlayerScore) : Stats :=
  let size := Z.of_nat (List.length scores) in
  match scores with
  | [] => mkStats 0 0 0 0 (wrap32 size)
  | _ =>
      let sumPoints :=
        fold_left (fun sum s => (sum + to_double (totalPoints s))%float) scores 0%float in
      let sumRT := fold_left (fun sum s => (sum + avgReactionMs s)%float) scores 0%float in
      let mean := (sumPoints / to_double size)%float in
      let allPoints := sorted_points scores in
      let sumSquaredDiff :=
        fold_left (fun sum p => (sum + (to_double p - mean) * (to_double p - mean))%float)
                  allPoints 0%float in
      mkStats mean (median_of allPoints) (sumRT / to_double size)%float
              (PrimFloat.sqrt (sumSquaredDiff / to_double size)%float) (wrap32 size)
  end.

End Cpp.

(** ** The ranking utility of Memory Master

    The second C++ program sorts its players with the comparator
    [comparePlayers], the one of [getRankings] under other names. *)

Module Leaderboard.

Record Player : Type := mkPlayer {
  name : string;
  score : Z;
  time : float
}.

Definition comparePlayers (a b : Player) : bool :=
  if negb (score a =? score b) then score a >? score b
  else (time a <? time b)%float.

(** The players of [main] and their order after [std::sort]. *)
Definition players : list Player :=
  [ mkPlayer "Cipher_Master" 1240 45.2; mkPlayer "Nexus_Brain" 1120 48.5;
    mkPlayer "Quantum_Mind" 1240 42.1; mkPlayer "Master_Player" 950 50.0 ].

Definition sorted_players : list Player := insertion_sort comparePlayers players.

End Leaderboard.

(** The comparator of both rankers, on the two keys it reads of a record:
    [Cpp.ranks_before a b] and [Leaderboard.comparePlayers a b] are
    [goes_before] of the points and times of [a] and [b]. *)
Definition goes_before (p1 : Z) (t1 : float) (p2 : Z) (t2 : float) : bool :=
  if negb (p1 =? p2) then p1 >? p2 else (t1 <? t2)%float.

(** ** Randomness and exceptions

    [Random] is a tape of raw draws: every call takes the next one.  A
    computation that needs a draw from an empty tape is [Starved]; the real
    generator never runs dry, so [Starved] stands for "still drawing". *)

Inductive result (A : Type) : Type :=
  | Ok (a : A)
  | Throw (what : string)
  | Starved.
Arguments Ok {A} a.
Arguments Throw {A} what.
Arguments Starved {A}.

Definition Rand (A : Type) : Type := list Z -> result (A * list Z).

Definition ret {A : Type} (a : A) : Rand A := fun tape => Ok (a, tape).

Definition bind {A B : Type} (m : Rand A) (f : A -> Rand B) : Rand B :=
  fun tape =>
    match m tape with
    | Ok (a, tape') => f a tape'
    | Throw what => Throw what
    | Starved => Starved
    end.

Notation "x <- m ;; f" := (bind m (fun x => f))
  (at level 61, m at next level, right associativity).

Definition throw {A : Type} (what : string) : Rand A := fun _ => Throw what.

(** A computation is productive when more tape never changes a result it
    has returned, and when every tape has a continuation on which it returns:
    it never throws for good and never draws forever but by bad luck. *)
Definition steady {A : Type} (m : Rand A) : Prop :=
  forall (tape tape' more : list Z) (a : A),
    m tape = Ok (a, tape') -> m (tape ++ more) = Ok (a, tape' ++ more).

Definition completes {A : Type} (m : Rand A) : Prop :=
  forall tape : list Z, exists (more : list Z) (a : A) (tape' : list Z),
    m (tape ++ more) = Ok (a, tape').

Definition productive {A : Type} (m : Rand A) : Prop := steady m /\ completes m.

(** A computation that throws on no tape. *)
Definition never_throws {A : Type} (m : Rand A) : Prop :=
  forall (tape : list Z) (what : string), m tape <> Throw what.

(** [list[i]], [list.get(i)], [ElementAt(i)]: the element at an index, which
    throws outside the list. *)
Definition item (l : list string) (i : Z) : Rand string :=
  if (i <? 0) || (Z.of_nat (List.length l) <=? i) then throw "index out of range"
  else match nth_error l (Z.to_nat i) with
       | Some x => ret x
       | None => throw "index out of range"
       end.

(** The loop that fills the options up to four, which [NextQuestion] of C#
    ([while (options.Count < 4)]) and [generateQuestion] of Java
    ([while (options.size() < 4)]) have word for word: each iteration draws an
    index into the keys of the registry and adds the color there unless the
    options contain it. *)
Fixpoint fill_options (options : list string) (tape : list Z) {struct tape}
  : result (list string * list Z) :=
  if Z.of_nat (List.length options) <? 4 then
    match tape with
    | [] => Starved
    | v :: tape' =>
        match nth_error Colors_Keys (Z.to_nat (v mod Colors_Count)) with
        | Some filler =>
            fill_options (if negb (contains options filler) then options ++ [filler] else options)
                         tape'
        | None => Throw "index out of range"
        end
    end
  else Ok (options, tape).

(** ** ConfusionEngine.cs *)

Module CSharp.

Inductive GameMode : Type := Endless | Survival | SpeedRun.
Inductive GameState : Type := Idle | Active | Paused | Finished.

Definition GameMode_eqb (a b : GameMode) : bool :=
  match a, b with
  | Endless, Endless | Survival, Survival | SpeedRun, SpeedRun => true
  | _, _ => false
  end.

Definition GameState_eqb (a b : GameState) : bool :=
  match a, b with
  | Idle, Idle | Active, Active | Paused, Paused | Finished, Finished => true
  | _, _ => false
  end.

Record StroopQuestion : Type := mkStroopQuestion {
  TextWord : string;
  FontColorName : string;
  FontColorHex : string;
  Options : list string
}.

(** [ScoreCalculator.CalculatePoints]; [Math.Round(double)] breaks ties to
    the even neighbour. *)
Definition CalculatePoints (reactionTimeMs currentCombo difficulty : Z) : Z :=
  let basePoints := 10 in
  let speedBonus := Z.max 0 (div32 (sub32 2000 reactionTimeMs) 100) in
  let comboMultiplier := (1.0 + to_double currentCombo * 0.1)%float in
  let difficultyBonus := (1.0 + to_double (sub32 difficulty 1) * 0.15)%float in
  cast_int (round_finite TieEven
              (to_double (add32 basePoints speedBonus) * comboMultiplier * difficultyBonus)).

Definition CalculateCoins (totalPoints : Z) : Z := div32 totalPoints 100.
Definition CalculateStars (correctAnswers : Z) : Z := div32 correctAnswers 10.

Record SessionResult : Type := mkSessionResult {
  r_Mode : GameMode;
  r_TotalPoints : Z;
  CorrectAnswers : Z;
  r_WrongAnswers : Z;
  r_MaxCombo : Z;
  AvgReactionMs : float;
  FastestReaction : float;
  SlowestReaction : float;
  ElapsedSeconds : float;
  Accuracy : float;
  Rating : string;
  CoinsEarned : Z;
  StarsEarned : Z
}.

(** [SessionResult.CalculateRating], as the rating it assigns. *)
Definition CalculateRating (AvgReactionMs : float) (CorrectAnswers : Z) : string :=
  if (AvgReactionMs <? 400)%float && (CorrectAnswers >? 50) then "Legendary"
  else if (AvgReactionMs <? 500)%float && (CorrectAnswers >? 40) then "Grandmaster"
  else if (AvgReactionMs <? 600)%float && (CorrectAnswers >? 30) then "Master"
  else if (AvgReactionMs <? 700)%float && (CorrectAnswers >? 25) then "Expert"
  else if (AvgReactionMs <? 800)%float && (CorrectAnswers >? 20) then "Advanced"
  else if (AvgReactionMs <? 1000)%float && (CorrectAnswers >? 15) then "Proficient"
  else if (AvgReactionMs <? 1200)%float && (CorrectAnswers >? 10) then "Intermediate"
  else if (AvgReactionMs <? 1500)%float && (CorrectAnswers >? 5) then "Beginner"
  else "Trainee".

(** The session object.  [_random] is the tape its [Random] will yield;
    [StartTime] is in ticks of 100 ns. *)
Record GameSession : Type := mkGameSession {
  _random : list Z;
  _reactions : list Z;
  _colorPool : list string;
  Mode : GameMode;
  State : GameState;
  Score : Z;
  TotalPoints : Z;
  Combo : Z;
  MaxCombo : Z;
  Lives : Z;
  TimeLeft : float;
  Target : Z;
  Difficulty : Z;
  WrongAnswers : Z;
  CurrentQuestion : option StroopQuestion;
  StartTime : Z
}.

(** The constructor [GameSession(mode)], with the tape of its [Random]. *)
Definition new_GameSession (mode : GameMode) (tape : list Z) : GameSession :=
  {| _random := tape;
     _reactions := [];
     _colorPool := GetColorPool 1;
     Mode := mode;
     State := Idle;
     Score := 0;
     TotalPoints := 0;
     Combo := 0;
     MaxCombo := 0;
     Lives := if GameMode_eqb mode Endless then 3 else -1;
     TimeLeft := if GameMode_eqb mode Survival then 60.0%float else (-1)%float;
     Target := if GameMode_eqb mode SpeedRun then 50 else -1;
     Difficulty := 1;
     WrongAnswers := 0;
     CurrentQuestion := None;
     StartTime := 0 |}.

(** [Start()], where [now] is what [DateTime.Now] reads. *)
Definition Start (s : GameSession) (now : Z) : GameSession :=
  {| _random := _random s; _reactions := _reactions s; _colorPool := _colorPool s;
     Mode := Mode s; State := Active; Score := Score s; TotalPoints := TotalPoints s;
     Combo := Combo s; MaxCombo := MaxCombo s; Lives := Lives s; TimeLeft := TimeLeft s;
     Target := Target s; Difficulty := Difficulty s; WrongAnswers := WrongAnswers s;
     CurrentQuestion := CurrentQuestion s; StartTime := now |}.

(** [_random.Next(maxValue)] *)
Definition Next (maxValue : Z) : Rand Z :=
  fun tape =>
    match tape with
    | [] => Starved
    | v :: tape' => Ok (if maxValue <=? 0 then 0 else v mod maxValue, tape')
    end.

(** [_random.Next()] *)
Definition Next_any : Rand Z :=
  fun tape =>
    match tape with
    | [] => Starved
    | v :: tape' => Ok (v mod 2147483647, tape')
    end.

(** [source.OrderBy(_ => _random.Next()).ToList()]: one key per element, in
    the order of the source, then the stable sort by key. *)
Fixpoint draw_keys (source : list string) : Rand (list (Z * string)) :=
  match source with
  | [] => ret []
  | c :: rest =>
      k <- Next_any ;;
      keyed <- draw_keys rest ;;
      ret ((k, c) :: keyed)
  end.

Definition key_before (a b : Z * string) : bool := fst a <? fst b.

Definition OrderBy_random (source : list string) : Rand (list string) :=
  keyed <- draw_keys source ;;
  ret (map snd (insertion_sort key_before keyed)).

(** The body of [NextQuestion] after its guard, over the pool [_colorPool]. *)
Definition generate (_colorPool : list string) : Rand StroopQuestion :=
  i <- Next (Z.of_nat (List.length _colorPool)) ;;
  fontColor <- item _colorPool i ;;
  let wordCandidates := filter (fun c => negb (String.eqb c fontColor)) _colorPool in
  textWord <- (if Z.of_nat (List.length wordCandidates) >? 0
               then j <- Next (Z.of_nat (List.length wordCandidates)) ;; item wordCandidates j
               else ret "Black"%string) ;;
  let distractors :=
    filter (fun c => negb (String.eqb c fontColor) && negb (String.eqb c textWord)) _colorPool in
  distractors <- OrderBy_random distractors ;;
  let options := fontColor :: firstn 3 distractors in
  options <- fill_options options ;;
  options <- OrderBy_random options ;;
  ret {| TextWord := toUpper textWord;
         FontColorName := fontColor;
         FontColorHex := GetValueOrDefault fontColor "#888";
         Options := options |}.

Definition with_question (s : GameSession) (q : StroopQuestion) (tape : list Z) : GameSession :=
  {| _random := tape; _reactions := _reactions s; _colorPool := _colorPool s;
     Mode := Mode s; State := State s; Score := Score s; TotalPoints := TotalPoints s;
     Combo := Combo s; MaxCombo := MaxCombo s; Lives := Lives s; TimeLeft := TimeLeft s;
     Target := Target s; Difficulty := Difficulty s; WrongAnswers := WrongAnswers s;
     CurrentQuestion := Some q; StartTime := StartTime s |}.

(** [NextQuestion()]: the question returned ([None] is [null]) and the
    session after the call. *)
Definition NextQuestion (s : GameSession) : result (option StroopQuestion * GameSession) :=
  if negb (GameState_eqb (State s) Active) then Ok (None, s)
  else match generate (_colorPool s) (_random s) with
       | Ok (q, tape) => Ok (Some q, with_question s q tape)
       | Throw what => Throw what
       | Starved => Starved
       end.

(** [ScaleDifficulty()], as the new difficulty. *)
Definition ScaleDifficulty (Score : Z) : Z :=
  if Score >=? 40 then 5
  else if Score >=? 30 then 4
  else if Score >=? 20 then 3
  else if Score >=? 10 then 2
  else 1.

(** What [SubmitAnswer] returns: the dictionary with the single key
    ["error"], or the dictionary of the nine outcome keys. *)
Inductive SubmitResult : Type :=
  | Error (message : string)
  | Outcome (correct : bool) (pointsEarned totalPoints score combo maxCombo lives : Z)
            (timeLeft : float) (isActive : bool).

(** The value under the key ["correct"] of a result, when it has the key. *)
Definition correct_of (r : SubmitResult) : option bool :=
  match r with
  | Error _ => None
  | Outcome correct _ _ _ _ _ _ _ _ => Some correct
  end.

(** [Math.Round(value, 1)]: scale by ten, round half to even, scale back. *)
Definition Math_Round1 (value : float) : float :=
  let scaled := (value * 10.0)%float in
  match round_finite TieEven scaled with
  | Some k => (to_double k / 10.0)%float
  | None => (scaled / 10.0)%float
  end.

(** [SubmitAnswer(selectedColor, reactionTimeMs)]: the dictionary returned and
    the session after the call. *)
Definition SubmitAnswer (s : GameSession) (selectedColor : string) (reactionTimeMs : Z)
  : SubmitResult * GameSession :=
  match CurrentQuestion s with
  | None => (Error "No active question", s)
  | Some q =>
      if negb (GameState_eqb (State s) Active) then (Error "No active question", s)
      else
        let reactions := _reactions s ++ [reactionTimeMs] in
        let correct := equalsIgnoreCase (FontColorName q) selectedColor in
        if correct then
          let score := add32 (Score s) 1 in
          let combo := add32 (Combo s) 1 in
          let maxCombo := Z.max (MaxCombo s) combo in
          let pointsEarned := CalculatePoints reactionTimeMs combo (Difficulty s) in
          let totalPoints := add32 (TotalPoints s) pointsEarned in
          let timeLeft :=
            if GameMode_eqb (Mode s) Survival then (TimeLeft s + 3)%float
            else TimeLeft s in
          let scale := rem32 score 5 =? 0 in
          let difficulty := if scale then ScaleDifficulty score else Difficulty s in
          let colorPool := if scale then GetColorPool difficulty else _colorPool s in
          let state :=
            if GameMode_eqb (Mode s) SpeedRun && (score >=? Target s) then Finished
            else State s in
          (Outcome correct pointsEarned totalPoints score combo maxCombo (Lives s)
                   (Math_Round1 timeLeft) (GameState_eqb state Active),
           {| _random := _random s; _reactions := reactions; _colorPool := colorPool;
              Mode := Mode s; State := state; Score := score; TotalPoints := totalPoints;
              Combo := combo; MaxCombo := maxCombo; Lives := Lives s; TimeLeft := timeLeft;
              Target := Target s; Difficulty := difficulty; WrongAnswers := WrongAnswers s;
              CurrentQuestion := CurrentQuestion s; StartTime := StartTime s |})
        else
          let combo := 0 in
          let wrongAnswers := add32 (WrongAnswers s) 1 in
          let '(lives, timeLeft, totalPoints, state1) :=
            match Mode s with
            | Endless =>
                let lives := sub32 (Lives s) 1 in
                (lives, TimeLeft s, TotalPoints s, if lives <=? 0 then Finished else State s)
            | Survival =>
                let timeLeft := Math_Max 0 (TimeLeft s - 3)%float in
                (Lives s, timeLeft, TotalPoints s,
                 if (timeLeft <=? 0)%float then Finished else State s)
            | SpeedRun =>
                (Lives s, TimeLeft s, Z.max 0 (sub32 (TotalPoints s) 5), State s)
            end in
          let state :=
            if GameMode_eqb (Mode s) SpeedRun && (Score s >=? Target s) then Finished
            else state1 in
          (Outcome correct 0 totalPoints (Score s) combo (MaxCombo s) lives
                   (Math_Round1 timeLeft) (GameState_eqb state Active),
           {| _random := _random s; _reactions := reactions; _colorPool := _colorPool s;
              Mode := Mode s; State := state; Score := Score s; TotalPoints := totalPoints;
              Combo := combo; MaxCombo := MaxCombo s; Lives := lives; TimeLeft := timeLeft;
              Target := Target s; Difficulty := Difficulty s; WrongAnswers := wrongAnswers;
              CurrentQuestion := CurrentQuestion s; StartTime := StartTime s |})
  end.

(** What a call of [SubmitAnswer] is to the session: rejected by the guard,
    or accepted as the right or as a wrong answer to the current question. *)
Inductive answer_kind : Type := Rejected | Right | Wrong.

Definition kind_of (s : GameSession) (selectedColor : string) : answer_kind :=
  match CurrentQuestion s with
  | None => Rejected
  | Some q =>
      if negb (GameState_eqb (State s) Active) then Rejected
      else if equalsIgnoreCase (FontColorName q) selectedColor then Right else Wrong
  end.

(** [Enumerable.Average], [Min] and [Max] of the [List<long>] of reactions. *)
Definition sum_long (l : list Z) : Z := fold_left Z.add l 0.
Definition Average (l : list Z) : float :=
  (to_double (sum_long l) / to_double (Z.of_nat (List.length l)))%float.
Definition Min (l : list Z) : Z :=
  match l with [] => 0 | x :: r => fold_left Z.min r x end.
Definition Max (l : list Z) : Z :=
  match l with [] => 0 | x :: r => fold_left Z.max r x end.

(** [GetFinalReport()], where [now] is what [DateTime.Now] reads in the call;
    [TotalSeconds] divides the ticks elapsed by the ticks of a second. *)
Definition GetFinalReport (s : GameSession) (now : Z) : SessionResult :=
  let elapsed := (to_double (wrap64 (now - StartTime s)) / 10000000.0)%float in
  let count := Z.of_nat (List.length (_reactions s)) in
  let avgRT := if count >? 0 then Average (_reactions s) else 0%float in
  let totalAnswers := add32 (Score s) (WrongAnswers s) in
  {| r_Mode := Mode s;
     r_TotalPoints := TotalPoints s;
     CorrectAnswers := Score s;
     r_WrongAnswers := WrongAnswers s;
     r_MaxCombo := MaxCombo s;
     AvgReactionMs := avgRT;
     FastestReaction := if count >? 0 then to_double (Min (_reactions s)) else 0%float;
     SlowestReaction := if count >? 0 then to_double (Max (_reactions s)) else 0%float;
     ElapsedSeconds := elapsed;
     Accuracy := if totalAnswers >? 0
                 then (to_double (Score s) * 100.0 / to_double totalAnswers)%float
                 else 0%float;
     Rating := CalculateRating avgRT (Score s);
     CoinsEarned := CalculateCoins (TotalPoints s);
     StarsEarned := CalculateStars (Score s) |}.

(** The sessions a caller can bring about from [s0] by [Start],
    [NextQuestion] and [SubmitAnswer]; [GetFinalReport] changes nothing. *)
Inductive reachable (s0 : GameSession) : GameSession -> Prop :=
  | reach_here : reachable s0 s0
  | reach_Start (s : GameSession) (now : Z) :
      reachable s0 s -> reachable s0 (Start s now)
  | reach_NextQuestion (s s' : GameSession) (q : option StroopQuestion) :
      reachable s0 s -> NextQuestion s = Ok (q, s') -> reachable s0 s'
  | reach_SubmitAnswer (s : GameSession) (selectedColor : string) (reactionTimeMs : Z) :
      reachable s0 s -> reachable s0 (snd (SubmitAnswer s selectedColor reactionTimeMs)).

(** The sessions a caller can bring about from [s0] without another [Start]:
    by calls of [NextQuestion] and [SubmitAnswer]. *)
Inductive continues (s0 : GameSession) : GameSession -> Prop :=
  | continues_here : continues s0 s0
  | continues_NextQuestion (s s' : GameSession) (q : option StroopQuestion) :
      continues s0 s -> NextQuestion s = Ok (q, s') -> continues s0 s'
  | continues_SubmitAnswer (s : GameSession) (selectedColor : string) (reactionTimeMs : Z) :
      continues s0 s -> continues s0 (snd (SubmitAnswer s selectedColor reactionTimeMs)).

End CSharp.

(** ** ConfusionEngine.java *)

Module Java.

Definition clamp64 (z : Z) : Z :=
  Z.max (-9223372036854775808) (Z.min 9223372036854775807 z).

(** [Math.round(double)]: the closest [long], ties toward positive infinity,
    saturating, and 0 for NaN. *)
Definition Math_round (x : float) : Z :=
  match round_finite TieUp x with
  | Some k => clamp64 k
  | None =>
      match Prim2SF x with
      | S754_infinity false => 9223372036854775807
      | S754_infinity true => -9223372036854775808
      | _ => 0
      end
  end.

(** The question, without the [timestamp] its constructor reads from the
    clock. *)
Record StroopQuestion : Type := mkStroopQuestion {
  textWord : string;
  fontColorName : string;
  fontColorHex : string;
  options : list string
}.

(** [getColorPoolForDifficulty]; [subList(0, count)] throws an
    [IllegalArgumentException] when [count] is below 0. *)
Definition getColorPoolForDifficulty (difficulty : Z) : Rand (list string) :=
  let allColors := Colors_Keys in
  let count := Z.min (Z.of_nat (List.length allColors)) (add32 4 (mul32 (sub32 difficulty 1) 2)) in
  if count <? 0 then throw "IllegalArgumentException"
  else ret (firstn (Z.to_nat count) allColors).

(** [random.nextInt(bound)] *)
Definition nextInt (bound : Z) : Rand Z :=
  fun tape =>
    if bound <=? 0 then Throw "IllegalArgumentException"
    else match tape with
         | [] => Starved
         | v :: tape' => Ok (v mod bound, tape')
         end.

Fixpoint set_nth (l : list string) (i : nat) (x : string) : list string :=
  match l, i with
  | [], _ => []
  | _ :: r, O => x :: r
  | y :: r, S i' => y :: set_nth r i' x
  end.

(** [Collections.swap(list, i, j)] on indices inside the list. *)
Definition swap (l : list string) (i j : nat) : list string :=
  match nth_error l i, nth_error l j with
  | Some a, Some b => set_nth (set_nth l i b) j a
  | _, _ => l
  end.

(** [Collections.shuffle]: [for (int i = size; i > 1; i--)
    swap(list, i - 1, rnd.nextInt(i))], its draws taken from the same tape. *)
Fixpoint shuffle_from (i : nat) (l : list string) : Rand (list string) :=
  match i with
  | O => ret l
  | S i' =>
      if (i' =? 0)%nat then ret l
      else j <- nextInt (Z.of_nat i) ;; shuffle_from i' (swap l i' (Z.to_nat j))
  end.

Definition shuffle (l : list string) : Rand (list string) :=
  shuffle_from (List.length l) l.

(** [StroopValidator.generateQuestion] over the validator's [colorPool]. *)
Definition generateQuestion (colorPool : list string) : Rand StroopQuestion :=
  i <- nextInt (Z.of_nat (List.length colorPool)) ;;
  fontColor <- item colorPool i ;;
  let wordCandidates := filter (fun c => negb (String.eqb c fontColor)) colorPool in
  textWord <- (match wordCandidates with
               | [] => ret "Black"%string
               | _ => j <- nextInt (Z.of_nat (List.length wordCandidates)) ;;
                      item wordCandidates j
               end) ;;
  let distractors :=
    filter (fun c => negb (String.eqb c fontColor) && negb (String.eqb c textWord)) colorPool in
  distractors <- shuffle distractors ;;
  let options := fontColor :: firstn 3 distractors in
  options <- fill_options options ;;
  options <- shuffle options ;;
  ret {| textWord := toUpper textWord;
         fontColorName := fontColor;
         fontColorHex := GetValueOrDefault fontColor "#888";
         options := options |}.

(** [StroopValidator.validateAnswer] *)
Definition validateAnswer (question : StroopQuestion) (selectedColor : string) : bool :=
  equalsIgnoreCase (fontColorName question) selectedColor.

Record ComboTracker : Type := mkComboTracker {
  currentCombo : Z;
  maxCombo : Z;
  totalCorrect : Z;
  totalWrong : Z
}.

Definition recordCorrect (t : ComboTracker) : ComboTracker :=
  let currentCombo' := add32 (currentCombo t) 1 in
  {| currentCombo := currentCombo';
     maxCombo := Z.max (maxCombo t) currentCombo';
     totalCorrect := add32 (totalCorrect t) 1;
     totalWrong := totalWrong t |}.

Definition recordWrong (t : ComboTracker) : ComboTracker :=
  {| currentCombo := 0;
     maxCombo := maxCombo t;
     totalCorrect := totalCorrect t;
     totalWrong := add32 (totalWrong t) 1 |}.

(** The tracker after one answer, and after a sequence of answers given to a
    new tracker; [true] is a correct answer. *)
Definition record (t : ComboTracker) (correct : bool) : ComboTracker :=
  if correct then recordCorrect t else recordWrong t.

Definition getTotalAnswers (t : ComboTracker) : Z := add32 (totalCorrect t) (totalWrong t).

(** A tracker as [new ComboTracker()] makes it. *)
Definition new_ComboTracker : ComboTracker :=
  {| currentCombo := 0; maxCombo := 0; totalCorrect := 0; totalWrong := 0 |}.

Definition record_all (answers : list bool) : ComboTracker :=
  fold_left record answers new_ComboTracker.

Definition getMultiplier (t : ComboTracker) : float :=
  (1.0 + to_double (currentCombo t) * 0.1)%float.

Definition getAccuracy (t : ComboTracker) : float :=
  let total := getTotalAnswers t in
  if total >? 0 then (to_double (totalCorrect t) * 100.0 / to_double total)%float
  else 0.0%float.

Record SessionAnalyzer : Type := mkSessionAnalyzer {
  reactionTimes : list Z;
  comboTracker : ComboTracker;
  totalPoints : Z;
  sessionStartMs : Z
}.

Definition recordReaction (a : SessionAnalyzer) (reactionTimeMs : Z) : SessionAnalyzer :=
  {| reactionTimes := reactionTimes a ++ [reactionTimeMs];
     comboTracker := comboTracker a;
     totalPoints := totalPoints a;
     sessionStartMs := sessionStartMs a |}.

Definition addPoints (a : SessionAnalyzer) (points : Z) : SessionAnalyzer :=
  {| reactionTimes := reactionTimes a;
     comboTracker := comboTracker a;
     totalPoints := add32 (totalPoints a) points;
     sessionStartMs := sessionStartMs a |}.

(** [getFastestReaction] and [getSlowestReaction]: [min()] and [max()] of the
    stream, 0 when it is empty. *)
Definition getFastestReaction (a : SessionAnalyzer) : Z :=
  match reactionTimes a with [] => 0 | x :: r => fold_left Z.min r x end.
Definition getSlowestReaction (a : SessionAnalyzer) : Z :=
  match reactionTimes a with [] => 0 | x :: r => fold_left Z.max r x end.

(** [getAverageReactionTime]: the [average()] of the [LongStream]. *)
Definition getAverageReactionTime (a : SessionAnalyzer) : float :=
  match reactionTimes a with
  | [] => 0%float
  | l => (to_double (wrap64 (fold_left Z.add l 0%Z)) / to_double (Z.of_nat (List.length l)))%float
  end.

(** [SessionAnalyzer.calculatePoints]; the reaction time is a [long]. *)
Definition calculatePoints (reactionTimeMs combo difficulty : Z) : Z :=
  let basePoints := 10 in
  let speedBonus := Z.max 0 (wrap32 (wrap64 (Z.quot (wrap64 (2000 - reactionTimeMs)) 100))) in
  let multiplier := (1.0 + to_double combo * 0.1)%float in
  let diffBonus := (1.0 + to_double (sub32 difficulty 1) * 0.15)%float in
  wrap32 (Math_round (to_double (add32 basePoints speedBonus) * multiplier * diffBonus)).

(** The cascade of [SessionAnalyzer.getPerformanceRating] on the average
    reaction time and the count of correct answers. *)
Definition rating_of (avgRT : float) (score : Z) : string :=
  if (avgRT <? 400)%float && (score >? 50) then "Legendary"
  else if (avgRT <? 500)%float && (score >? 40) then "Grandmaster"
  else if (avgRT <? 600)%float && (score >? 30) then "Master"
  else if (avgRT <? 700)%float && (score >? 25) then "Expert"
  else if (avgRT <? 800)%float && (score >? 20) then "Advanced"
  else if (avgRT <? 1000)%float && (score >? 15) then "Proficient"
  else if (avgRT <? 1200)%float && (score >? 10) then "Intermediate"
  else if (avgRT <? 1500)%float && (score >? 5) then "Beginner"
  else "Trainee".

Definition getPerformanceRating (a : SessionAnalyzer) : string :=
  let avgRT := getAverageReactionTime a in
  let score := totalCorrect (comboTracker a) in
  rating_of avgRT score.

End Java.

(** ** app.js

    *** [startConfusionMode]

    The counters and the reaction time [RT = Date.now() - questionStartTime]
    hold integers; [Math.floor(n / 100)] of an integer [n] is the floor
    division. *)

Module Js.

(** [Math.round]: the closest integer, ties toward positive infinity; [None]
    is a result that is no integer, NaN or an infinity. *)
Definition Math_round (x : float) : option Z := round_finite TieUp x.

(** [Math.floor] of a finite double, and the speed bonus with the division
    carried out on doubles, as JavaScript carries it out. *)
Definition Math_floor (x : float) : Z :=
  match Prim2SF x with
  | S754_finite s m (Zneg p) =>
      let d := Z.pow_pos 2 p in
      if s then - ((Z.pos m + d - 1) / d) else Z.pos m / d
  | S754_finite s m e => if s then - (Z.pos m * 2 ^ e) else Z.pos m * 2 ^ e
  | _ => 0
  end.

Definition speedBonus_on_doubles (RT : Z) : Z :=
  Z.max 0 (Math_floor (to_double (2000 - RT) / 100)).

(** What the click handler adds to [totalPoints] for a correct answer, with
    [combo] already incremented. *)
Definition points_added (RT combo : Z) : option Z :=
  let basePoints := 10 in
  let speedBonus := Z.max 0 ((2000 - RT) / 100) in
  let multiplier := (1 + to_double combo * 0.1)%float in
  Math_round (to_double (basePoints + speedBonus) * multiplier).

(** *** The rest of the client

    A value of the client's lists of color names is a string or [undefined],
    which an index outside an array yields: [None] is [undefined]. *)

(** [Math.ceil] of a finite double. *)
Definition Math_ceil (x : float) : Z :=
  match Prim2SF x with
  | S754_finite s m (Zneg p) =>
      let d := Z.pow_pos 2 p in
      if s then - (Z.pos m / d) else (Z.pos m + d - 1) / d
  | S754_finite s m e => if s then - (Z.pos m * 2 ^ e) else Z.pos m * 2 ^ e
  | _ => 0
  end.

(** [Math.floor(Math.random() * length)]: an index below [length], which the
    next draw decides; the product with a [length] of zero is zero. *)
Definition random_index (length : Z) : Rand Z :=
  fun tape =>
    match tape with
    | [] => Starved
    | v :: tape' => Ok (if length <=? 0 then 0 else v mod length, tape')
    end.

(** [array[i]] *)
Definition at_index (array : list string) (i : Z) : option string :=
  if i <? 0 then None else nth_error array (Z.to_nat i).

(** [a === b] on two such values, and [options.includes(x)]. *)
Definition strict_equals (a b : option string) : bool :=
  match a, b with
  | Some x, Some y => String.eqb x y
  | None, None => true
  | _, _ => false
  end.

Definition includes (options : list (option string)) (x : option string) : bool :=
  existsb (strict_equals x) options.

(** **** [ask] of [startConfusionMode] *)

Definition WORD_LIST : list string :=
  ["Red"; "Blue"; "Green"; "Yellow"; "Purple"; "Orange"]%string.

(** [while (options.length < 4)]: each iteration draws an index into the
    distractors and pushes the value there unless the options include it. *)
Fixpoint fill (distractors : list string) (options : list (option string)) (tape : list Z)
  {struct tape} : result (list (option string) * list Z) :=
  if Z.of_nat (List.length options) <? 4 then
    match tape with
    | [] => Starved
    | v :: tape' =>
        let length := Z.of_nat (List.length distractors) in
        let rand := at_index distractors (if length <=? 0 then 0 else v mod length) in
        fill distractors (if negb (includes options rand) then options ++ [rand] else options)
             tape'
    end
  else Ok (options, tape).

(** What [ask] puts on the screen: the word [textColorName], upper-cased, in
    the color [fontColorName], and a button for each option; the button of an
    option [opt] counts as correct when [opt === fontColorName]. *)
Record Question : Type := mkQuestion {
  fontColorName : option string;
  textColorName : option string;
  options : list (option string)
}.

(** [ask].  The last step, [options.sort(() => Math.random() - 0.5)], sorts
    with a comparator that answers at random, for which the language fixes no
    order of the result: the sort is a parameter, a computation that draws
    from the tape and returns the options in some order. *)
Definition ask (sort : list (option string) -> Rand (list (option string))) : Rand Question :=
  i <- random_index (Z.of_nat (List.length WORD_LIST)) ;;
  let fontColorName := at_index WORD_LIST i in
  j <- random_index (Z.of_nat (List.length WORD_LIST)) ;;
  let textColorName := at_index WORD_LIST j in
  let textColorName :=
    if strict_equals textColorName fontColorName then
      match find (fun c => negb (strict_equals (Some c) fontColorName)) WORD_LIST with
      | Some c => Some c
      | None => Some "Black"%string
      end
    else textColorName in
  let distractors :=
    filter (fun c => negb (strict_equals (Some c) fontColorName)
                     && negb (strict_equals (Some c) textColorName)) WORD_LIST in
  options <- fill distractors [fontColorName] ;;
  options <- sort options ;;
  ret (mkQuestion fontColorName textColorName options).

(** **** [finishRefinedConfusion]

    [avgRT] is the text of [toFixed(0)] or ['N/A'], which the comparisons
    convert to a number, ['N/A'] to NaN; [rating] takes that number. *)
Definition rating (avgRT : float) (score : Z) : string :=
  if (avgRT <? 600)%float && (score >? 40) then "Grandmaster"
  else if (avgRT <? 800)%float && (score >? 25) then "Expert"
  else if (avgRT <? 1000)%float && (score >? 15) then "Advanced"
  else "Trainee".

(** **** Room Observer *)

(** [Object.keys(COLOR_HEX)] *)
Definition colorNames : list string :=
  ["Red"; "Blue"; "Green"; "Yellow"; "Purple"; "Orange"; "Pink"; "Cyan"; "Indigo";
   "Violet"; "Lavender"; "Beige"; "Brown"; "White"; "Black"]%string.

(** [[...new Set(values)]]: the values in the order of their first
    occurrence. *)
Fixpoint Set_of (seen values : list string) : list string :=
  match values with
  | [] => []
  | x :: values' =>
      if contains seen x then Set_of seen values' else x :: Set_of (x :: seen) values'
  end.

(** The answers offered for an object of the color [color], before they are
    shuffled: [[...new Set([randomObj.color, ...colorNames])].slice(0, 4)]. *)
Definition pool (color : string) : list string :=
  firstn 4 (Set_of [] (color :: colorNames)).

(** [Object.keys(OBJECT_DATA)] *)
Definition objectNames : list string :=
  ["Flower"; "Airplane"; "Phone"; "Sun"; "Wristwatch"; "Paint Palette"; "Book"; "Clock";
   "Trophy"; "Radio"; "Camera"; "Gift"; "Umbrella"; "Statue"; "Lamp"; "Vase"; "Ring"]%string.

(** [objectCount] of [initMemoryGame] and the number of objects in the room,
    [shuffled.slice(0, Math.min(objectCount, objectNames.length))] of the
    seventeen objects, shuffled. *)
Definition objectCount (level : Z) : Z := 5 + (level - 1) / 5.
Definition roomObjects_length (level : Z) : Z :=
  Z.min (objectCount level) (Z.of_nat (List.length objectNames)).

Record MemoryData : Type := mkMemoryData {
  level : Z;
  highScore : Z;
  gamesPlayed : Z;
  levelsCompleted : Z;
  hasFailedCurrent : bool
}.

(** The part of [state] that the games write. *)
Record State : Type := mkState {
  coins : Z;
  stars : Z;
  memory : MemoryData;
  f1_bestTime : option Z;
  f1_gamesPlayed : Z
}.

Record LevelResult : Type := mkLevelResult {
  success : bool;
  points : Z;
  starsEarned : Z;
  coinsEarned : Z
}.

Definition level_result (hasFailed : bool) (score totalQs level : Z) : LevelResult :=
  let success := score >=? Math_ceil (to_double totalQs * 0.6) in
  let points := score * 10 * level in
  let starsEarned :=
    if score =? totalQs then 3
    else if score >=? Math_ceil (to_double totalQs * 0.8) then 2
    else if score >=? Math_ceil (to_double totalQs * 0.6) then 1
    else 0 in
  let coinsEarned := if success && negb hasFailed then 1 else 0 in
  mkLevelResult success points starsEarned coinsEarned.

(** [finishMemoryLevel]: the state it leaves. *)
Definition finishMemoryLevel (state : State) (score totalQs level : Z) : State :=
  let memData := memory state in
  let r := level_result (hasFailedCurrent memData) score totalQs level in
  let highScore' := Z.max (highScore memData) (points r) in
  if success r then
    mkState (coins state + coinsEarned r) (stars state + starsEarned r)
            (mkMemoryData (Z.min 300 (level + 1)) highScore' (gamesPlayed memData)
                          (levelsCompleted memData + 1) false)
            (f1_bestTime state) (f1_gamesPlayed state)
  else
    mkState (coins state) (stars state)
            (mkMemoryData (Js.level memData) highScore' (gamesPlayed memData)
                          (levelsCompleted memData) true)
            (f1_bestTime state) (f1_gamesPlayed state).

(** **** [syncScore]: the gains reported to the server *)

(** The score decides the gains of the memory game and of Color Confusion
    only, where it is a count of answers or of points. *)
Definition coins_gained (gameType : string) (score : Z) : Z :=
  if String.eqb gameType "memory" then (if score >=? Math_ceil (5 * 0.6) then 1 else 0)
  else if String.eqb gameType "f1" then 20
  else if String.eqb gameType "schulte" then 30
  else score / 10.

Definition stars_gained (gameType : string) (score : Z) : Z :=
  if String.eqb gameType "memory" then
    (if score =? 5 then 3 else if score >=? 4 then 2 else if score >=? 3 then 1 else 0)
  else if String.eqb gameType "schulte" then 2
  else if String.eqb gameType "confusion" then score / 5
  else 0.

(** What [finishRefinedConfusion] adds to the coins and the stars of the
    state. *)
Definition confusion_coins (totalPoints : Z) : Z := totalPoints / 100.
Definition confusion_stars (score : Z) : Z := score / 10.

(** **** F1 Reflex *)

Definition drivers : list (string * Z) :=
  [("Ayrton Senna", 175); ("Michael Schumacher", 180); ("Max Verstappen", 185);
   ("Charles Leclerc", 195); ("Lewis Hamilton", 202); ("Lando Norris", 210);
   ("George Russell", 215)]%string.

(** [findIndex]: the index of the first element that passes, or -1. *)
Fixpoint findIndex {A : Type} (test : A -> bool) (l : list A) : Z :=
  match l with
  | [] => -1
  | x :: l' => if test x then 0 else
                 let i := findIndex test l' in if i <? 0 then -1 else i + 1
  end.

(** The table of [showF1Result]: the drivers and the player, sorted by time.
    [Array.prototype.sort] is stable, and the comparator [a.time - b.time]
    is negative exactly when [a] has the shorter time. *)
Definition f1_table (time : Z) : list (string * Z) :=
  insertion_sort (fun a b => snd a <? snd b) (drivers ++ [("⭐ YOU"%string, time)]).

Definition f1_rank (time : Z) : Z :=
  findIndex (fun d => String.eqb (fst d) "⭐ YOU") (f1_table time) + 1.

(** [showF1Result]: the state it leaves. *)
Definition showF1Result (state : State) (time : Z) : State :=
  let isNewBest :=
    match f1_bestTime state with
    | None => true
    | Some bestTime => time <? bestTime
    end in
  mkState (coins state + 20) (stars state) (memory state)
          (if isNewBest then Some time else f1_bestTime state)
          (f1_gamesPlayed state + 1).

(** **** Schulte Grid *)

(** The click handler of a cell: the number looked for next, after a click on
    the cell with the number [val]. *)
Definition click (nextNum val : Z) : Z :=
  if val =? nextNum then nextNum + 1 else nextNum.

(** The number looked for after a sequence of clicks, from 1 on. *)
Definition nextNum_after (clicks : list Z) : Z := fold_left click clicks 1.

(** The numbers [first], [first + 1], ... , [count] of them. *)
Fixpoint run (first : Z) (count : nat) : list Z :=
  match count with
  | O => []
  | S count' => first :: run (first + 1) count'
  end.

End Js.

(** [l] is a subsequence of [m]: [m] with some of its elements left out. *)
Inductive subsequence {A : Type} : list A -> list A -> Prop :=
  | subsequence_nil : subsequence [] []
  | subsequence_take (x : A) (l m : list A) : subsequence l m -> subsequence (x :: l) (x :: m)
  | subsequence_skip (x : A) (l m : list A) : subsequence l m -> subsequence l (x :: m).

(** ** The rules in the words of the specification *)

Module Spec.

(** [points = round((10 + speedBonus) * comboMultiplier * difficultyBonus)],
    with the factors and their product in double arithmetic and [round] the
    rounding to the nearest integer, halves away from zero; [None] where the
    product is no number to round. *)
Definition speedBonus (reactionMs : Z) : Z := Z.max 0 (Z.quot (2000 - reactionMs) 100).

Definition points (reactionMs combo difficulty : Z) : option Z :=
  let comboMultiplier := (1 + to_double combo * 0.1)%float in
  let difficultyBonus := (1 + to_double (difficulty - 1) * 0.15)%float in
  round_finite TieAway (to_double (10 + speedBonus reactionMs) * comboMultiplier * difficultyBonus).

(** The clauses of the rating cascade, in their priority order: the bound the
    average reaction time must be below, the count the correct answers must
    exceed, the rating. *)
Definition rating_clauses : list (float * Z * Rating) :=
  [ (400%float, 50, Legendary); (500%float, 40, Grandmaster); (600%float, 30, Master);
    (700%float, 25, Expert); (800%float, 20, Advanced); (1000%float, 15, Proficient);
    (1200%float, 10, Intermediate); (1500%float, 5, Beginner) ].

Definition clause_holds (avgReactionMs : float) (correctCount : Z) (c : float * Z * Rating) : bool :=
  let '(bound, count, _) := c in (avgReactionMs <? bound)%float && (correctCount >? count).

(** First match, else Trainee. *)
Definition rating (avgReactionMs : float) (correctCount : Z) : Rating :=
  match find (clause_holds avgReactionMs correctCount) rating_clauses with
  | Some (_, _, r) => r
  | None => Trainee
  end.

(** A generated question over a pool: the displayed word is the upper-cased
    name of a pool color other than the correct color, and is not the correct
    color, also when case is ignored; the options are four, pairwise distinct,
    and hold the correct color; besides it they consist of [picked], up to
    three distractors of the pool (colors other than the correct color and the
    word), as many as there are up to three, and of [fillers] from the full
    registry that make up for the distractors the pool lacks. *)
Definition well_formed_question (pool : list string) (displayedWord correctColor : string)
    (options : list string) : Prop :=
  exists (word : string) (picked fillers : list string),
    let distractors :=
      filter (fun c => negb (String.eqb c correctColor) && negb (String.eqb c word)) pool in
    In correctColor pool
    /\ In word pool
    /\ word <> correctColor
    /\ displayedWord = toUpper word
    /\ displayedWord <> correctColor
    /\ equalsIgnoreCase correctColor displayedWord = false
    /\ List.length options = 4%nat
    /\ NoDup options
    /\ In correctColor options
    /\ Permutation options (correctColor :: picked ++ fillers)
    /\ incl picked distractors
    /\ List.length picked = Nat.min 3 (List.length distractors)
    /\ incl fillers Colors_Keys.

End Spec.

(** ** Streaks

    The number of correct answers a sequence of answers begins with, and the
    number it ends with. *)

Fixpoint leading (l : list bool) : nat :=
  match l with
  | true :: r => S (leading r)
  | _ => O
  end.

Definition trailing (l : list bool) : nat := leading (rev l).

(** ** Sample data *)

(** The three records of the ranking example: points and average reaction
    time (1240, 45.2), (1240, 42.1), (950, 50). *)
Definition three_records : list Cpp.PlayerScore :=
  [ Cpp.mkPlayerScore "Cipher_Master" "endless" 1240 42 15 45.2 120.5 "Expert";
    Cpp.mkPlayerScore "Quantum_Mind" "endless" 1240 55 22 42.1 180.2 "Grandmaster";
    Cpp.mkPlayerScore "Master_Player" "endless" 950 30 8 50.0 75.0 "Proficient" ].

(** Ten draws, enough for one question over the pool of difficulty 1: font
    color Yellow, word Red, options Green, Blue, Violet, Yellow. *)
Definition sample_tape : list Z := [7; 3; 100; 50; 9; 12; 5; 6; 7; 8].

(** A SpeedRun session that was started and asked its first question, and
    the session after the correct answer to it, given in 500 ms. *)
Definition speedrun_asked : CSharp.GameSession :=
  match CSharp.NextQuestion
          (CSharp.Start (CSharp.new_GameSession CSharp.SpeedRun sample_tape) 0)
  with
  | Ok (_, s) => s
  | _ => CSharp.new_GameSession CSharp.SpeedRun []
  end.

Definition speedrun_one_correct : CSharp.GameSession :=
  snd (CSharp.SubmitAnswer speedrun_asked "yellow" 500).

(** A Survival session that was started and asked its first question, and the
    session after [n] wrong answers in a row. *)
Definition survival_asked : CSharp.GameSession :=
  match CSharp.NextQuestion
          (CSharp.Start (CSharp.new_GameSession CSharp.Survival sample_tape) 0)
  with
  | Ok (_, s) => s
  | _ => CSharp.new_GameSession CSharp.Survival []
  end.

Fixpoint wrong_answers (n : nat) (s : CSharp.GameSession) : CSharp.GameSession :=
  match n with
  | O => s
  | S n' => wrong_answers n' (snd (CSharp.SubmitAnswer s "WrongColor" 700))
  end.

(** An Endless session that was started and asked its first question, the
    session after [n] answers of "Yellow", the correct color, each given in
    [rt] milliseconds, and the session that lost its three lives. *)
Definition endless_asked : CSharp.GameSession :=
  match CSharp.NextQuestion
          (CSharp.Start (CSharp.new_GameSession CSharp.Endless sample_tape) 0)
  with
  | Ok (_, s) => s
  | _ => CSharp.new_GameSession CSharp.Endless []
  end.

Fixpoint correct_answers (n : nat) (rt : Z) (s : CSharp.GameSession) : CSharp.GameSession :=
  match n with
  | O => s
  | S n' => correct_answers n' rt (snd (CSharp.SubmitAnswer s "Yellow" rt))
  end.

Definition endless_finished : CSharp.GameSession := wrong_answers 3 endless_asked.

(** * Verification *)

(** Two doubles with different binary64 values differ. *)
Ltac float_neq :=
  let H := fresh in
  intros H; apply (f_equal Prim2SF) in H; vm_compute in H; discriminate H.

(** ** Machine integers *)

Lemma wrap32_id (z : Z) : int_range z -> wrap32 z = z.
Proof.
  unfold int_range, wrap32. intros Hz.
  rewrite Z.mod_small; lia.
Qed.

Lemma wrap64_id (z : Z) :
  -9223372036854775808 <= z <= 9223372036854775807 -> wrap64 z = z.
Proof.
  unfold wrap64. intros Hz.
  rewrite Z.mod_small; lia.
Qed.

Lemma cast_int_id (k : Z) : int_range k -> cast_int (Some k) = k.
Proof.
  unfold int_range, cast_int. intros Hk.
  destruct (Z.leb_spec (-2147483648) k); [|lia].
  destruct (Z.leb_spec k 2147483647); [reflexivity | lia].
Qed.

Lemma wrap32_range (z : Z) : int_range (wrap32 z).
Proof.
  unfold int_range, wrap32.
  pose proof (Z.mod_pos_bound (z + 2147483648) 4294967296 eq_refl). lia.
Qed.

(** Under the [max] with 0, truncating and flooring division agree. *)
Lemma max0_quot_div (a : Z) : Z.max 0 (Z.quot a 100) = Z.max 0 (a / 100).
Proof.
  destruct (Z.le_gt_cases 0 a) as [Ha | Ha].
  - rewrite Z.quot_div_nonneg by lia. reflexivity.
  - assert (Hq : Z.quot a 100 <= 0).
    { replace a with (- (- a)) by lia. rewrite Z.quot_opp_l by lia.
      pose proof (Z.quot_pos (- a) 100). lia. }
    assert (Hd : a / 100 < 0) by (apply Z.div_lt_upper_bound; lia).
    lia.
Qed.

Lemma speedBonus_bounds (r : Z) : 0 <= r -> 0 <= Z.max 0 ((2000 - r) / 100) <= 20.
Proof.
  intros Hr. split; [lia|].
  assert ((2000 - r) / 100 <= 20).
  { apply Z.div_le_upper_bound; lia. }
  lia.
Qed.

(** ** Doubles *)

Section Doubles.

#[local] Open Scope float_scope.

(** Swapping the operands of a comparison reverses its outcome. *)
Lemma SFcompare_swap (a b : spec_float) :
  SFcompare b a = match SFcompare a b with Some c => Some (CompOpp c) | None => None end.
Proof.
  destruct a as [sa|sa| |sa ma ea], b as [sb|sb| |sb mb eb]; simpl; try reflexivity;
    try (destruct sa; reflexivity); try (destruct sb; reflexivity);
    try (destruct sa, sb; reflexivity).
  change (Pos.compare_cont Eq ma mb) with (Pos.compare ma mb);
  change (Pos.compare_cont Eq mb ma) with (Pos.compare mb ma).
  rewrite (Z.compare_antisym ea eb), (Pos.compare_antisym ma mb).
  destruct sa, sb; try reflexivity;
    destruct (ea ?= eb)%Z; simpl; try reflexivity;
    destruct (ma ?= mb)%positive; reflexivity.
Qed.

Lemma ltb_asym (a b : float) : (a <? b) = true -> (b <? a) = false.
Proof.
  rewrite !FloatAxioms.ltb_spec. unfold SFltb.
  rewrite (SFcompare_swap (Prim2SF a) (Prim2SF b)).
  destruct (SFcompare (Prim2SF a) (Prim2SF b)) as [[]|]; simpl; congruence.
Qed.

Lemma eqb_not_gtb (a b : float) : (a =? b) = true -> (b <? a) = false.
Proof.
  rewrite FloatAxioms.eqb_spec, FloatAxioms.ltb_spec. unfold SFeqb, SFltb.
  rewrite (SFcompare_swap (Prim2SF a) (Prim2SF b)).
  destruct (SFcompare (Prim2SF a) (Prim2SF b)) as [[]|]; simpl; congruence.
Qed.

Lemma eqb_leb (a b : float) : (a =? b) = true -> (a <=? b) = true.
Proof.
  rewrite FloatAxioms.eqb_spec, FloatAxioms.leb_spec. unfold SFeqb, SFleb.
  destruct (SFcompare (Prim2SF a) (Prim2SF b)) as [[]|]; simpl; congruence.
Qed.

Lemma ltb_zero_neg_free (x : float) : (x <? 0) = false <-> neg_free (Prim2SF x).
Proof.
  rewrite FloatAxioms.ltb_spec. change (Prim2SF 0) with (S754_zero false).
  destruct (Prim2SF x) as [s|s| |s m e]; try destruct s; cbv [SFltb SFcompare neg_free];
    split; intros; trivial; try discriminate; try contradiction.
Qed.

Lemma binary_round_aux_sign (s : bool) (mx ex : Z) (lx : location) :
  carries_sign s (binary_round_aux prec emax s mx ex lx).
Proof.
  unfold binary_round_aux.
  destruct (shr_fexp prec emax mx ex lx) as [mrs' e'].
  destruct (shr_fexp prec emax _ e' loc_Exact) as [mrs'' e''].
  destruct (shr_m mrs''); simpl; trivial.
  destruct (Z.leb _ _); simpl; trivial.
Qed.

Lemma carries_false_neg_free (x : spec_float) : carries_sign false x -> neg_free x.
Proof. destruct x as [s|s| |s m e]; simpl; intros; subst; trivial. Qed.

Lemma binary_round_neg_free (m : positive) (e : Z) :
  neg_free (binary_round prec emax false m e).
Proof.
  unfold binary_round. destruct (shl_align _ _ _) as [mz ez].
  apply carries_false_neg_free, binary_round_aux_sign.
Qed.

Lemma binary_normalize_neg_free (m e : Z) :
  (0 <= m)%Z -> neg_free (binary_normalize prec emax m e false).
Proof.
  intros Hm. destruct m as [|p|p]; [exact I | apply binary_round_neg_free | lia].
Qed.

Lemma SFmul_neg_free (a b : spec_float) :
  neg_free a -> neg_free b -> neg_free (SF64mul a b).
Proof.
  destruct a as [sa|sa| |sa ma ea], b as [sb|sb| |sb mb eb]; simpl; trivial;
    try (destruct sa; simpl; trivial; fail); try (destruct sb; simpl; trivial; fail);
    try (destruct sa, sb; simpl; tauto).
  destruct sa, sb; simpl; try tauto. intros _ _.
  apply carries_false_neg_free, binary_round_aux_sign.
Qed.

Lemma SFadd_neg_free (a b : spec_float) :
  neg_free a -> neg_free b -> neg_free (SF64add a b).
Proof.
  destruct a as [sa|sa| |sa ma ea], b as [sb|sb| |sb mb eb]; simpl; trivial;
    try (destruct sa; simpl; trivial; fail); try (destruct sb; simpl; trivial; fail);
    try (destruct sa, sb; simpl; tauto).
  destruct sa, sb; simpl; try tauto. intros _ _.
  apply binary_round_neg_free.
Qed.

Lemma mul_neg_free (a b : float) :
  neg_free (Prim2SF a) -> neg_free (Prim2SF b) -> neg_free (Prim2SF (a * b)).
Proof. rewrite FloatAxioms.mul_spec. apply SFmul_neg_free. Qed.

Lemma add_neg_free (a b : float) :
  neg_free (Prim2SF a) -> neg_free (Prim2SF b) -> neg_free (Prim2SF (a + b)).
Proof. rewrite FloatAxioms.add_spec. apply SFadd_neg_free. Qed.

Lemma to_double_neg_free (z : Z) : (0 <= z)%Z -> neg_free (Prim2SF (to_double z)).
Proof.
  intros Hz. unfold to_double. destruct (Z.ltb_spec z 0); [lia|].
  rewrite of_uint63_spec. apply binary_normalize_neg_free.
  pose proof (Uint63.to_Z_bounded (of_Z z)). lia.
Qed.

(** Multiplying a double by 1.0 returns it. *)
Lemma SFmul_one_r (x : spec_float) :
  valid_binary x = true -> SF64mul x (S754_finite false 4503599627370496 (-52)) = x.
Proof.
  destruct x as [s|s| |s m e]; intros Hv; simpl in Hv; cbn [SF64mul SFmul];
    rewrite ?xorb_false_r; try reflexivity.
  unfold bounded, canonical_mantissa, fexp in Hv.
  apply andb_prop in Hv. destruct Hv as [Hc He].
  apply Z.eqb_eq in Hc. apply Z.leb_le in He.
  change prec with 53%Z in *. change emax with 1024%Z in *.
  change (SpecFloat.emin 53 1024) with (-1074)%Z in *.
  change IntDef.Z.max with Z.max in *.
  rewrite (Pos.mul_comm m). cbn [Pos.mul].
  unfold binary_round_aux, shr_fexp, fexp. cbn [Zdigits2 digits2_pos shr_record_of_loc].
  change (SpecFloat.emin 53 1024) with (-1074)%Z in *.
  change IntDef.Z.max with Z.max in *.
  rewrite !Pos2Z.inj_succ.
  match goal with |- context [shr ?r (e + -52)%Z ?n] => replace n with 52%Z by lia end.
  cbn [shr iter_pos shr_1 orb shr_m loc_of_shr_record round_nearest_even Zdigits2].
  match goal with |- context [shr ?r ?e0 ?n] => replace n with 0%Z by lia end.
  cbn [shr shr_m].
  replace (e + -52 + 52)%Z with e by lia.
  destruct (Z.leb_spec e (1024 - 53)); [reflexivity | lia].
Qed.

Lemma mul_one_r (x : float) : x * 1 = x.
Proof.
  apply Prim2SF_inj. rewrite FloatAxioms.mul_spec.
  change (Prim2SF 1) with (S754_finite false 4503599627370496 (-52)).
  apply SFmul_one_r, Prim2SF_valid.
Qed.

(** On a double that is not negative, the tie rules "away from zero" and
    "toward positive infinity" round alike. *)
Lemma round_away_up (x : float) :
  neg_free (Prim2SF x) -> round_finite TieAway x = round_finite TieUp x.
Proof.
  unfold round_finite. destruct (Prim2SF x) as [s|s| |s m e]; trivial.
  destruct s; simpl; [contradiction|]. intros _.
  destruct e; reflexivity.
Qed.

End Doubles.

(** ** Scoring *)

Section Scoring.

#[local] Open Scope float_scope.

Lemma difficultyBonus_at_1 : 1.0 + to_double (sub32 1 1) * 0.15 = 1.
Proof. vm_compute. reflexivity. Qed.

(** The product the three scorers round, before rounding, is not negative
    when the combo is not. *)
Lemma scored_product_neg_free (n combo : Z) :
  (0 <= n)%Z -> (0 <= combo)%Z ->
  neg_free (Prim2SF (to_double n * (1 + to_double combo * 0.1))).
Proof.
  intros Hn Hc.
  apply mul_neg_free; [apply to_double_neg_free; exact Hn|].
  apply add_neg_free; [vm_compute; exact I|].
  apply mul_neg_free; [apply to_double_neg_free; exact Hc|vm_compute; exact I].
Qed.

(** The C++ scorer computes the documented formula wherever its [int]
    arithmetic does not overflow. *)
Lemma Cpp_calculatePoints_spec (reactionMs combo difficulty points : Z) :
  (-2147481647 <= reactionMs <= 2147483647)%Z ->
  (-2147483647 <= difficulty <= 2147483647)%Z ->
  Spec.points reactionMs combo difficulty = Some points ->
  int_range points ->
  Cpp.calculatePoints reactionMs combo difficulty = points.
Proof.
  intros Hr Hd Hs Hp. unfold Cpp.calculatePoints, Spec.points, Spec.speedBonus in *.
  unfold sub32, div32, add32.
  rewrite (wrap32_id (2000 - reactionMs)) by (unfold int_range; lia).
  assert (Hq : (-21474837 <= Z.quot (2000 - reactionMs) 100 <= 21474837)%Z).
  { split.
    - apply Z.quot_le_lower_bound; lia.
    - apply Z.quot_le_upper_bound; lia. }
  rewrite (wrap32_id (Z.quot (2000 - reactionMs) 100)) by (unfold int_range; lia).
  rewrite (wrap32_id (10 + _)) by (unfold int_range; lia).
  rewrite (wrap32_id (difficulty - 1)) by (unfold int_range; lia).
  rewrite Hs. apply cast_int_id. exact Hp.
Qed.

End Scoring.

(** C1 (the C# scorer departs from the documented rounding).  The points of
    one answer are round((10 + speedBonus) * (1 + combo*0.1) *
    (1 + (difficulty-1)*0.15)), in every implementation alike.  At reaction
    1900 ms, combo 5, difficulty 1 the product is the double 16.5 exactly; the
    formula, the C++ scorer and the Java scorer give 17, and
    [ScoreCalculator.CalculatePoints] of C#, whose [Math.Round] sends a half
    to the even neighbour, gives 16.  On the documented example
    (300, 5, 3) all of them give 53.  A session meets the input: the fifth
    correct answer in a row of a new Endless session, given in 1900 ms, earns
    16 points. *)
Theorem CalculatePoints_half_to_even :
  (to_double (10 + Spec.speedBonus 1900) * (1 + to_double 5 * 0.1)
     * (1 + to_double (1 - 1) * 0.15))%float = 16.5%float
  /\ Spec.points 1900 5 1 = Some 17
  /\ Cpp.calculatePoints 1900 5 1 = 17
  /\ Java.calculatePoints 1900 5 1 = 17
  /\ CSharp.CalculatePoints 1900 5 1 = 16
  /\ Spec.points 300 5 3 = Some 53
  /\ Cpp.calculatePoints 300 5 3 = 53
  /\ CSharp.CalculatePoints 300 5 3 = 53
  /\ fst (CSharp.SubmitAnswer (correct_answers 4 1900 endless_asked) "Yellow" 1900)
     = CSharp.Outcome true 16 70 5 5 5 3 (-1) true.
Proof. repeat split; vm_compute; reflexivity. Qed.

(** On the reaction times of a game, the speed bonus the client computes on
    doubles, [Math.max(0, Math.floor((2000 - RT) / 100))], is the floor
    division on integers that [Js.points_added] takes for it. *)
Lemma speedBonus_on_doubles_exact (RT : Z) :
  0 <= RT <= 4000 -> Js.speedBonus_on_doubles RT = Z.max 0 ((2000 - RT) / 100).
Proof.
  intros H.
  assert (Hall : forallb (fun k => (Js.speedBonus_on_doubles (Z.of_nat k)
                                    =? Z.max 0 ((2000 - Z.of_nat k) / 100))%Z)
                         (seq 0 4001) = true) by (vm_compute; reflexivity).
  rewrite forallb_forall in Hall. specialize (Hall (Z.to_nat RT)).
  rewrite Z2Nat.id in Hall by lia. apply Z.eqb_eq, Hall. apply in_seq. lia.
Qed.

(** C2, as stated, fails: at reaction 300 ms, combo 5 and difficulty 3 the
    client adds 41 points where [calculatePoints] of the C++ engine gives 53. *)
Lemma points_added_omits_difficulty :
  Js.points_added 300 5 = Some 41
  /\ Cpp.calculatePoints 300 5 3 = 53
  /\ Js.points_added 300 5 <> Some (Cpp.calculatePoints 300 5 3).
Proof. repeat split; vm_compute; try reflexivity; discriminate. Qed.

(** C2 (amended).  The client adds round((10 + speedBonus) * (1 + combo*0.1)),
    with no difficulty bonus: for a reaction time and a combo that are not
    negative, the points it adds, when they fit an [int], are what
    [calculatePoints] of the C++ engine and of the Java engine return at
    difficulty 1. *)
Theorem points_added_is_calculatePoints_at_1 (RT combo points : Z) :
  0 <= RT <= 2147483647 ->
  0 <= combo ->
  Js.points_added RT combo = Some points ->
  int_range points ->
  Cpp.calculatePoints RT combo 1 = points
  /\ Java.calculatePoints RT combo 1 = points.
Proof.
  intros Hr Hc Hjs Hp.
  pose proof (speedBonus_bounds RT (proj1 Hr)) as Hsb.
  assert (Hcpp : Z.max 0 (div32 (sub32 2000 RT) 100) = Z.max 0 ((2000 - RT) / 100)).
  { unfold div32, sub32.
    rewrite (wrap32_id (2000 - RT)) by (unfold int_range; lia).
    assert (-21474837 <= Z.quot (2000 - RT) 100 <= 20).
    { split; [apply Z.quot_le_lower_bound; lia | apply Z.quot_le_upper_bound; lia]. }
    rewrite wrap32_id by (unfold int_range; lia).
    apply max0_quot_div. }
  assert (Hjava : Z.max 0 (wrap32 (wrap64 (Z.quot (wrap64 (2000 - RT)) 100)))
                  = Z.max 0 ((2000 - RT) / 100)).
  { rewrite (wrap64_id (2000 - RT)) by lia.
    assert (-21474837 <= Z.quot (2000 - RT) 100 <= 20).
    { split; [apply Z.quot_le_lower_bound; lia | apply Z.quot_le_upper_bound; lia]. }
    rewrite wrap64_id by lia.
    rewrite wrap32_id by (unfold int_range; lia).
    apply max0_quot_div. }
  unfold Cpp.calculatePoints, Java.calculatePoints, Java.Math_round, Java.clamp64.
  rewrite Hcpp, Hjava. unfold add32.
  rewrite (wrap32_id (10 + _)) by (unfold int_range; lia).
  rewrite difficultyBonus_at_1, mul_one_r, round_away_up
    by (apply scored_product_neg_free; lia).
  unfold Js.points_added, Js.Math_round in Hjs. rewrite Hjs.
  unfold int_range in Hp. split.
  - apply cast_int_id. exact Hp.
  - rewrite Z.min_r, Z.max_r by lia. apply wrap32_id. exact Hp.
Qed.

(** The amended C2 at reaction 1900 ms and combo 5, where all three give 17. *)
Lemma points_added_is_calculatePoints_at_1_witness :
  Cpp.calculatePoints 1900 5 1 = 17 /\ Java.calculatePoints 1900 5 1 = 17.
Proof.
  apply (points_added_is_calculatePoints_at_1 1900 5 17).
  - lia.
  - lia.
  - vm_compute. reflexivity.
  - vm_compute. split; discriminate.
Defined.

(** ** Rating *)

(** C4.  The rating is the first clause that holds, in the order Legendary,
    Grandmaster, Master, Expert, Advanced, Proficient, Intermediate, Beginner,
    else Trainee, where a clause holds when the average reaction time is below
    its bound and the correct count above its count, both at once: the C++,
    Java and C# cascades all return the name of [Spec.rating], which on
    (450, 45) is Grandmaster. *)
Theorem getPerformanceRating_first_match (avgReactionMs : float) (correctCount : Z) :
  Cpp.getPerformanceRating avgReactionMs correctCount
    = rating_name (Spec.rating avgReactionMs correctCount)
  /\ Java.rating_of avgReactionMs correctCount
    = rating_name (Spec.rating avgReactionMs correctCount)
  /\ CSharp.CalculateRating avgReactionMs correctCount
    = rating_name (Spec.rating avgReactionMs correctCount)
  /\ Spec.rating 450 45 = Grandmaster
  /\ Cpp.getPerformanceRating 450 45 = "Grandmaster"%string.
Proof.
  unfold Cpp.getPerformanceRating, Java.rating_of, CSharp.CalculateRating, Spec.rating.
  cbn [find Spec.rating_clauses Spec.clause_holds].
  repeat split; try (vm_compute; reflexivity);
    repeat match goal with
           | |- context [if ?b && ?c then _ else _] => destruct (b && c); [reflexivity|]
           end; reflexivity.
Qed.

(** ** Ranking *)

Section Sorting.

Context {A : Type} (before : A -> A -> bool).

Lemma sort_insert_perm (x : A) (l : list A) :
  Permutation (sort_insert before x l) (x :: l).
Proof.
  induction l as [|y l IH]; simpl.
  - apply Permutation_refl.
  - destruct (before y x).
    + eapply perm_trans; [apply perm_skip, IH | apply perm_swap].
    + apply Permutation_refl.
Qed.

Lemma insertion_sort_perm (l : list A) : Permutation (insertion_sort before l) l.
Proof.
  induction l as [|x l IH]; simpl.
  - apply perm_nil.
  - eapply perm_trans; [apply sort_insert_perm | apply perm_skip, IH].
Qed.

(** No element of the output goes strictly before its predecessor, as soon
    as "goes before" is asymmetric. *)
Hypothesis before_asym : forall a b, before a b = true -> before b a = false.

Lemma sort_insert_sorted (x : A) (l : list A) :
  Sorted (fun a b => before b a = false) l ->
  Sorted (fun a b => before b a = false) (sort_insert before x l).
Proof.
  induction l as [|y l IH]; simpl; intros Hs.
  - repeat constructor.
  - destruct (before y x) eqn:Hyx.
    + apply Sorted_inv in Hs. destruct Hs as [Hs Hhd].
      constructor; [apply IH, Hs|].
      destruct l as [|z l]; simpl.
      * constructor. apply before_asym, Hyx.
      * destruct (before z x).
        -- inversion Hhd; subst. constructor. assumption.
        -- constructor. apply before_asym, Hyx.
    + constructor; [exact Hs|]. constructor. exact Hyx.
Qed.

Lemma insertion_sort_sorted (l : list A) :
  Sorted (fun a b => before b a = false) (insertion_sort before l).
Proof.
  induction l as [|x l IH]; simpl.
  - constructor.
  - apply sort_insert_sorted, IH.
Qed.

End Sorting.

Section Ranking.

Import Cpp.

Lemma ranks_before_asym (a b : PlayerScore) :
  ranks_before a b = true -> ranks_before b a = false.
Proof.
  unfold ranks_before.
  destruct (Z.eqb_spec (totalPoints a) (totalPoints b)) as [He | Hne]; simpl.
  - rewrite He, Z.eqb_refl. simpl. apply ltb_asym.
  - destruct (Z.eqb_spec (totalPoints b) (totalPoints a)) as [He' | _]; [congruence|].
    simpl. intros H. apply Z.gtb_lt in H.
    destruct (Z.gtb_spec (totalPoints b) (totalPoints a)); [lia | reflexivity].
Qed.

Lemma ranks_before_points (a b : PlayerScore) :
  ranks_before a b = true -> totalPoints a >= totalPoints b.
Proof.
  unfold ranks_before.
  destruct (Z.eqb_spec (totalPoints a) (totalPoints b)) as [He | Hne]; simpl; intros H.
  - lia.
  - apply Z.gtb_lt in H. lia.
Qed.

Lemma not_ranks_before_points (a b : PlayerScore) :
  ranks_before a b = false -> totalPoints b >= totalPoints a.
Proof.
  unfold ranks_before.
  destruct (Z.eqb_spec (totalPoints a) (totalPoints b)) as [He | Hne]; simpl; intros H.
  - lia.
  - destruct (Z.gtb_spec (totalPoints a) (totalPoints b)); [discriminate | lia].
Qed.

(** The loop of [getRankings] copies the players in order. *)
Lemma rank_from_copies (totalPlayers i : Z) (sorted : list PlayerScore) :
  map copied_of_entry (rank_from totalPlayers i sorted) = map copied_of_score sorted.
Proof.
  revert i. induction sorted as [|p l IH]; intros i; simpl.
  - reflexivity.
  - rewrite IH. reflexivity.
Qed.

(** ... and gives the entry at index [k] the rank [k + 1] and the percentile
    of index [k]. *)
Lemma rank_from_nth (totalPlayers i : Z) (sorted : list PlayerScore) (k : nat) (e : RankEntry) :
  0 <= i -> i + Z.of_nat (List.length sorted) <= 2147483647 ->
  nth_error (rank_from totalPlayers i sorted) k = Some e ->
  rank e = i + Z.of_nat k + 1
  /\ percentile e = percentile_at totalPlayers (i + Z.of_nat k).
Proof.
  revert i k. induction sorted as [|p l IH]; intros i k Hi Hlen Hk.
  - destruct k; discriminate.
  - simpl in Hlen. assert (Hw : add32 i 1 = i + 1).
    { apply wrap32_id. unfold int_range. lia. }
    destruct k as [|k]; simpl in Hk.
    + injection Hk as <-. simpl. rewrite Hw, Z.add_0_r. split; reflexivity.
    + rewrite Hw in Hk. apply IH in Hk; [|lia|lia].
      destruct Hk as [Hr Hp]. rewrite Hr, Hp. split; [lia | f_equal; lia].
Qed.

End Ranking.

Lemma Sorted_weaken {A : Type} (R R' : A -> A -> Prop) (l : list A) :
  (forall a b, R a b -> R' a b) -> Sorted R l -> Sorted R' l.
Proof.
  intros Himp. induction 1 as [|a l Hs IH Hh]; constructor.
  - exact IH.
  - destruct Hh; constructor. apply Himp. assumption.
Qed.

Section SortedMap.

Context {A B : Type} (f : A -> B) (R : B -> B -> Prop).

Lemma HdRel_map (a : A) (l : list A) :
  HdRel (fun x y => R (f x) (f y)) a l <-> HdRel R (f a) (map f l).
Proof.
  destruct l as [|y l]; simpl; split; intros H; constructor; inversion H; assumption.
Qed.

Lemma Sorted_map_iff (l : list A) :
  Sorted (fun x y => R (f x) (f y)) l <-> Sorted R (map f l).
Proof.
  induction l as [|a l IH]; simpl; split; intros H; try constructor;
    apply Sorted_inv in H; destruct H as [Hs Hh].
  - apply IH, Hs.
  - apply HdRel_map, Hh.
  - apply IH, Hs.
  - apply HdRel_map, Hh.
Qed.

Lemma StronglySorted_map_iff (l : list A) :
  StronglySorted (fun x y => R (f x) (f y)) l <-> StronglySorted R (map f l).
Proof.
  induction l as [|a l IH]; simpl; split; intros H; try constructor;
    apply StronglySorted_inv in H; destruct H as [Hs Hall].
  - apply IH, Hs.
  - apply (proj2 (Forall_map f (R (f a)) l)). exact Hall.
  - apply IH, Hs.
  - apply (proj1 (Forall_map f (R (f a)) l)). exact Hall.
Qed.

End SortedMap.

(** The players of the ranking utility come out in the same order, the
    faster of the two with 1240 points first. *)
Lemma sorted_players_order :
  map Leaderboard.name Leaderboard.sorted_players
  = [ "Quantum_Mind"; "Cipher_Master"; "Nexus_Brain"; "Master_Player" ]%string.
Proof. vm_compute. reflexivity. Qed.

(** ** The session state machine *)

Section Session.

Import CSharp.

Lemma GameState_eqb_eq (a b : GameState) : GameState_eqb a b = true <-> a = b.
Proof. destruct a, b; simpl; split; intros H; try reflexivity; discriminate. Qed.

Lemma GameState_eqb_neq (a b : GameState) : GameState_eqb a b = false <-> a <> b.
Proof. destruct a, b; simpl; split; intros H; congruence. Qed.

Lemma SubmitAnswer_Mode (s : GameSession) (sel : string) (rt : Z) :
  Mode (snd (SubmitAnswer s sel rt)) = Mode s.
Proof.
  unfold SubmitAnswer.
  destruct (CurrentQuestion s) as [q|]; [|reflexivity].
  destruct (negb (GameState_eqb (State s) Active)); [reflexivity|].
  destruct (equalsIgnoreCase (FontColorName q) sel); [reflexivity|].
  destruct (Mode s); reflexivity.
Qed.

Lemma NextQuestion_frame (s s' : GameSession) (q : option StroopQuestion) :
  NextQuestion s = Ok (q, s') ->
  Mode s' = Mode s /\ TimeLeft s' = TimeLeft s /\ State s' = State s.
Proof.
  unfold NextQuestion.
  destruct (negb (GameState_eqb (State s) Active)).
  - intros H. injection H as _ <-. repeat split.
  - destruct (generate (_colorPool s) (_random s)) as [[q' tape]| |]; try discriminate.
    intros H. injection H as _ <-. repeat split.
Qed.

End Session.

(** C7.  [SubmitAnswer] on a session that is not Active (Idle before
    [Start], or Finished) returns the error dictionary, a result no outcome
    equals, and the session after the call is the session before it, field by
    field. *)
Theorem SubmitAnswer_inactive (s : CSharp.GameSession) (selectedColor : string)
    (reactionTimeMs : Z) :
  CSharp.State s <> CSharp.Active ->
  CSharp.SubmitAnswer s selectedColor reactionTimeMs
    = (CSharp.Error "No active question", s)
  /\ forall (correct : bool) (pointsEarned totalPoints score combo maxCombo lives : Z)
            (timeLeft : float) (isActive : bool),
       fst (CSharp.SubmitAnswer s selectedColor reactionTimeMs)
       <> CSharp.Outcome correct pointsEarned totalPoints score combo maxCombo lives
                         timeLeft isActive.
Proof.
  intros Hs.
  assert (H : CSharp.SubmitAnswer s selectedColor reactionTimeMs
              = (CSharp.Error "No active question", s)).
  { unfold CSharp.SubmitAnswer.
    destruct (CSharp.CurrentQuestion s); [|reflexivity].
    destruct (CSharp.State s); try reflexivity. congruence. }
  split; [exact H|]. intros. rewrite H. discriminate.
Qed.

(** C7 on the session that lost its three lives, whose question is still set. *)
Lemma SubmitAnswer_inactive_witness :
  CSharp.SubmitAnswer endless_finished "Yellow" 300
    = (CSharp.Error "No active question", endless_finished).
Proof.
  refine (proj1 (SubmitAnswer_inactive endless_finished "Yellow" 300 _)).
  vm_compute. discriminate.
Defined.

(** C10.  [NextQuestion] on a session that is not Active returns [null],
    draws nothing from the random source and leaves the session as it was. *)
Theorem NextQuestion_inactive (s : CSharp.GameSession) :
  CSharp.State s <> CSharp.Active ->
  CSharp.NextQuestion s = Ok (None, s).
Proof.
  intros Hs. unfold CSharp.NextQuestion.
  destruct (CSharp.State s); try reflexivity. congruence.
Qed.

(** C10 on a session that was never started. *)
Lemma NextQuestion_inactive_witness :
  CSharp.NextQuestion (CSharp.new_GameSession CSharp.Survival [1; 2; 3])
    = Ok (None, CSharp.new_GameSession CSharp.Survival [1; 2; 3]).
Proof.
  apply (NextQuestion_inactive (CSharp.new_GameSession CSharp.Survival [1; 2; 3])).
  vm_compute. discriminate.
Defined.

(** ** Doubles in the session: the time left *)

Section TimeLeft.

#[local] Open Scope float_scope.

Lemma ltb_not_eqb (a b : float) : (a <? b) = true -> (a =? b) = false.
Proof.
  rewrite FloatAxioms.eqb_spec, FloatAxioms.ltb_spec. unfold SFeqb, SFltb.
  destruct (SFcompare (Prim2SF a) (Prim2SF b)) as [[]|]; simpl; congruence.
Qed.

Lemma eqb_sym (a b : float) : (a =? b) = (b =? a).
Proof.
  rewrite !FloatAxioms.eqb_spec. unfold SFeqb.
  rewrite (SFcompare_swap (Prim2SF a) (Prim2SF b)).
  destruct (SFcompare (Prim2SF a) (Prim2SF b)) as [[]|]; reflexivity.
Qed.

(** [Math.Max(0, y)] is [y] floored at 0: never negative, [y] when [y] is
    positive, 0 when [y] is negative, a zero when [y] is one. *)
Lemma Math_Max_zero_not_negative (y : float) : (Math_Max 0 y <? 0) = false.
Proof.
  unfold Math_Max. destruct (0 =? y) eqn:He; simpl.
  - destruct (get_sign y); [reflexivity|]. apply eqb_not_gtb, He.
  - change (PrimFloat.is_nan 0) with false. simpl.
    destruct (y <? 0) eqn:Hy; [reflexivity | exact Hy].
Qed.

Lemma Math_Max_zero_positive (y : float) : (0 <? y) = true -> Math_Max 0 y = y.
Proof.
  intros Hy. unfold Math_Max.
  rewrite (ltb_not_eqb _ _ Hy), (ltb_asym _ _ Hy). reflexivity.
Qed.

Lemma Math_Max_zero_negative (y : float) : (y <? 0) = true -> Math_Max 0 y = 0.
Proof.
  intros Hy. unfold Math_Max.
  rewrite (eqb_sym 0 y), (ltb_not_eqb _ _ Hy), Hy. reflexivity.
Qed.

Lemma Math_Max_zero_zero (y : float) : (y =? 0) = true -> (Math_Max 0 y =? 0) = true.
Proof.
  intros Hy. unfold Math_Max. rewrite (eqb_sym 0 y), Hy. simpl.
  destruct (get_sign y); [reflexivity | exact Hy].
Qed.

Lemma add_3_not_negative (t : float) : (t <? 0) = false -> (t + 3 <? 0) = false.
Proof.
  rewrite !ltb_zero_neg_free. intros Ht.
  apply add_neg_free; [exact Ht | vm_compute; exact I].
Qed.

End TimeLeft.

(** ** Survival: the time left *)

Section Survival.

Import CSharp.
#[local] Open Scope float_scope.

Lemma wrong_answers_reachable (s0 s : GameSession) (n : nat) :
  reachable s0 s -> reachable s0 (wrong_answers n s).
Proof.
  revert s. induction n as [|n IH]; intros s Hs; simpl.
  - exact Hs.
  - apply IH, reach_SubmitAnswer, Hs.
Qed.

Lemma survival_asked_reachable :
  reachable (new_GameSession Survival sample_tape) survival_asked.
Proof.
  eapply reach_NextQuestion; [apply reach_Start, reach_here|].
  vm_compute. reflexivity.
Qed.

(** What one answer does to the time left of an Active Survival session. *)
Lemma SubmitAnswer_Survival (s : GameSession) (q : StroopQuestion) (sel : string) (rt : Z) :
  Mode s = Survival -> State s = Active -> CurrentQuestion s = Some q ->
  let s' := snd (SubmitAnswer s sel rt) in
  if equalsIgnoreCase (FontColorName q) sel
  then TimeLeft s' = TimeLeft s + 3
  else TimeLeft s' = Math_Max 0 (TimeLeft s - 3)
       /\ ((TimeLeft s' =? 0) = true -> State s' = Finished).
Proof.
  intros Hm Hs Hq. unfold SubmitAnswer. rewrite Hq, Hs, Hm. simpl.
  destruct (equalsIgnoreCase (FontColorName q) sel); simpl.
  - reflexivity.
  - split; [reflexivity|]. intros H0. rewrite (eqb_leb _ _ H0). reflexivity.
Qed.

(** The invariant of a Survival session: its mode, and a time left that is
    not negative. *)
Lemma Survival_invariant (tape : list Z) (s : GameSession) :
  reachable (new_GameSession Survival tape) s ->
  Mode s = Survival /\ (TimeLeft s <? 0) = false.
Proof.
  induction 1 as [|s now Hr [IHm IHt]|s s' q Hr [IHm IHt] Hn|s sel rt Hr [IHm IHt]].
  - split; reflexivity.
  - split; assumption.
  - apply NextQuestion_frame in Hn. destruct Hn as (Hm & Ht & _).
    rewrite Hm, Ht. split; assumption.
  - split; [rewrite SubmitAnswer_Mode; exact IHm|].
    unfold SubmitAnswer.
    destruct (CurrentQuestion s) as [q|]; [|exact IHt].
    destruct (negb (GameState_eqb (State s) Active)); [exact IHt|].
    rewrite IHm.
    destruct (equalsIgnoreCase (FontColorName q) sel); simpl.
    + apply add_3_not_negative, IHt.
    + apply Math_Max_zero_not_negative.
Qed.

End Survival.

(** C9.  In every state a Survival session can reach from its creation with
    60 seconds, the time left is not negative; on an Active session a correct
    answer adds 3 seconds and a wrong answer makes the time left the maximum
    of 0 and the time left minus 3, and when that is exactly 0 the session is
    Finished. *)
Theorem Survival_time_never_negative (tape : list Z) (s : CSharp.GameSession) :
  CSharp.reachable (CSharp.new_GameSession CSharp.Survival tape) s ->
  (CSharp.TimeLeft s <? 0)%float = false
  /\ forall (q : CSharp.StroopQuestion) (selectedColor : string) (reactionTimeMs : Z),
       CSharp.State s = CSharp.Active ->
       CSharp.CurrentQuestion s = Some q ->
       let s' := snd (CSharp.SubmitAnswer s selectedColor reactionTimeMs) in
       if equalsIgnoreCase (CSharp.FontColorName q) selectedColor
       then CSharp.TimeLeft s' = (CSharp.TimeLeft s + 3)%float
       else CSharp.TimeLeft s' = Math_Max 0 (CSharp.TimeLeft s - 3)%float
            /\ ((CSharp.TimeLeft s' =? 0)%float = true -> CSharp.State s' = CSharp.Finished).
Proof.
  intros Hr. destruct (Survival_invariant tape s Hr) as [Hm Ht].
  split; [exact Ht|]. intros q sel rt Hs Hq.
  apply SubmitAnswer_Survival; assumption.
Qed.

(** C9 after twenty wrong answers in a row, which bring the 60 seconds to
    exactly 0 and finish the session. *)
Lemma Survival_time_never_negative_witness :
  (CSharp.TimeLeft (wrong_answers 20 survival_asked) <? 0)%float = false.
Proof.
  refine (proj1 (Survival_time_never_negative sample_tape
                   (wrong_answers 20 survival_asked) _)).
  apply wrong_answers_reachable, survival_asked_reachable.
Defined.

Lemma twenty_wrong_answers_finish :
  CSharp.TimeLeft (wrong_answers 19 survival_asked) = 3%float
  /\ CSharp.State (wrong_answers 19 survival_asked) = CSharp.Active
  /\ CSharp.TimeLeft (wrong_answers 20 survival_asked) = 0%float
  /\ CSharp.State (wrong_answers 20 survival_asked) = CSharp.Finished.
Proof. repeat split; vm_compute; reflexivity. Qed.

(** ** The final report *)

(** C3, as stated, fails: the session that lost its three lives is Finished,
    and its report read one second after the start differs from its report
    read two seconds after the start. *)
Lemma GetFinalReport_reads_the_clock :
  CSharp.State endless_finished = CSharp.Finished
  /\ CSharp.GetFinalReport endless_finished 10000000
     <> CSharp.GetFinalReport endless_finished 20000000.
Proof.
  split; [vm_compute; reflexivity|].
  intros H. apply (f_equal CSharp.ElapsedSeconds) in H.
  revert H. float_neq.
Qed.

(** A Finished session stays as it is under [NextQuestion] and
    [SubmitAnswer]. *)
Lemma continues_Finished (s s' : CSharp.GameSession) :
  CSharp.State s = CSharp.Finished -> CSharp.continues s s' -> s' = s.
Proof.
  intros Hs H. induction H as [|t t' q _ IH Hn | t selectedColor reactionTimeMs _ IH].
  - reflexivity.
  - subst t. unfold CSharp.NextQuestion in Hn. rewrite Hs in Hn. simpl in Hn.
    injection Hn as _ <-. reflexivity.
  - subst t. unfold CSharp.SubmitAnswer.
    destruct (CSharp.CurrentQuestion s); [rewrite Hs|]; reflexivity.
Qed.

(** C3 (amended).  Two calls of [GetFinalReport] on a Finished session, the
    second after any calls of [NextQuestion] and [SubmitAnswer], which leave
    the session as it is: the reports agree in every field but the elapsed
    seconds, which are the seconds from the start to the clock reading of
    each call; the two reports are identical exactly when these two doubles
    are equal, as they are with the same reading. *)
Theorem GetFinalReport_twice (s s' : CSharp.GameSession) (now1 now2 : Z) :
  CSharp.State s = CSharp.Finished ->
  CSharp.continues s s' ->
  let r1 := CSharp.GetFinalReport s now1 in
  let r2 := CSharp.GetFinalReport s' now2 in
  s' = s
  /\ CSharp.r_Mode r1 = CSharp.r_Mode r2
  /\ CSharp.r_TotalPoints r1 = CSharp.r_TotalPoints r2
  /\ CSharp.CorrectAnswers r1 = CSharp.CorrectAnswers r2
  /\ CSharp.r_WrongAnswers r1 = CSharp.r_WrongAnswers r2
  /\ CSharp.r_MaxCombo r1 = CSharp.r_MaxCombo r2
  /\ CSharp.AvgReactionMs r1 = CSharp.AvgReactionMs r2
  /\ CSharp.FastestReaction r1 = CSharp.FastestReaction r2
  /\ CSharp.SlowestReaction r1 = CSharp.SlowestReaction r2
  /\ CSharp.Accuracy r1 = CSharp.Accuracy r2
  /\ CSharp.Rating r1 = CSharp.Rating r2
  /\ CSharp.CoinsEarned r1 = CSharp.CoinsEarned r2
  /\ CSharp.StarsEarned r1 = CSharp.StarsEarned r2
  /\ CSharp.ElapsedSeconds r1
     = (to_double (wrap64 (now1 - CSharp.StartTime s)) / 10000000)%float
  /\ CSharp.ElapsedSeconds r2
     = (to_double (wrap64 (now2 - CSharp.StartTime s)) / 10000000)%float
  /\ (r1 = r2 <-> CSharp.ElapsedSeconds r1 = CSharp.ElapsedSeconds r2)
  /\ (now1 = now2 -> r1 = r2).
Proof.
  intros Hs Hc r1 r2. pose proof (continues_Finished s s' Hs Hc) as E.
  subst s' r1 r2. split; [reflexivity|].
  do 14 (split; [reflexivity|]). split; [split|].
  - intros H. rewrite H. reflexivity.
  - unfold CSharp.GetFinalReport. cbn [CSharp.ElapsedSeconds]. intros H. rewrite H. reflexivity.
  - intros ->. reflexivity.
Qed.

(** C3 (amended) on the session that lost its three lives, for a report one
    second after the start and a report two seconds after it, with a call of
    [SubmitAnswer] in between: the accuracy is the same. *)
Lemma GetFinalReport_twice_witness :
  CSharp.Accuracy (CSharp.GetFinalReport endless_finished 10000000)
  = CSharp.Accuracy
      (CSharp.GetFinalReport (snd (CSharp.SubmitAnswer endless_finished "Red" 500)) 20000000).
Proof.
  refine (proj1 (proj2 (proj2 (proj2 (proj2 (proj2 (proj2 (proj2 (proj2 (proj2
           (GetFinalReport_twice endless_finished
              (snd (CSharp.SubmitAnswer endless_finished "Red" 500))
              10000000 20000000 _ _))))))))))).
  - vm_compute. reflexivity.
  - apply CSharp.continues_SubmitAnswer, CSharp.continues_here.
Defined.

(** ** The question generator *)

Section Generator.

Lemma contains_In (l : list string) (x : string) : contains l x = true <-> In x l.
Proof.
  unfold contains. rewrite existsb_exists. split.
  - intros [y [Hy He]]. apply String.eqb_eq in He. subst. exact Hy.
  - intros H. exists x. split; [exact H | apply String.eqb_refl].
Qed.

Lemma bind_Ok {A B : Type} (m : Rand A) (f : A -> Rand B) (tape tape' : list Z) (b : B) :
  bind m f tape = Ok (b, tape') ->
  exists a mid, m tape = Ok (a, mid) /\ f a mid = Ok (b, tape').
Proof.
  unfold bind. destruct (m tape) as [[a mid]| |]; try discriminate.
  intros H. exists a, mid. split; [reflexivity | exact H].
Qed.

Lemma item_Ok (l : list string) (i : Z) (tape tape' : list Z) (x : string) :
  item l i tape = Ok (x, tape') -> In x l /\ tape' = tape.
Proof.
  unfold item. destruct ((i <? 0) || (Z.of_nat (List.length l) <=? i)); [discriminate|].
  destruct (nth_error l (Z.to_nat i)) eqn:Hn; [|discriminate].
  intros H. injection H as <- <-. split; [eapply nth_error_In; eassumption | reflexivity].
Qed.

Lemma In_firstn {A : Type} (n : nat) (l : list A) (x : A) : In x (firstn n l) -> In x l.
Proof.
  intros H. rewrite <- (firstn_skipn n l). apply in_or_app. left. exact H.
Qed.

Lemma NoDup_firstn {A : Type} (n : nat) (l : list A) : NoDup l -> NoDup (firstn n l).
Proof.
  intros H. rewrite <- (firstn_skipn n l) in H. eapply NoDup_app_remove_r, H.
Qed.

(** *** Upper case *)

Lemma upper_ascii_idem (c : ascii) : upper_ascii (upper_ascii c) = upper_ascii c.
Proof. destruct c as [[] [] [] [] [] [] [] []]; vm_compute; reflexivity. Qed.

Lemma toUpper_idem (s : string) : toUpper (toUpper s) = toUpper s.
Proof.
  induction s as [|c r IH]; simpl; [reflexivity|].
  rewrite upper_ascii_idem, IH. reflexivity.
Qed.

(** No key of the registry is the upper-cased form of a string: each has a
    lower-case letter. *)
Lemma toUpper_not_a_key (w k : string) : In k Colors_Keys -> toUpper w <> k.
Proof.
  intros Hk He.
  assert (Hfix : toUpper k = k) by (rewrite <- He; apply toUpper_idem).
  revert Hfix. clear He.
  repeat (destruct Hk as [<- | Hk]; [vm_compute; discriminate|]).
  destruct Hk.
Qed.

(** The keys of the registry stay different when case is ignored. *)
Lemma Colors_Keys_ignore_case (a b : string) :
  In a Colors_Keys -> In b Colors_Keys -> a <> b -> equalsIgnoreCase a b = false.
Proof.
  intros Ha Hb Hab. unfold equalsIgnoreCase.
  destruct (String.eqb_spec (toUpper a) (toUpper b)) as [He | Hne]; [|reflexivity].
  exfalso. apply Hab. revert He. clear Hab.
  repeat (destruct Ha as [<- | Ha]);
    repeat (destruct Hb as [<- | Hb]); try contradiction;
    intros He; try reflexivity; vm_compute in He; discriminate He.
Qed.

(** *** The candidates for the word *)

Lemma filter_neq_nonempty (pool : list string) (x : string) :
  NoDup pool -> (2 <= List.length pool)%nat ->
  filter (fun c => negb (String.eqb c x)) pool <> [].
Proof.
  intros Hnd Hlen.
  destruct pool as [|a [|b rest]]; simpl in Hlen; try lia.
  assert (Hab : a <> b).
  { inversion Hnd; subst. intros ->. apply H1. left. reflexivity. }
  simpl. destruct (String.eqb_spec a x) as [-> | Ha]; simpl.
  - destruct (String.eqb_spec b x) as [-> | Hb]; simpl; [congruence | discriminate].
  - discriminate.
Qed.

(** *** The fill loop *)

(** What the fill loop returns extends the options it was given by registry
    colors and has no duplicate; it has four entries unless it was given
    more, and it is what it was given when that had four already. *)
Lemma fill_options_Ok (tape : list Z) :
  forall (options out : list string) (tape' : list Z),
  fill_options options tape = Ok (out, tape') ->
  NoDup options ->
  exists fillers,
    out = options ++ fillers
    /\ NoDup out
    /\ incl fillers Colors_Keys
    /\ ((List.length options <= 4)%nat -> List.length out = 4%nat)
    /\ ((4 <= List.length options)%nat -> fillers = []).
Proof.
  induction tape as [|v tape IH]; intros options out tape' H Hnd; simpl in H.
  - destruct (Z.ltb_spec (Z.of_nat (List.length options)) 4); [discriminate|].
    injection H as <- _. exists []. rewrite app_nil_r.
    repeat split; trivial; try lia. apply incl_nil_l.
  - destruct (Z.ltb_spec (Z.of_nat (List.length options)) 4) as [Hlt | Hge].
    + destruct (nth_error Colors_Keys (Z.to_nat (v mod Colors_Count))) as [filler|] eqn:Hf;
        [|discriminate].
      apply nth_error_In in Hf.
      destruct (contains options filler) eqn:Hc; simpl in H.
      * apply IH in H; [|exact Hnd]. exact H.
      * apply IH in H.
        -- destruct H as (fillers & -> & Hnd' & Hin & Hlen & Hnil).
           exists (filler :: fillers). rewrite <- app_assoc in *. simpl in *.
           repeat split; trivial.
           ++ intros x [<- | Hx]; [exact Hf | apply Hin, Hx].
           ++ intros _. apply Hlen. rewrite length_app. simpl. lia.
           ++ intros. lia.
        -- apply NoDup_app; [exact Hnd | repeat constructor; intros [] |].
           intros x Hx [<- | []]. apply contains_In in Hx. congruence.
    + injection H as <- _. exists []. rewrite app_nil_r.
      repeat split; trivial; try lia. apply incl_nil_l.
Qed.

(** What both generators build, from the choices they made. *)
Lemma options_well_formed (pool shuffled out options : list string)
    (fontColor textWord : string) (tape tape' : list Z) :
  NoDup pool -> incl pool Colors_Keys ->
  In fontColor pool -> In textWord pool -> textWord <> fontColor ->
  Permutation shuffled
    (filter (fun c => negb (String.eqb c fontColor) && negb (String.eqb c textWord)) pool) ->
  fill_options (fontColor :: firstn 3 shuffled) tape = Ok (out, tape') ->
  Permutation options out ->
  Spec.well_formed_question pool (toUpper textWord) fontColor options.
Proof.
  intros Hnd Hincl Hfont Hwpool Hwne Hsh Hfill Hopt.
  assert (Hdnd : NoDup shuffled).
  { apply (Permutation_NoDup (Permutation_sym Hsh)), NoDup_filter, Hnd. }
  assert (Hdfont : ~ In fontColor shuffled).
  { intros Hin. apply (Permutation_in _ Hsh) in Hin.
    apply filter_In in Hin. destruct Hin as [_ Hin].
    rewrite String.eqb_refl in Hin. discriminate Hin. }
  assert (Hnd0 : NoDup (fontColor :: firstn 3 shuffled)).
  { constructor; [|apply NoDup_firstn, Hdnd].
    intros Hin. apply Hdfont. eapply In_firstn, Hin. }
  apply fill_options_Ok in Hfill; [|exact Hnd0].
  destruct Hfill as (fillers & -> & Hfnd & Hfin & Hflen & _).
  assert (Hkey : In fontColor Colors_Keys) by apply Hincl, Hfont.
  exists textWord, (firstn 3 shuffled), fillers.
  repeat split; trivial.
  - apply toUpper_not_a_key, Hkey.
  - unfold equalsIgnoreCase. rewrite toUpper_idem.
    apply Colors_Keys_ignore_case; [exact Hkey | apply Hincl, Hwpool | congruence].
  - rewrite (Permutation_length Hopt). apply Hflen.
    pose proof (firstn_le_length 3 shuffled). cbn [List.length]. lia.
  - apply (Permutation_NoDup (Permutation_sym Hopt)), Hfnd.
  - apply (Permutation_in _ (Permutation_sym Hopt)). left. reflexivity.
  - intros x Hx. apply In_firstn in Hx. apply (Permutation_in _ Hsh), Hx.
  - rewrite length_firstn, (Permutation_length Hsh). reflexivity.
Qed.

(** *** The shuffles *)

Lemma draw_keys_Ok (source : list string) (tape tape' : list Z) (keyed : list (Z * string)) :
  CSharp.draw_keys source tape = Ok (keyed, tape') -> map snd keyed = source.
Proof.
  revert tape tape' keyed.
  induction source as [|c rest IH]; intros tape tape' keyed H; simpl in H.
  - injection H as <- _. reflexivity.
  - apply bind_Ok in H. destruct H as (k & mid & _ & H).
    apply bind_Ok in H. destruct H as (keyed' & mid' & Hd & H).
    injection H as <- _. simpl. f_equal. eapply IH, Hd.
Qed.

Lemma OrderBy_random_Ok (source out : list string) (tape tape' : list Z) :
  CSharp.OrderBy_random source tape = Ok (out, tape') -> Permutation out source.
Proof.
  unfold CSharp.OrderBy_random. intros H.
  apply bind_Ok in H. destruct H as (keyed & mid & Hd & H).
  injection H as <- _. apply draw_keys_Ok in Hd. rewrite <- Hd.
  apply Permutation_map, insertion_sort_perm.
Qed.

(** Putting [x] where [b] was exchanges the two. *)
Lemma set_nth_perm (l : list string) (j : nat) (b x : string) :
  nth_error l j = Some b -> Permutation (b :: Java.set_nth l j x) (x :: l).
Proof.
  revert j. induction l as [|y l IH]; intros j Hj.
  - destruct j; discriminate.
  - destruct j as [|j]; simpl in *.
    + injection Hj as ->. apply perm_swap.
    + eapply perm_trans; [apply perm_swap|].
      eapply perm_trans; [apply perm_skip, (IH j Hj)|]. apply perm_swap.
Qed.

Lemma swap_perm (l : list string) (i j : nat) : Permutation (Java.swap l i j) l.
Proof.
  unfold Java.swap. revert i j. induction l as [|y l IH]; intros i j.
  - destruct i, j; simpl; apply perm_nil.
  - destruct i as [|i], j as [|j]; simpl.
    + apply Permutation_refl.
    + destruct (nth_error l j) as [b|] eqn:Hj; [|apply Permutation_refl].
      apply set_nth_perm, Hj.
    + destruct (nth_error l i) as [a|] eqn:Hi; [|apply Permutation_refl].
      apply set_nth_perm, Hi.
    + specialize (IH i j).
      destruct (nth_error l i) as [a|]; [|apply Permutation_refl].
      destruct (nth_error l j) as [b|]; [|apply Permutation_refl].
      apply perm_skip, IH.
Qed.

Lemma shuffle_Ok (l out : list string) (tape tape' : list Z) :
  Java.shuffle l tape = Ok (out, tape') -> Permutation out l.
Proof.
  unfold Java.shuffle. generalize (List.length l) as i.
  intros i. revert l tape. induction i as [|i IH]; intros l tape H; simpl in H.
  - injection H as <- _. apply Permutation_refl.
  - destruct (i =? 0)%nat.
    + injection H as <- _. apply Permutation_refl.
    + apply bind_Ok in H. destruct H as (j & mid & _ & H).
      apply IH in H. eapply perm_trans; [exact H | apply swap_perm].
Qed.

(** *** Productivity *)

Lemma ret_productive {A : Type} (a : A) : productive (ret a).
Proof.
  split.
  - intros tape tape' more a' H. injection H as <- <-. reflexivity.
  - intros tape. exists [], a, (tape ++ []). reflexivity.
Qed.

Lemma bind_productive {A B : Type} (m : Rand A) (f : A -> Rand B) (P : A -> Prop) :
  productive m ->
  (forall tape tape' a, m tape = Ok (a, tape') -> P a) ->
  (forall a, P a -> productive (f a)) ->
  productive (bind m f).
Proof.
  intros [Hsm Hcm] Hpost Hf. split.
  - intros tape tape' more b H.
    apply bind_Ok in H. destruct H as (a & mid & Hm & Hfa).
    unfold bind. rewrite (Hsm _ _ more _ Hm).
    apply (proj1 (Hf a (Hpost _ _ _ Hm))), Hfa.
  - intros tape.
    destruct (Hcm tape) as (more1 & a & mid & Hm).
    destruct (proj2 (Hf a (Hpost _ _ _ Hm)) mid) as (more2 & b & tape' & Hfa).
    exists (more1 ++ more2), b, tape'.
    unfold bind. rewrite app_assoc, (Hsm _ _ more2 _ Hm). exact Hfa.
Qed.

Lemma Next_productive (n : Z) : productive (CSharp.Next n).
Proof.
  split.
  - intros [|v tape] tape' more a H; [discriminate|].
    simpl in H. injection H as <- <-. reflexivity.
  - intros [|v tape].
    + exists [0], (if n <=? 0 then 0 else 0 mod n), []. reflexivity.
    + exists [], (if n <=? 0 then 0 else v mod n), (tape ++ []). reflexivity.
Qed.

Lemma Next_range (n i : Z) (tape tape' : list Z) :
  0 < n -> CSharp.Next n tape = Ok (i, tape') -> 0 <= i < n.
Proof.
  intros Hn H. destruct tape as [|v tape]; [discriminate|].
  simpl in H. injection H as <- _.
  destruct (Z.leb_spec n 0); [lia|]. apply Z.mod_pos_bound. lia.
Qed.

Lemma Next_any_productive : productive CSharp.Next_any.
Proof.
  split.
  - intros [|v tape] tape' more a H; [discriminate|].
    simpl in H. injection H as <- <-. reflexivity.
  - intros [|v tape].
    + exists [0], (0 mod 2147483647), []. reflexivity.
    + exists [], (v mod 2147483647), (tape ++ []). reflexivity.
Qed.

Lemma item_productive (l : list string) (i : Z) :
  0 <= i < Z.of_nat (List.length l) -> productive (item l i).
Proof.
  intros Hi. unfold item.
  destruct (Z.ltb_spec i 0); [lia|].
  destruct (Z.leb_spec (Z.of_nat (List.length l)) i); [lia|]. simpl.
  destruct (nth_error l (Z.to_nat i)) as [x|] eqn:Hn.
  - apply ret_productive.
  - apply nth_error_None in Hn. lia.
Qed.

Lemma draw_keys_productive (source : list string) : productive (CSharp.draw_keys source).
Proof.
  induction source as [|c rest IH]; simpl.
  - apply ret_productive.
  - apply (bind_productive _ _ (fun _ => True)); [apply Next_any_productive | trivial |].
    intros k _.
    apply (bind_productive _ _ (fun _ => True)); [exact IH | trivial |].
    intros keyed _. apply ret_productive.
Qed.

Lemma OrderBy_random_productive (source : list string) :
  productive (CSharp.OrderBy_random source).
Proof.
  unfold CSharp.OrderBy_random.
  apply (bind_productive _ _ (fun _ => True)); [apply draw_keys_productive | trivial |].
  intros keyed _. apply ret_productive.
Qed.

Lemma fill_options_full (options : list string) (tape : list Z) :
  (4 <= List.length options)%nat -> fill_options options tape = Ok (options, tape).
Proof.
  intros H. destruct tape; simpl;
    destruct (Z.ltb_spec (Z.of_nat (List.length options)) 4); try lia; reflexivity.
Qed.

Lemma Colors_Keys_at (v : Z) :
  exists filler, nth_error Colors_Keys (Z.to_nat (v mod Colors_Count)) = Some filler.
Proof.
  destruct (nth_error Colors_Keys (Z.to_nat (v mod Colors_Count))) as [x|] eqn:Hn.
  - exists x. reflexivity.
  - apply nth_error_None in Hn.
    pose proof (Z.mod_pos_bound v Colors_Count eq_refl) as Hb.
    change (List.length Colors_Keys) with 15%nat in Hn.
    change Colors_Count with 15 in *. lia.
Qed.

Lemma fill_options_steady (options : list string) : steady (fill_options options).
Proof.
  intros tape. revert options.
  induction tape as [|v tape IH]; intros options tape' more out H; simpl in H.
  - destruct (Z.ltb_spec (Z.of_nat (List.length options)) 4) as [Hlt|Hge]; [discriminate|].
    injection H as <- <-. apply fill_options_full. lia.
  - simpl. destruct (Z.ltb_spec (Z.of_nat (List.length options)) 4) as [Hlt|Hge].
    + destruct (nth_error Colors_Keys (Z.to_nat (v mod Colors_Count))); [|discriminate].
      apply IH, H.
    + injection H as <- <-. reflexivity.
Qed.

(** Some key of the registry is not among fewer than fifteen options. *)
Lemma fresh_key (options : list string) :
  (List.length options < 15)%nat ->
  exists (v : Z) (filler : string),
    nth_error Colors_Keys (Z.to_nat (v mod Colors_Count)) = Some filler
    /\ contains options filler = false.
Proof.
  intros Hlen.
  destruct (find (fun k => negb (contains options k)) Colors_Keys) as [k|] eqn:Hf.
  - apply find_some in Hf. destruct Hf as [Hin Hk].
    apply In_nth_error in Hin. destruct Hin as [n Hn].
    assert (Hn15 : (n < 15)%nat).
    { change 15%nat with (List.length Colors_Keys). apply nth_error_Some. congruence. }
    exists (Z.of_nat n), k. change Colors_Count with 15.
    rewrite Z.mod_small by lia. rewrite Nat2Z.id.
    split; [exact Hn | apply negb_true_iff, Hk].
  - exfalso.
    assert (Hincl : incl Colors_Keys options).
    { intros k Hk. pose proof (find_none _ _ Hf k Hk) as Hc.
      apply negb_false_iff in Hc. apply contains_In, Hc. }
    assert (Hnd : NoDup Colors_Keys).
    { vm_compute. repeat constructor; simpl; intuition discriminate. }
    pose proof (NoDup_incl_length Hnd Hincl) as Hle.
    change (List.length Colors_Keys) with 15%nat in Hle. lia.
Qed.

Lemma fill_options_completes (options : list string) :
  (3 <= List.length options)%nat -> completes (fill_options options).
Proof.
  intros Hlen tape.
  destruct (Nat.le_gt_cases 4 (List.length options)) as [H4 | H3].
  { exists [], options, (tape ++ []). apply fill_options_full, H4. }
  induction tape as [|v tape IH].
  - destruct (fresh_key options ltac:(lia)) as (v & filler & Hv & Hc).
    exists [v], (options ++ [filler]), []. simpl.
    destruct (Z.ltb_spec (Z.of_nat (List.length options)) 4); [|lia].
    rewrite Hv, Hc. simpl.
    destruct (Z.ltb_spec (Z.of_nat (List.length (options ++ [filler]))) 4) as [Hlt|];
      [|reflexivity].
    rewrite length_app in Hlt. simpl in Hlt. lia.
  - destruct (Colors_Keys_at v) as [filler Hv].
    destruct (contains options filler) eqn:Hc.
    + destruct IH as (more & out & tape' & Hfill).
      exists more, out, tape'. simpl.
      destruct (Z.ltb_spec (Z.of_nat (List.length options)) 4); [|lia].
      rewrite Hv, Hc. exact Hfill.
    + exists [], (options ++ [filler]), (tape ++ []). simpl.
      destruct (Z.ltb_spec (Z.of_nat (List.length options)) 4); [|lia].
      rewrite Hv, Hc. simpl. apply fill_options_full.
      rewrite length_app. simpl. lia.
Qed.

Lemma distractors_length (pool : list string) (a b : string) :
  NoDup pool ->
  (List.length pool
   <= List.length (filter (fun c => negb (String.eqb c a) && negb (String.eqb c b)) pool) + 2)%nat.
Proof.
  intros Hnd.
  set (keep := fun c => negb (String.eqb c a) && negb (String.eqb c b)).
  pose proof (filter_length keep pool) as Hsplit.
  assert (Hrem : (List.length (filter (fun c => negb (keep c)) pool) <= 2)%nat).
  { change 2%nat with (List.length [a; b]).
    apply NoDup_incl_length; [apply NoDup_filter, Hnd|].
    intros x Hx. apply filter_In in Hx. destruct Hx as [_ Hx]. unfold keep in Hx.
    apply negb_true_iff, andb_false_iff in Hx.
    destruct Hx as [Hx | Hx]; apply negb_false_iff, String.eqb_eq in Hx; subst; simpl; tauto. }
  lia.
Qed.

Lemma CSharp_generate_productive (pool : list string) :
  NoDup pool -> (4 <= List.length pool)%nat -> productive (CSharp.generate pool).
Proof.
  intros Hnd Hlen. unfold CSharp.generate.
  apply (bind_productive _ _ (fun i => 0 <= i < Z.of_nat (List.length pool)));
    [apply Next_productive | intros tape tape' i; apply Next_range; lia |].
  intros i Hi.
  apply (bind_productive _ _ (fun _ => True)); [apply item_productive, Hi | trivial |].
  intros fontColor _. cbv zeta.
  pose proof (filter_neq_nonempty pool fontColor Hnd ltac:(lia)) as Hne.
  set (wordCandidates := filter (fun c => negb (String.eqb c fontColor)) pool) in *.
  assert (Hwc : 0 < Z.of_nat (List.length wordCandidates)).
  { destruct wordCandidates; [congruence | simpl; lia]. }
  destruct (Z.gtb_spec (Z.of_nat (List.length wordCandidates)) 0) as [_ | Hz]; [|lia].
  apply (bind_productive _ _ (fun _ => True)); [|trivial|].
  { apply (bind_productive _ _ (fun j => 0 <= j < Z.of_nat (List.length wordCandidates)));
      [apply Next_productive | intros tape tape' j; apply Next_range; lia |].
    intros j Hj. apply item_productive, Hj. }
  intros textWord _.
  set (distractors :=
         filter (fun c => negb (String.eqb c fontColor) && negb (String.eqb c textWord)) pool).
  apply (bind_productive _ _ (fun shuffled => Permutation shuffled distractors));
    [apply OrderBy_random_productive | intros tape tape' sh; apply OrderBy_random_Ok |].
  intros shuffled Hsh.
  assert (Hopts : (3 <= List.length (fontColor :: firstn 3 shuffled))%nat).
  { cbn [List.length]. rewrite length_firstn, (Permutation_length Hsh).
    pose proof (distractors_length pool fontColor textWord Hnd). fold distractors in H. lia. }
  apply (bind_productive _ _ (fun _ => True)); [|trivial|].
  { split; [apply fill_options_steady | apply fill_options_completes, Hopts]. }
  intros filled _.
  apply (bind_productive _ _ (fun _ => True));
    [apply OrderBy_random_productive | trivial |].
  intros options _. apply ret_productive.
Qed.

Lemma nextInt_productive (bound : Z) : 0 < bound -> productive (Java.nextInt bound).
Proof.
  intros Hb. unfold Java.nextInt. destruct (Z.leb_spec bound 0); [lia|]. split.
  - intros [|v tape] tape' more a H0; [discriminate|].
    injection H0 as <- <-. reflexivity.
  - intros [|v tape].
    + exists [0], (0 mod bound), []. reflexivity.
    + exists [], (v mod bound), (tape ++ []). reflexivity.
Qed.

Lemma nextInt_range (bound i : Z) (tape tape' : list Z) :
  Java.nextInt bound tape = Ok (i, tape') -> 0 <= i < bound.
Proof.
  unfold Java.nextInt. destruct (Z.leb_spec bound 0); [discriminate|].
  destruct tape as [|v tape]; [discriminate|].
  intros H0. injection H0 as <- _. apply Z.mod_pos_bound. lia.
Qed.

Lemma shuffle_productive (l : list string) : productive (Java.shuffle l).
Proof.
  unfold Java.shuffle. generalize (List.length l) as i. intros i. revert l.
  induction i as [|i IH]; intros l; simpl.
  - apply ret_productive.
  - destruct (i =? 0)%nat; [apply ret_productive|].
    apply (bind_productive _ _ (fun _ => True)); [apply nextInt_productive; lia | trivial |].
    intros j _. apply IH.
Qed.

Lemma Java_generateQuestion_productive (pool : list string) :
  NoDup pool -> (4 <= List.length pool)%nat -> productive (Java.generateQuestion pool).
Proof.
  intros Hnd Hlen. unfold Java.generateQuestion.
  apply (bind_productive _ _ (fun i => 0 <= i < Z.of_nat (List.length pool)));
    [apply nextInt_productive; lia | intros tape tape' i; apply nextInt_range |].
  intros i Hi.
  apply (bind_productive _ _ (fun _ => True)); [apply item_productive, Hi | trivial |].
  intros fontColor _. cbv zeta.
  pose proof (filter_neq_nonempty pool fontColor Hnd ltac:(lia)) as Hne.
  set (wordCandidates := filter (fun c => negb (String.eqb c fontColor)) pool) in *.
  apply (bind_productive _ _ (fun _ => True)); [|trivial|].
  { destruct wordCandidates as [|c0 cs] eqn:Hwc; [congruence|].
    apply (bind_productive _ _ (fun j => 0 <= j < Z.of_nat (List.length (c0 :: cs))));
      [apply nextInt_productive; simpl; lia | intros tape tape' j; apply nextInt_range |].
    intros j Hj. apply item_productive, Hj. }
  intros textWord _.
  set (distractors :=
         filter (fun c => negb (String.eqb c fontColor) && negb (String.eqb c textWord)) pool).
  apply (bind_productive _ _ (fun shuffled => Permutation shuffled distractors));
    [apply shuffle_productive | intros tape tape' sh; apply shuffle_Ok |].
  intros shuffled Hsh.
  assert (Hopts : (3 <= List.length (fontColor :: firstn 3 shuffled))%nat).
  { cbn [List.length]. rewrite length_firstn, (Permutation_length Hsh).
    pose proof (distractors_length pool fontColor textWord Hnd). fold distractors in H. lia. }
  apply (bind_productive _ _ (fun _ => True)); [|trivial|].
  { split; [apply fill_options_steady | apply fill_options_completes, Hopts]. }
  intros filled _.
  apply (bind_productive _ _ (fun _ => True)); [apply shuffle_productive | trivial |].
  intros options _. apply ret_productive.
Qed.
End Generator.

Lemma CSharp_generate_well_formed (pool : list string) (tape tape' : list Z)
    (q : CSharp.StroopQuestion) :
  NoDup pool -> (4 <= List.length pool)%nat -> incl pool Colors_Keys ->
  CSharp.generate pool tape = Ok (q, tape') ->
  Spec.well_formed_question pool (CSharp.TextWord q) (CSharp.FontColorName q) (CSharp.Options q).
Proof.
  intros Hnd Hlen Hincl H. unfold CSharp.generate in H.
  apply bind_Ok in H. destruct H as (i & t1 & _ & H).
  apply bind_Ok in H. destruct H as (fontColor & t2 & Hfont & H).
  apply item_Ok in Hfont. destruct Hfont as [Hfont _].
  apply bind_Ok in H. destruct H as (textWord & t3 & Hword & H).
  pose proof (filter_neq_nonempty pool fontColor Hnd ltac:(lia)) as Hne.
  destruct (Z.gtb_spec (Z.of_nat (List.length
             (filter (fun c => negb (String.eqb c fontColor)) pool))) 0) as [_ | Hz].
  2:{ exfalso. apply Hne. apply length_zero_iff_nil. lia. }
  apply bind_Ok in Hword. destruct Hword as (j & t4 & _ & Hword).
  apply item_Ok in Hword. destruct Hword as [Hword _].
  apply filter_In in Hword. destruct Hword as [Hwpool Hwne].
  apply negb_true_iff in Hwne. apply String.eqb_neq in Hwne.
  apply bind_Ok in H. destruct H as (shuffled & t5 & Hsh & H).
  apply OrderBy_random_Ok in Hsh.
  apply bind_Ok in H. destruct H as (filled & t6 & Hfill & H).
  apply bind_Ok in H. destruct H as (options & t7 & Hopt & H).
  apply OrderBy_random_Ok in Hopt.
  injection H as <- _. simpl.
  eapply options_well_formed; eassumption.
Qed.

Lemma Java_generateQuestion_well_formed (pool : list string) (tape tape' : list Z)
    (q : Java.StroopQuestion) :
  NoDup pool -> (4 <= List.length pool)%nat -> incl pool Colors_Keys ->
  Java.generateQuestion pool tape = Ok (q, tape') ->
  Spec.well_formed_question pool (Java.textWord q) (Java.fontColorName q) (Java.options q).
Proof.
  intros Hnd Hlen Hincl H. unfold Java.generateQuestion in H.
  apply bind_Ok in H. destruct H as (i & t1 & _ & H).
  apply bind_Ok in H. destruct H as (fontColor & t2 & Hfont & H).
  apply item_Ok in Hfont. destruct Hfont as [Hfont _].
  apply bind_Ok in H. destruct H as (textWord & t3 & Hword & H).
  pose proof (filter_neq_nonempty pool fontColor Hnd ltac:(lia)) as Hne.
  destruct (filter (fun c => negb (String.eqb c fontColor)) pool) as [|c0 cs] eqn:Hcand;
    [congruence|].
  apply bind_Ok in Hword. destruct Hword as (j & t4 & _ & Hword).
  apply item_Ok in Hword. destruct Hword as [Hword _].
  rewrite <- Hcand in Hword.
  apply filter_In in Hword. destruct Hword as [Hwpool Hwne].
  apply negb_true_iff in Hwne. apply String.eqb_neq in Hwne.
  apply bind_Ok in H. destruct H as (shuffled & t5 & Hsh & H).
  apply shuffle_Ok in Hsh.
  apply bind_Ok in H. destruct H as (filled & t6 & Hfill & H).
  apply bind_Ok in H. destruct H as (options & t7 & Hopt & H).
  apply shuffle_Ok in Hopt.
  injection H as <- _. simpl.
  eapply options_well_formed; eassumption.
Qed.

(** C5.  Over a pool of at least four distinct registry colors, every
    question the C# generator and the Java generator produce is well formed:
    the displayed word is not the correct color, the options are exactly four
    pairwise distinct colors, one of them the correct color, and what the
    pool lacks of three distractors is filled in from the full registry with
    colors the options do not hold yet.  The question [NextQuestion] returns
    on an Active session is such a one over the session's pool, and becomes
    its current question.  Both generators are productive: whatever was drawn
    so far, some continuation of the draws makes them return a question. *)
Theorem generated_questions_well_formed (pool : list string) :
  NoDup pool ->
  (4 <= List.length pool)%nat ->
  incl pool Colors_Keys ->
  (forall (tape tape' : list Z) (q : CSharp.StroopQuestion),
      CSharp.generate pool tape = Ok (q, tape') ->
      Spec.well_formed_question pool (CSharp.TextWord q) (CSharp.FontColorName q)
                                (CSharp.Options q))
  /\ (forall (tape tape' : list Z) (q : Java.StroopQuestion),
        Java.generateQuestion pool tape = Ok (q, tape') ->
        Spec.well_formed_question pool (Java.textWord q) (Java.fontColorName q)
                                  (Java.options q))
  /\ (forall (s s' : CSharp.GameSession) (q : CSharp.StroopQuestion),
        CSharp._colorPool s = pool ->
        CSharp.NextQuestion s = Ok (Some q, s') ->
        Spec.well_formed_question pool (CSharp.TextWord q) (CSharp.FontColorName q)
                                  (CSharp.Options q)
        /\ CSharp.CurrentQuestion s' = Some q)
  /\ productive (CSharp.generate pool)
  /\ productive (Java.generateQuestion pool).
Proof.
  intros Hnd Hlen Hincl. split; [|split; [|split; [|split]]].
  - intros tape tape' q H. eapply CSharp_generate_well_formed; eassumption.
  - intros tape tape' q H. eapply Java_generateQuestion_well_formed; eassumption.
  - intros s s' q Hp H. unfold CSharp.NextQuestion in H.
    destruct (negb (CSharp.GameState_eqb (CSharp.State s) CSharp.Active)); [discriminate|].
    rewrite Hp in H.
    destruct (CSharp.generate pool (CSharp._random s)) as [[q' tape'']| |] eqn:Hg;
      try discriminate.
    injection H as <- <-. split; [|reflexivity].
    eapply CSharp_generate_well_formed; eassumption.
  - apply CSharp_generate_productive; assumption.
  - apply Java_generateQuestion_productive; assumption.
Qed.

(** C5 on the pool of difficulty 1 and the sample tape: the question with the
    word RED in Yellow and the options Green, Blue, Violet, Yellow, of which
    Violet is filled in from the registry. *)
Lemma generated_questions_well_formed_witness :
  Spec.well_formed_question (GetColorPool 1) "RED" "Yellow"
                            ["Green"; "Blue"; "Violet"; "Yellow"]%string.
Proof.
  refine (proj1 (generated_questions_well_formed (GetColorPool 1) _ _ _)
            sample_tape [8]
            (CSharp.mkStroopQuestion "RED" "Yellow" "#eab308"
               ["Green"; "Blue"; "Violet"; "Yellow"]%string) _).
  - vm_compute. repeat constructor; simpl; intuition discriminate.
  - vm_compute. lia.
  - vm_compute. intros x Hx. simpl in *. tauto.
  - vm_compute. reflexivity.
Defined.

(** * Further properties of the code *)

(** ** Doubles: the order *)

Ltac compare_cases :=
  repeat match goal with
         | H : context [(?a ?= ?b)%Z] |- _ => destruct (Z.compare_spec a b)
         | |- context [(?a ?= ?b)%Z] => destruct (Z.compare_spec a b)
         | H : context [(?a ?= ?b)%positive] |- _ => destruct (Pos.compare_spec a b)
         | |- context [(?a ?= ?b)%positive] => destruct (Pos.compare_spec a b)
         end.

Section DoublesOrder.

#[local] Open Scope float_scope.

(** The comparison of doubles is transitive: below or equal, then below or
    equal, is below as soon as one of the two is. *)
Lemma SFcompare_trans (a b c : spec_float) (x y : comparison) :
  SFcompare a b = Some x -> SFcompare b c = Some y ->
  x <> Gt -> y <> Gt ->
  SFcompare a c = Some (match x with Eq => y | _ => Lt end).
Proof.
  destruct a as [sa|sa| |sa ma ea], b as [sb|sb| |sb mb eb], c as [sc|sc| |sc mc ec];
    simpl; try discriminate;
    try (destruct sa); try (destruct sb); try (destruct sc); simpl;
    intros Hx Hy; try (injection Hx as <-); try (injection Hy as <-);
    intros Hx' Hy'; try congruence; try reflexivity.
  all: change (Pos.compare_cont Eq ?p ?q) with (Pos.compare p q) in *.
  all: compare_cases; simpl in *; subst; try congruence; try lia.
Qed.

Lemma ltb_trans (a b c : float) : (a <? b) = true -> (b <? c) = true -> (a <? c) = true.
Proof.
  rewrite !FloatAxioms.ltb_spec. unfold SFltb.
  destruct (SFcompare (Prim2SF a) (Prim2SF b)) as [[]|] eqn:Hab; try discriminate.
  destruct (SFcompare (Prim2SF b) (Prim2SF c)) as [[]|] eqn:Hbc; try discriminate.
  intros _ _.
  rewrite (SFcompare_trans _ _ _ _ _ Hab Hbc); [reflexivity | discriminate | discriminate].
Qed.

Lemma leb_ltb_trans (a b c : float) : (a <=? b) = true -> (b <? c) = true -> (a <? c) = true.
Proof.
  rewrite FloatAxioms.leb_spec, !FloatAxioms.ltb_spec. unfold SFltb, SFleb.
  destruct (SFcompare (Prim2SF a) (Prim2SF b)) as [[]|] eqn:Hab; try discriminate;
    destruct (SFcompare (Prim2SF b) (Prim2SF c)) as [[]|] eqn:Hbc; try discriminate;
    intros _ _; rewrite (SFcompare_trans _ _ _ _ _ Hab Hbc); try reflexivity; discriminate.
Qed.

Lemma ltb_leb (a b : float) : (a <? b) = true -> (a <=? b) = true.
Proof.
  rewrite FloatAxioms.leb_spec, !FloatAxioms.ltb_spec. unfold SFltb, SFleb.
  destruct (SFcompare (Prim2SF a) (Prim2SF b)) as [[]|]; congruence.
Qed.

Lemma ltb_irrefl (a : float) : (a <? a) = false.
Proof.
  destruct (a <? a) eqn:H; [|reflexivity].
  rewrite (ltb_asym _ _ H) in H. discriminate.
Qed.

Lemma eqb_trans (a b c : float) : (a =? b) = true -> (b =? c) = true -> (a =? c) = true.
Proof.
  rewrite !FloatAxioms.eqb_spec. unfold SFeqb.
  destruct (SFcompare (Prim2SF a) (Prim2SF b)) as [[]|] eqn:Hab; try discriminate.
  destruct (SFcompare (Prim2SF b) (Prim2SF c)) as [[]|] eqn:Hbc; try discriminate.
  intros _ _.
  rewrite (SFcompare_trans _ _ _ _ _ Hab Hbc); [reflexivity | discriminate | discriminate].
Qed.

Lemma eqb_not_ltb (a b : float) : (a =? b) = true -> (a <? b) = false.
Proof.
  rewrite FloatAxioms.eqb_spec, FloatAxioms.ltb_spec. unfold SFeqb, SFltb.
  destruct (SFcompare (Prim2SF a) (Prim2SF b)) as [[]|]; simpl; congruence.
Qed.

(** Two numbers always compare. *)
Lemma SFcompare_numbers (a b : spec_float) :
  SFcompare a a = Some Eq -> SFcompare b b = Some Eq -> exists c, SFcompare a b = Some c.
Proof.
  destruct a as [sa|sa| |sa ma ea], b as [sb|sb| |sb mb eb]; simpl;
    try discriminate; intros _ _; eexists; reflexivity.
Qed.

(** Two numbers neither of which is below the other compare equal; [x =? x]
    holds of every double but NaN. *)
Lemma incomparable_eqb (a b : float) :
  (a =? a) = true -> (b =? b) = true ->
  (a <? b) = false -> (b <? a) = false -> (a =? b) = true.
Proof.
  rewrite !FloatAxioms.eqb_spec, !FloatAxioms.ltb_spec. unfold SFeqb, SFltb.
  rewrite (SFcompare_swap (Prim2SF a) (Prim2SF b)).
  intros Ha Hb.
  destruct (SFcompare_numbers (Prim2SF a) (Prim2SF b)) as [c Hc].
  - destruct (SFcompare (Prim2SF a) (Prim2SF a)) as [[]|]; congruence.
  - destruct (SFcompare (Prim2SF b) (Prim2SF b)) as [[]|]; congruence.
  - rewrite Hc. destruct c; simpl; congruence.
Qed.

End DoublesOrder.

(** ** Doubles: numbers that are not below zero *)

Section DoublesFromZero.

Lemma leb_zero_number (x : float) :
  (0 <=? x)%float = true <-> is_number_from_zero (Prim2SF x).
Proof.
  rewrite FloatAxioms.leb_spec. change (Prim2SF 0) with (S754_zero false).
  destruct (Prim2SF x) as [s|s| |s m e]; try destruct s;
    cbv [SFleb SFcompare is_number_from_zero];
    split; intros; trivial; try discriminate; try contradiction.
Qed.

Lemma ltb_zero_number (x : float) :
  (0 <? x)%float = true -> is_number_from_zero (Prim2SF x).
Proof.
  rewrite FloatAxioms.ltb_spec. change (Prim2SF 0) with (S754_zero false).
  destruct (Prim2SF x) as [s|s| |s m e]; try destruct s;
    cbv [SFltb SFcompare is_number_from_zero];
    intros; trivial; try discriminate.
Qed.

(** Shifting and rounding keep a mantissa from going below zero. *)
Lemma shr_1_nonneg (r : shr_record) : 0 <= shr_m r -> 0 <= shr_m (shr_1 r).
Proof.
  destruct r as [m rb sb]. simpl. destruct m as [|p|p]; simpl; try lia.
  destruct p; simpl; lia.
Qed.

Lemma iter_shr_1_nonneg (p : positive) (r : shr_record) :
  0 <= shr_m r -> 0 <= shr_m (SpecFloat.iter_pos shr_1 p r).
Proof.
  revert r. induction p as [p IH|p IH|]; intros r Hr; simpl.
  - apply IH, IH, shr_1_nonneg, Hr.
  - apply IH, IH, Hr.
  - apply shr_1_nonneg, Hr.
Qed.

Lemma shr_fexp_nonneg (m e : Z) (l : location) :
  0 <= m -> 0 <= shr_m (fst (shr_fexp prec emax m e l)).
Proof.
  intros Hm. unfold shr_fexp, shr.
  assert (Hr : 0 <= shr_m (shr_record_of_loc m l)) by (destruct l as [|[]]; exact Hm).
  destruct (fexp prec emax (Zdigits2 m + e) - e); simpl; trivial.
  apply iter_shr_1_nonneg, Hr.
Qed.

Lemma round_nearest_even_nonneg (m : Z) (l : location) :
  0 <= m -> 0 <= round_nearest_even m l.
Proof.
  intros Hm. unfold round_nearest_even. destruct l as [|[]]; try lia.
  destruct (Z.even m); lia.
Qed.

(** What rounding returns of a mantissa that is not negative is a number,
    and is not below zero. *)
Lemma binary_round_aux_number (mx ex : Z) (lx : location) :
  0 <= mx -> is_number_from_zero (binary_round_aux prec emax false mx ex lx).
Proof.
  intros Hm. unfold binary_round_aux.
  pose proof (shr_fexp_nonneg mx ex lx Hm) as H1.
  destruct (shr_fexp prec emax mx ex lx) as [mrs' e']. simpl in H1.
  pose proof (shr_fexp_nonneg _ e' loc_Exact
                (round_nearest_even_nonneg (shr_m mrs') (loc_of_shr_record mrs') H1)) as H2.
  destruct (shr_fexp prec emax _ e' loc_Exact) as [mrs'' e'']. simpl in H2.
  destruct (shr_m mrs''); simpl; trivial; [|lia].
  destruct (Z.leb _ _); simpl; trivial.
Qed.

Lemma binary_round_number (m : positive) (e : Z) :
  is_number_from_zero (binary_round prec emax false m e).
Proof.
  unfold binary_round. destruct (shl_align _ _ _) as [mz ez].
  apply binary_round_aux_number. lia.
Qed.

Lemma SFmul_number (a b : spec_float) (m : positive) (e : Z) :
  is_number_from_zero a -> b = S754_finite false m e -> is_number_from_zero (SF64mul a b).
Proof.
  intros Ha ->. destruct a as [sa|sa| |sa ma ea]; simpl in *; trivial;
    destruct sa; simpl; trivial; try contradiction.
  apply binary_round_aux_number. lia.
Qed.

Lemma SFadd_number (a b : spec_float) :
  is_number_from_zero a -> is_number_from_zero b -> is_number_from_zero (SF64add a b).
Proof.
  destruct a as [sa|sa| |sa ma ea], b as [sb|sb| |sb mb eb]; simpl; trivial;
    try (destruct sa; simpl; trivial; fail); try (destruct sb; simpl; trivial; fail);
    try (destruct sa, sb; simpl; tauto).
  destruct sa, sb; simpl; try tauto. intros _ _.
  apply binary_round_number.
Qed.

Lemma to_double_number (z : Z) : 0 <= z -> is_number_from_zero (Prim2SF (to_double z)).
Proof.
  intros Hz. unfold to_double. destruct (Z.ltb_spec z 0); [lia|].
  rewrite of_uint63_spec.
  pose proof (Uint63.to_Z_bounded (of_Z z)) as Hb.
  destruct (Uint63.to_Z (of_Z z)) as [|p|p]; [exact I | apply binary_round_number | lia].
Qed.

Lemma std_min_number (a b : float) :
  is_number_from_zero (Prim2SF a) -> is_number_from_zero (Prim2SF b) ->
  is_number_from_zero (Prim2SF (std_min a b)).
Proof. unfold std_min. destruct (b <? a)%float; trivial. Qed.

End DoublesFromZero.

(** ** Doubles: the double of an integer, and two quotients *)

Section DoublesOfIntegers.

Lemma digits2_pos_iter_xO (m d : positive) :
  digits2_pos (Pos.iter xO m d) = (digits2_pos m + d)%positive.
Proof.
  induction d as [|d IH] using Pos.peano_ind.
  - simpl. lia.
  - rewrite Pos.iter_succ. simpl. rewrite IH. lia.
Qed.

Lemma digits2_pos_bound (p : positive) (k : Z) :
  0 <= k -> Z.pos p < 2 ^ k -> Z.pos (digits2_pos p) <= k.
Proof.
  revert k. induction p as [p IH|p IH|]; intros k Hk Hp.
  - assert (k <> 0) by (intros ->; simpl in Hp; lia).
    replace k with (Z.succ (k - 1)) in Hp by lia. rewrite Z.pow_succ_r in Hp by lia.
    simpl. specialize (IH (k - 1)). lia.
  - assert (k <> 0) by (intros ->; simpl in Hp; lia).
    replace k with (Z.succ (k - 1)) in Hp by lia. rewrite Z.pow_succ_r in Hp by lia.
    simpl. specialize (IH (k - 1)). lia.
  - assert (k <> 0) by (intros ->; simpl in Hp; lia). simpl. lia.
Qed.

(** Rounding a mantissa of 53 bits with an exponent in range changes
    nothing. *)
Lemma binary_round_aux_canonical (s : bool) (m : positive) (e : Z) :
  Z.pos (digits2_pos m) = 53 -> -1074 <= e <= 971 ->
  binary_round_aux prec emax s (Z.pos m) e loc_Exact = S754_finite s m e.
Proof.
  intros Hd He. unfold binary_round_aux, shr_fexp, fexp. cbn [Zdigits2 shr_record_of_loc].
  change (SpecFloat.emin prec emax) with (-1074). change prec with 53. change emax with 1024.
  change IntDef.Z.max with Z.max.
  rewrite Hd.
  replace (Z.max (53 + e - 53) (-1074) - e) with 0 by lia.
  cbn [shr shr_m loc_of_shr_record round_nearest_even Zdigits2].
  rewrite Hd.
  replace (Z.max (53 + e - 53) (-1074) - e) with 0 by lia.
  cbn [shr shr_m].
  destruct (Z.leb_spec e (1024 - 53)); [reflexivity | lia].
Qed.

(** The double of a positive integer below 2^53 is a positive number. *)
Lemma to_double_finite (n : Z) :
  0 < n < 2 ^ 53 -> exists m e, Prim2SF (to_double n) = S754_finite false m e.
Proof.
  intros Hn. unfold to_double. destruct (Z.ltb_spec n 0); [lia|].
  rewrite of_uint63_spec, Uint63.of_Z_spec.
  rewrite Z.mod_small by (change wB with (2 ^ 63); split; [lia|];
                          apply Z.lt_trans with (2 ^ 53); [lia | reflexivity]).
  destruct n as [|p|p]; try lia. cbn [binary_normalize].
  pose proof (digits2_pos_bound p 53 ltac:(lia) (proj2 Hn)) as Hd.
  unfold binary_round, shl_align, fexp.
  change (SpecFloat.emin prec emax) with (-1074). change prec with 53. change emax with 1024.
  change IntDef.Z.max with Z.max.
  rewrite Z.add_0_r, Z.sub_0_r.
  replace (Z.max (Z.pos (digits2_pos p) - 53) (-1074)) with (Z.pos (digits2_pos p) - 53) by lia.
  destruct (Z.pos (digits2_pos p) - 53) as [|k|k] eqn:Hk; try lia.
  - exists p, 0. apply (binary_round_aux_canonical false p 0); lia.
  - exists (Pos.iter xO p k), (Z.neg k).
    apply (binary_round_aux_canonical false); [|lia].
    rewrite digits2_pos_iter_xO. lia.
Qed.

(** Zero of [n] things is 0 percent. *)
Lemma percent_of_none (n : Z) :
  0 < n < 2 ^ 53 -> (to_double 0 / to_double n * 100)%float = 0%float.
Proof.
  intros Hn. destruct (to_double_finite n Hn) as (m & e & Hm).
  apply Prim2SF_inj. rewrite FloatAxioms.mul_spec, FloatAxioms.div_spec, Hm.
  reflexivity.
Qed.

(** A positive number divided by itself is 1. *)
Lemma SFdiv_self (m : positive) (e : Z) :
  SF64div (S754_finite false m e) (S754_finite false m e) = Prim2SF 1.
Proof.
  unfold SF64div, SFdiv, SFdiv_core_binary. cbn [Zdigits2 xorb].
  rewrite !Z.sub_diag.
  change (IntDef.Z.min (fexp prec emax 0) 0) with (-53).
  change (0 - -53) with 53.
  cbv iota.
  assert (Hdiv : IntDef.Z.div_eucl (IntDef.Z.shiftl (Z.pos m) 53) (Z.pos m) = (2 ^ 53, 0)).
  { change IntDef.Z.div_eucl with Z.div_eucl. change IntDef.Z.shiftl with Z.shiftl.
    rewrite Z.shiftl_mul_pow2 by lia.
    rewrite (surjective_pairing (Z.div_eucl (Z.pos m * 2 ^ 53) (Z.pos m))).
    change (fst (Z.div_eucl (Z.pos m * 2 ^ 53) (Z.pos m))) with ((Z.pos m * 2 ^ 53) / Z.pos m).
    change (snd (Z.div_eucl (Z.pos m * 2 ^ 53) (Z.pos m)))
      with ((Z.pos m * 2 ^ 53) mod Z.pos m).
    rewrite (Z.mul_comm (Z.pos m)), Z.div_mul, Z.mod_mul by lia. reflexivity. }
  rewrite Hdiv.
  replace (new_location (Z.pos m) 0) with loc_Exact
    by (unfold new_location, new_location_even, new_location_odd;
        destruct (IntDef.Z.even (Z.pos m)); reflexivity).
  vm_compute. reflexivity.
Qed.

(** All of [n] things are 100 percent. *)
Lemma percent_of_all (n : Z) :
  0 < n < 2 ^ 53 -> (to_double n / to_double n * 100)%float = 100%float.
Proof.
  intros Hn. destruct (to_double_finite n Hn) as (m & e & Hm).
  apply Prim2SF_inj. rewrite FloatAxioms.mul_spec, FloatAxioms.div_spec, Hm, SFdiv_self.
  vm_compute. reflexivity.
Qed.

End DoublesOfIntegers.

(** ** The SpeedRun penalty *)

(** C8, as stated, fails on the accuracy: the SpeedRun session with one
    correct answer reports an accuracy of 100; after a wrong answer its score
    is still 1, and the accuracy it reports is 50. *)
Lemma wrong_answer_lowers_accuracy :
  CSharp.Mode speedrun_one_correct = CSharp.SpeedRun
  /\ CSharp.State speedrun_one_correct = CSharp.Active
  /\ CSharp.Score (snd (CSharp.SubmitAnswer speedrun_one_correct "WrongColor" 700))
     = CSharp.Score speedrun_one_correct
  /\ CSharp.Accuracy (CSharp.GetFinalReport speedrun_one_correct 0) = 100%float
  /\ CSharp.Accuracy
       (CSharp.GetFinalReport
          (snd (CSharp.SubmitAnswer speedrun_one_correct "WrongColor" 700)) 0) = 50%float
  /\ CSharp.Accuracy
       (CSharp.GetFinalReport
          (snd (CSharp.SubmitAnswer speedrun_one_correct "WrongColor" 700)) 0)
     <> CSharp.Accuracy (CSharp.GetFinalReport speedrun_one_correct 0).
Proof.
  repeat split; try (vm_compute; reflexivity).
  float_neq.
Qed.

(** Without a correct answer the accuracy of the report is 0, whatever the
    count of wrong answers. *)
Lemma accuracy_without_score (s : CSharp.GameSession) (now : Z) :
  CSharp.Score s = 0 -> CSharp.Accuracy (CSharp.GetFinalReport s now) = 0%float.
Proof.
  intros H0. unfold CSharp.GetFinalReport. cbn [CSharp.Accuracy]. rewrite H0.
  destruct (Z.gtb_spec (add32 0 (CSharp.WrongAnswers s)) 0) as [Hpos|]; [|reflexivity].
  pose proof (wrap32_range (0 + CSharp.WrongAnswers s)) as Hr. fold (add32 0 (CSharp.WrongAnswers s)) in Hr.
  destruct (to_double_finite (add32 0 (CSharp.WrongAnswers s))) as (m & e & Hm).
  { change (2 ^ 53) with 9007199254740992. unfold int_range in Hr. lia. }
  apply Prim2SF_inj. rewrite FloatAxioms.div_spec, Hm. reflexivity.
Qed.

(** C8 (amended).  In an Active SpeedRun session a wrong answer takes 5 from
    the total points, floored at 0, and leaves the score, the lives and the
    time left as they were, while the count of wrong answers goes up by one:
    the accuracy of a report after it is the quotient of the same score by one
    more answer, which is 0 before and after when the score is 0.  After any
    answer, right or wrong, a score that has reached the target makes the
    session Finished, which it does not become otherwise. *)
Theorem SpeedRun_penalty_and_finish (s : CSharp.GameSession) (q : CSharp.StroopQuestion)
    (selectedColor : string) (reactionTimeMs : Z) :
  CSharp.Mode s = CSharp.SpeedRun ->
  CSharp.State s = CSharp.Active ->
  CSharp.CurrentQuestion s = Some q ->
  int_range (CSharp.TotalPoints s - 5) ->
  let s' := snd (CSharp.SubmitAnswer s selectedColor reactionTimeMs) in
  (equalsIgnoreCase (CSharp.FontColorName q) selectedColor = false ->
     CSharp.TotalPoints s' = Z.max 0 (CSharp.TotalPoints s - 5)
     /\ CSharp.Score s' = CSharp.Score s
     /\ CSharp.Lives s' = CSharp.Lives s
     /\ CSharp.TimeLeft s' = CSharp.TimeLeft s
     /\ CSharp.WrongAnswers s' = add32 (CSharp.WrongAnswers s) 1
     /\ (forall now : Z,
           CSharp.Accuracy (CSharp.GetFinalReport s' now)
           = let totalAnswers := add32 (CSharp.Score s) (add32 (CSharp.WrongAnswers s) 1) in
             if totalAnswers >? 0
             then (to_double (CSharp.Score s) * 100 / to_double totalAnswers)%float
             else 0%float)
     /\ (CSharp.Score s = 0 ->
         forall now : Z,
           CSharp.Accuracy (CSharp.GetFinalReport s now) = 0%float
           /\ CSharp.Accuracy (CSharp.GetFinalReport s' now) = 0%float))
  /\ (CSharp.Score s' >= CSharp.Target s -> CSharp.State s' = CSharp.Finished)
  /\ (CSharp.Score s' < CSharp.Target s -> CSharp.State s' = CSharp.Active).
Proof.
  intros Hm Hs Hq Hr s'.
  assert (Hscore : equalsIgnoreCase (CSharp.FontColorName q) selectedColor = false ->
                   CSharp.Score s' = CSharp.Score s).
  { intros Hw. subst s'. unfold CSharp.SubmitAnswer. rewrite Hq, Hs, Hm, Hw. reflexivity. }
  assert (Hacc : equalsIgnoreCase (CSharp.FontColorName q) selectedColor = false ->
                 CSharp.Score s = 0 ->
                 forall now : Z,
                   CSharp.Accuracy (CSharp.GetFinalReport s now) = 0%float
                   /\ CSharp.Accuracy (CSharp.GetFinalReport s' now) = 0%float).
  { intros Hw H0 now. split; apply accuracy_without_score; [|rewrite (Hscore Hw)]; exact H0. }
  revert Hscore Hacc. subst s'.
  unfold CSharp.SubmitAnswer. rewrite Hq, Hs, Hm. simpl.
  destruct (equalsIgnoreCase (CSharp.FontColorName q) selectedColor); simpl; intros _ Hacc.
  - split; [discriminate|]. split; intros Hsc.
    + destruct (Z.geb_spec (add32 (CSharp.Score s) 1) (CSharp.Target s)); [reflexivity | lia].
    + destruct (Z.geb_spec (add32 (CSharp.Score s) 1) (CSharp.Target s)); [lia | reflexivity].
  - split; [intros _|split; intros Hsc].
    + unfold sub32. rewrite (wrap32_id _ Hr).
      do 5 (split; [reflexivity|]). split; [intros now; reflexivity|].
      apply Hacc. reflexivity.
    + destruct (Z.geb_spec (CSharp.Score s) (CSharp.Target s)); [reflexivity | lia].
    + destruct (Z.geb_spec (CSharp.Score s) (CSharp.Target s)); [lia | reflexivity].
Qed.

(** C8 (amended) on the SpeedRun session with one correct answer and 28
    points: a wrong answer leaves 23 points and the score of 1. *)
Lemma SpeedRun_penalty_and_finish_witness :
  CSharp.TotalPoints (snd (CSharp.SubmitAnswer speedrun_one_correct "WrongColor" 700))
    = Z.max 0 (CSharp.TotalPoints speedrun_one_correct - 5)
  /\ CSharp.Score (snd (CSharp.SubmitAnswer speedrun_one_correct "WrongColor" 700))
    = CSharp.Score speedrun_one_correct.
Proof.
  refine ((fun H => conj (proj1 H) (proj1 (proj2 H)))
            (proj1 (SpeedRun_penalty_and_finish speedrun_one_correct
                      (CSharp.mkStroopQuestion "RED" "Yellow" "#eab308"
                         ["Green"; "Blue"; "Violet"; "Yellow"]%string)
                      "WrongColor" 700 _ _ _ _) _)).
  - reflexivity.
  - reflexivity.
  - reflexivity.
  - vm_compute. split; discriminate.
  - reflexivity.
Defined.

(** ** The numerical rating *)

(** X1.  [getNumericalRating] stays between 0 and 100.  Whatever the average
    reaction time is, NaN and the infinities included, and whatever the score
    and the longest combo are, the rating is at most 100 (and is a number);
    when the score and the longest combo are not negative it is at least 0. *)
Theorem getNumericalRating_between_0_and_100 (avgReactionMs : float) (score maxCombo : Z) :
  (Cpp.getNumericalRating avgReactionMs score maxCombo <=? 100)%float = true
  /\ (0 <= score -> 0 <= maxCombo ->
      (0 <=? Cpp.getNumericalRating avgReactionMs score maxCombo)%float = true).
Proof.
  unfold Cpp.getNumericalRating.
  set (sum := (_ + _ + _)%float).
  split.
  - unfold std_min. destruct (sum <? 100)%float eqn:Hs; [apply ltb_leb, Hs | reflexivity].
  - intros Hs Hc. apply leb_zero_number. apply std_min_number; [vm_compute; exact I|].
    unfold sum. rewrite !FloatAxioms.add_spec.
    apply SFadd_number; [apply SFadd_number|].
    + unfold std_max.
      destruct (0 <? _)%float eqn:Hy; [apply ltb_zero_number, Hy | vm_compute; exact I].
    + apply std_min_number; [vm_compute; exact I|].
      rewrite FloatAxioms.mul_spec. eapply SFmul_number; [apply to_double_number, Hs|].
      vm_compute. reflexivity.
    + apply std_min_number; [vm_compute; exact I|].
      rewrite FloatAxioms.mul_spec. eapply SFmul_number; [apply to_double_number, Hc|].
      vm_compute. reflexivity.
Qed.

(** ** The rating cascade *)

Section Cascade.

Lemma clause_mono (avg avg' bound : float) (score score' count : Z) :
  (avg' <=? avg)%float = true -> score <= score' ->
  (avg <? bound)%float && (score >? count) = true ->
  (avg' <? bound)%float && (score' >? count) = true.
Proof.
  intros Ha Hs H. apply andb_prop in H. destruct H as [H1 H2].
  rewrite (leb_ltb_trans _ _ _ Ha H1). simpl.
  apply Z.gtb_lt in H2. apply Z.gtb_lt. lia.
Qed.

(** A clause with a bound of at most 1500 and a count of at least 5 implies
    the last clause of the cascade. *)
Lemma clause_Beginner (avg bound : float) (score count : Z) :
  (bound <=? 1500)%float = true -> 5 <= count ->
  (avg <? bound)%float && (score >? count) = true ->
  (avg <? 1500)%float && (score >? 5) = true.
Proof.
  intros Hb Hc H. apply andb_prop in H. destruct H as [H1 H2].
  apply Z.gtb_lt in H2. apply andb_true_intro. split.
  - rewrite FloatAxioms.leb_spec in Hb. unfold SFleb in Hb.
    destruct (SFcompare (Prim2SF bound) (Prim2SF 1500)) as [[]|] eqn:Hc'; try discriminate.
    + rewrite FloatAxioms.ltb_spec in *. unfold SFltb in *.
      destruct (SFcompare (Prim2SF avg) (Prim2SF bound)) as [[]|] eqn:Hab; try discriminate.
      rewrite (SFcompare_trans _ _ _ _ _ Hab Hc'); [reflexivity | discriminate | discriminate].
    + eapply ltb_trans; [exact H1|].
      rewrite FloatAxioms.ltb_spec. unfold SFltb. rewrite Hc'. reflexivity.
  - apply Z.gtb_lt. lia.
Qed.

End Cascade.

Ltac tiers :=
  repeat match goal with
         | |- context [if ?b then _ else _] => destruct b
         end; vm_compute; intro; discriminate.

Ltac cascade_step Ha Hs :=
  match goal with
  | |- rating_tier (if ?b then _ else _) <= rating_tier (if ?b' then _ else _) =>
      let E := fresh "E" in
      destruct b eqn:E;
      [ rewrite (clause_mono _ _ _ _ _ _ Ha Hs E); vm_compute; intro; discriminate
      | destruct b'; [ clear E; tiers | ] ]
  end.

Ltac cascade_monotone Ha Hs := do 8 cascade_step Ha Hs; vm_compute; intro; discriminate.

Ltac cascade_not_Trainee :=
  repeat match goal with
         | |- (if ?b then _ else _) = _ -> _ => destruct b eqn:?; [discriminate|]
         end;
  reflexivity.

Ltac cascade_Trainee H :=
  repeat match goal with
         | |- (if ?b then _ else _) = _ =>
             let E := fresh "E" in
             destruct b eqn:E;
             [ apply clause_Beginner in E; [congruence | vm_compute; reflexivity | lia] | ]
         end;
  reflexivity.

(** X2.  The rating never gets worse with a better performance: with an
    average reaction time that is not longer and a count of correct answers
    that is not smaller, the rating of the C++, the Java and the C# cascade is
    the same or a higher one in the order Trainee, Beginner, Intermediate,
    Proficient, Advanced, Expert, Master, Grandmaster, Legendary. *)
Theorem rating_is_monotone (avg avg' : float) (score score' : Z) :
  (avg' <=? avg)%float = true ->
  score <= score' ->
  rating_tier (Cpp.getPerformanceRating avg score)
    <= rating_tier (Cpp.getPerformanceRating avg' score')
  /\ rating_tier (Java.rating_of avg score) <= rating_tier (Java.rating_of avg' score')
  /\ rating_tier (CSharp.CalculateRating avg score)
     <= rating_tier (CSharp.CalculateRating avg' score').
Proof.
  intros Ha Hs. split; [|split].
  - unfold Cpp.getPerformanceRating. cascade_monotone Ha Hs.
  - unfold Java.rating_of. cascade_monotone Ha Hs.
  - unfold CSharp.CalculateRating. cascade_monotone Ha Hs.
Qed.

(** X2 from 700 ms and 22 correct answers (Advanced) to 450 ms and 45
    correct answers (Grandmaster). *)
Lemma rating_is_monotone_witness :
  rating_tier (Cpp.getPerformanceRating 700 22) <= rating_tier (Cpp.getPerformanceRating 450 45).
Proof.
  refine (proj1 (rating_is_monotone 700 450 22 45 _ _)).
  - vm_compute. reflexivity.
  - lia.
Defined.

(** X3.  The rating is Trainee exactly when the last clause of the cascade
    fails, that is, unless the average reaction time is below 1500 ms and
    more than 5 answers were correct: with 5 correct answers or fewer, and
    with an average that is not below 1500 (NaN included), it is Trainee
    whatever the other value is. *)
Theorem rating_is_Trainee_iff (avg : float) (score : Z) :
  (Cpp.getPerformanceRating avg score = "Trainee"%string
   <-> (avg <? 1500)%float && (score >? 5) = false)
  /\ (Java.rating_of avg score = "Trainee"%string
      <-> (avg <? 1500)%float && (score >? 5) = false)
  /\ (CSharp.CalculateRating avg score = "Trainee"%string
      <-> (avg <? 1500)%float && (score >? 5) = false)
  /\ (score <= 5 -> Cpp.getPerformanceRating avg score = "Trainee"%string)
  /\ ((avg <? 1500)%float = false -> Cpp.getPerformanceRating avg score = "Trainee"%string).
Proof.
  assert (Hcpp : Cpp.getPerformanceRating avg score = "Trainee"%string
                 <-> (avg <? 1500)%float && (score >? 5) = false).
  { unfold Cpp.getPerformanceRating. split; [cascade_not_Trainee | intros H; cascade_Trainee H]. }
  split; [exact Hcpp|]. split; [|split; [|split]].
  - unfold Java.rating_of. split; [cascade_not_Trainee | intros H; cascade_Trainee H].
  - unfold CSharp.CalculateRating. split; [cascade_not_Trainee | intros H; cascade_Trainee H].
  - intros Hs. apply Hcpp. apply andb_false_iff. right.
    destruct (Z.gtb_spec score 5); [lia | reflexivity].
  - intros Ha. apply Hcpp. rewrite Ha. reflexivity.
Qed.

(** ** The comparators of the rankers *)

Section Comparator.

Lemma goes_before_irrefl (p : Z) (t : float) : goes_before p t p t = false.
Proof. unfold goes_before. rewrite Z.eqb_refl. apply ltb_irrefl. Qed.

Lemma goes_before_trans (p1 : Z) (t1 : float) (p2 : Z) (t2 : float) (p3 : Z) (t3 : float) :
  goes_before p1 t1 p2 t2 = true -> goes_before p2 t2 p3 t3 = true ->
  goes_before p1 t1 p3 t3 = true.
Proof.
  unfold goes_before.
  destruct (Z.eqb_spec p1 p2), (Z.eqb_spec p2 p3), (Z.eqb_spec p1 p3); simpl;
    rewrite ?Z.gtb_ltb, ?Z.ltb_lt; try lia; try congruence.
  apply ltb_trans.
Qed.

(** Records neither of which goes before the other are equivalent; when the
    times are numbers, equivalence is transitive. *)
Lemma goes_before_equivalent (p1 : Z) (t1 : float) (p2 : Z) (t2 : float) (p3 : Z) (t3 : float) :
  (t1 =? t1)%float = true -> (t2 =? t2)%float = true -> (t3 =? t3)%float = true ->
  goes_before p1 t1 p2 t2 = false -> goes_before p2 t2 p1 t1 = false ->
  goes_before p2 t2 p3 t3 = false -> goes_before p3 t3 p2 t2 = false ->
  goes_before p1 t1 p3 t3 = false /\ goes_before p3 t3 p1 t1 = false.
Proof.
  unfold goes_before. intros N1 N2 N3.
  destruct (Z.eqb_spec p1 p2), (Z.eqb_spec p2 p1), (Z.eqb_spec p2 p3), (Z.eqb_spec p3 p2),
    (Z.eqb_spec p1 p3), (Z.eqb_spec p3 p1); simpl;
    rewrite ?Z.gtb_ltb, ?Z.ltb_ge; try lia; try congruence.
  intros H12 H21 H23 H32.
  pose proof (incomparable_eqb _ _ N1 N2 H12 H21) as E12.
  pose proof (incomparable_eqb _ _ N2 N3 H23 H32) as E23.
  pose proof (eqb_trans _ _ _ E12 E23) as E13.
  split; [apply eqb_not_ltb, E13 | apply eqb_not_gtb, E13].
Qed.

End Comparator.

(** ** The ranking *)

Section RankingOrder.

Lemma StronglySorted_weaken {A : Type} (R R' : A -> A -> Prop) (l : list A) :
  (forall a b, R a b -> R' a b) -> StronglySorted R l -> StronglySorted R' l.
Proof.
  intros Himp. induction 1 as [|a l Hs IH Hall]; constructor.
  - exact IH.
  - eapply Forall_impl; [|exact Hall]. intros b. apply Himp.
Qed.

(** In a sorted list of elements that all have a property, the order
    relates elements that have it. *)
Lemma StronglySorted_among {A : Type} (P : A -> Prop) (R : A -> A -> Prop) (l : list A) :
  Forall P l -> StronglySorted R l -> StronglySorted (fun a b => P a /\ P b /\ R a b) l.
Proof.
  intros HP. induction 1 as [|a l Hs IH Hall]; constructor.
  - apply IH. inversion HP; assumption.
  - inversion HP as [|? ? Ha Hl]; subst.
    rewrite Forall_forall in *. intros b Hb. repeat split; auto.
Qed.

(** Of two numbers, the one the other is not below is at most the other. *)
Lemma not_ltb_leb (a b : float) :
  (a =? a)%float = true -> (b =? b)%float = true ->
  (b <? a)%float = false -> (a <=? b)%float = true.
Proof.
  intros Ha Hb Hba. destruct (a <? b)%float eqn:Hab.
  - apply ltb_leb, Hab.
  - apply eqb_leb, incomparable_eqb; assumption.
Qed.

(** A record that does not go before another of the same points, both with
    numbers as times, does not have the shorter time. *)
Lemma not_ranks_before_time (a b : Cpp.PlayerScore) :
  (Cpp.avgReactionMs a =? Cpp.avgReactionMs a)%float = true ->
  (Cpp.avgReactionMs b =? Cpp.avgReactionMs b)%float = true ->
  Cpp.ranks_before b a = false ->
  Cpp.totalPoints a = Cpp.totalPoints b ->
  (Cpp.avgReactionMs a <=? Cpp.avgReactionMs b)%float = true.
Proof.
  intros Ha Hb Hba Heq. unfold Cpp.ranks_before in Hba.
  rewrite Heq, Z.eqb_refl in Hba. apply not_ltb_leb; assumption.
Qed.

(** The records that pass the filter of [getRankings]. *)
Lemma kept_records (scores : list Cpp.PlayerScore) (modeFilter : string) (s : Cpp.PlayerScore) :
  In s (filter (fun s => String.eqb modeFilter "" || String.eqb (Cpp.mode s) modeFilter) scores)
  <-> In s scores /\ (modeFilter = ""%string \/ Cpp.mode s = modeFilter).
Proof.
  rewrite filter_In, orb_true_iff, !String.eqb_eq. reflexivity.
Qed.

(** The ranking of the three records is the same for every sort: no two of
    them are equivalent for the comparator. *)
Lemma three_records_sorted (sorted : list Cpp.PlayerScore) :
  sorted_by Cpp.ranks_before three_records sorted ->
  exists a b c, three_records = [a; b; c] /\ sorted = [b; a; c].
Proof.
  intros [Hperm Hsorted].
  pose proof (Permutation_length Hperm) as Hlen.
  assert (Hnd : NoDup sorted).
  { apply (Permutation_NoDup (Permutation_sym Hperm)).
    unfold three_records. repeat constructor; simpl; intuition discriminate. }
  assert (Hin : forall x, In x sorted -> In x three_records)
    by (intros x; apply (Permutation_in x Hperm)).
  destruct sorted as [|x [|y [|z [|? ?]]]]; try discriminate.
  pose proof (Hin x ltac:(simpl; tauto)) as Hx.
  pose proof (Hin y ltac:(simpl; tauto)) as Hy.
  pose proof (Hin z ltac:(simpl; tauto)) as Hz.
  apply StronglySorted_inv in Hsorted. destruct Hsorted as [Hs' Hx'].
  apply StronglySorted_inv in Hs'. destruct Hs' as [_ Hy'].
  inversion Hx' as [|? ? Hxy Hx'']; subst. inversion Hx'' as [|? ? Hxz _]; subst.
  inversion Hy' as [|? ? Hyz _]; subst.
  inversion Hnd as [|? ? Nx Hnd']; subst. inversion Hnd' as [|? ? Ny _]; subst.
  unfold three_records in Hx, Hy, Hz.
  destruct Hx as [<- | [<- | [<- | []]]];
    destruct Hy as [<- | [<- | [<- | []]]];
    try (exfalso; apply Nx; simpl; tauto);
    try (exfalso; revert Hxy; vm_compute; discriminate);
    destruct Hz as [<- | [<- | [<- | []]]];
    try (exfalso; apply Nx; simpl; tauto);
    try (exfalso; apply Ny; simpl; tauto);
    try (exfalso; revert Hxz; vm_compute; discriminate);
    try (exfalso; revert Hyz; vm_compute; discriminate).
  eexists _, _, _. split; reflexivity.
Qed.

End RankingOrder.

(** C6.  [getRankings], for whatever [std::sort] returns within its promise
    [sorted_by] on the records kept, when the average reaction times of these
    are numbers (with a NaN the comparator is no strict weak ordering and the
    sort promises nothing) and there are no more records than an [int]
    counts.  The records kept are the records of the ranker, all of them for
    the empty filter and otherwise those of the mode of the filter; the
    ranking holds a copy of each of them and nothing else; its total points
    descend, and of any two entries with the same points the earlier one has
    the average reaction time that is not longer; the entry at 0-based index
    [k] of [N] has rank [k + 1] and percentile [(N - k - 1) / (N - 1) * 100]
    when [N > 1], and 100 otherwise.  On the records (1240, 45.2),
    (1240, 42.1), (950, 50) the order is the 42.1 record, the 45.2 record, the
    950 record, with percentiles 100, 50, 0, whatever the sort. *)
Theorem getRankings_orders_and_grades
    (std_sort : (Cpp.PlayerScore -> Cpp.PlayerScore -> bool)
                -> list Cpp.PlayerScore -> list Cpp.PlayerScore)
    (scores : list Cpp.PlayerScore) (modeFilter : string) :
  let kept :=
    filter (fun s => String.eqb modeFilter "" || String.eqb (Cpp.mode s) modeFilter) scores in
  Z.of_nat (List.length scores) <= 2147483647 ->
  (forall s, In s kept -> (Cpp.avgReactionMs s =? Cpp.avgReactionMs s)%float = true) ->
  sorted_by Cpp.ranks_before kept (std_sort Cpp.ranks_before kept) ->
  let ranked := Cpp.getRankings std_sort scores modeFilter in
  let N := Z.of_nat (List.length ranked) in
  (forall s, In s kept <-> In s scores /\ (modeFilter = ""%string \/ Cpp.mode s = modeFilter))
  /\ Permutation (map Cpp.copied_of_entry ranked) (map Cpp.copied_of_score kept)
  /\ StronglySorted (fun a b => Cpp.r_totalPoints a >= Cpp.r_totalPoints b) ranked
  /\ StronglySorted (fun a b => Cpp.r_totalPoints a = Cpp.r_totalPoints b ->
                                (Cpp.r_avgReactionMs a <=? Cpp.r_avgReactionMs b)%float = true)
                    ranked
  /\ (forall (k : nat) (e : Cpp.RankEntry),
        nth_error ranked k = Some e ->
        Cpp.rank e = Z.of_nat k + 1
        /\ Cpp.percentile e =
             if N >? 1
             then ((to_double (N - Z.of_nat k) - 1) / (to_double N - 1) * 100)%float
             else 100%float)
  /\ (forall sort3,
        sorted_by Cpp.ranks_before three_records (sort3 Cpp.ranks_before three_records) ->
        map (fun e => (Cpp.rank e, Cpp.r_username e, Cpp.r_totalPoints e,
                       Cpp.r_avgReactionMs e, Cpp.percentile e))
            (Cpp.getRankings sort3 three_records "")
        = [ (1, "Quantum_Mind"%string, 1240, 42.1%float, 100%float);
            (2, "Cipher_Master"%string, 1240, 45.2%float, 50%float);
            (3, "Master_Player"%string, 950, 50%float, 0%float) ]).
Proof.
  intros kept Hlen Hnum [Hperm Hsorted] ranked N.
  set (sorted := std_sort Cpp.ranks_before kept) in *.
  assert (Hcopies : map Cpp.copied_of_entry ranked = map Cpp.copied_of_score sorted)
    by apply rank_from_copies.
  assert (Hsize : List.length ranked = List.length sorted).
  { rewrite <- (length_map Cpp.copied_of_entry), Hcopies. apply length_map. }
  assert (Hbound : Z.of_nat (List.length sorted) <= 2147483647).
  { pose proof (Permutation_length Hperm) as Hp.
    pose proof (filter_length_le
                  (fun s => String.eqb modeFilter "" || String.eqb (Cpp.mode s) modeFilter)
                  scores) as Hf.
    fold kept in Hf. lia. }
  assert (Hnum' : Forall (fun s => (Cpp.avgReactionMs s =? Cpp.avgReactionMs s)%float = true)
                         sorted).
  { apply Forall_forall. intros s Hs. apply Hnum, (Permutation_in s Hperm), Hs. }
  split; [intros s; apply kept_records|].
  split; [rewrite Hcopies; apply Permutation_map, Hperm|].
  split; [|split; [|split]].
  - apply (StronglySorted_map_iff Cpp.copied_of_entry
             (fun x y => snd (fst (fst x)) >= snd (fst (fst y)))).
    rewrite Hcopies.
    apply (StronglySorted_map_iff Cpp.copied_of_score
             (fun x y => snd (fst (fst x)) >= snd (fst (fst y)))).
    eapply StronglySorted_weaken; [|exact Hsorted].
    intros a b Hba. apply not_ranks_before_points, Hba.
  - apply (StronglySorted_map_iff Cpp.copied_of_entry
             (fun x y => snd (fst (fst x)) = snd (fst (fst y)) ->
                         (snd (fst x) <=? snd (fst y))%float = true)).
    rewrite Hcopies.
    apply (StronglySorted_map_iff Cpp.copied_of_score
             (fun x y => snd (fst (fst x)) = snd (fst (fst y)) ->
                         (snd (fst x) <=? snd (fst y))%float = true)).
    eapply StronglySorted_weaken; [|exact (StronglySorted_among _ _ _ Hnum' Hsorted)].
    intros a b (Ha & Hb & Hba) Heq. simpl in Heq |- *.
    apply not_ranks_before_time; assumption.
  - intros k e H.
    assert (Hk : (k < List.length ranked)%nat) by (apply nth_error_Some; congruence).
    apply (rank_from_nth (wrap32 (Z.of_nat (List.length sorted))) 0 sorted k e) in H;
      [|lia|lia].
    destruct H as [Hr Hp]. split; [exact Hr|].
    rewrite Hp. unfold Cpp.percentile_at.
    unfold N. rewrite Hsize in Hk |- *.
    rewrite (wrap32_id (Z.of_nat (List.length sorted))) by (unfold int_range; lia).
    unfold sub32. rewrite wrap32_id by (unfold int_range; lia).
    reflexivity.
  - intros sort3 H3.
    change (Cpp.getRankings sort3 three_records "")
      with (Cpp.rank_from (wrap32 (Z.of_nat (List.length (sort3 Cpp.ranks_before three_records))))
                          0 (sort3 Cpp.ranks_before three_records)).
    destruct (three_records_sorted _ H3) as (a & b & c & Habc & ->).
    injection Habc as <- <- <-. vm_compute. reflexivity.
Qed.

(** C6 on the three records, sorted by insertion: of two entries with the
    same points the earlier has the time that is not longer. *)
Lemma getRankings_orders_and_grades_witness :
  StronglySorted (fun a b => Cpp.r_totalPoints a = Cpp.r_totalPoints b ->
                             (Cpp.r_avgReactionMs a <=? Cpp.r_avgReactionMs b)%float = true)
                 (Cpp.getRankings (@insertion_sort Cpp.PlayerScore) three_records "").
Proof.
  refine (proj1 (proj2 (proj2 (proj2
           (getRankings_orders_and_grades (@insertion_sort Cpp.PlayerScore)
                                          three_records "" _ _ _))))).
  - simpl. lia.
  - intros s Hs. simpl in Hs. destruct Hs as [<- | [<- | [<- | []]]]; reflexivity.
  - split; [apply insertion_sort_perm|].
    vm_compute. repeat constructor.
Defined.

(** X4.  The comparator [getRankings] hands to [std::sort] is the strict weak
    ordering the sort requires as long as no average reaction time is NaN: no
    record goes before itself, going before is transitive, and so is the
    equivalence of records neither of which goes before the other.  With a
    NaN among records of equal points the equivalence is not transitive: the
    NaN record is equivalent to a record of 500 ms and to one of 600 ms, of
    which the first goes before the second. *)
Theorem ranks_before_strict_weak_ordering :
  (forall a, Cpp.ranks_before a a = false)
  /\ (forall a b c, Cpp.ranks_before a b = true -> Cpp.ranks_before b c = true ->
                    Cpp.ranks_before a c = true)
  /\ (forall a b c,
        (Cpp.avgReactionMs a =? Cpp.avgReactionMs a)%float = true ->
        (Cpp.avgReactionMs b =? Cpp.avgReactionMs b)%float = true ->
        (Cpp.avgReactionMs c =? Cpp.avgReactionMs c)%float = true ->
        Cpp.ranks_before a b = false -> Cpp.ranks_before b a = false ->
        Cpp.ranks_before b c = false -> Cpp.ranks_before c b = false ->
        Cpp.ranks_before a c = false /\ Cpp.ranks_before c a = false)
  /\ (let a := Cpp.mkPlayerScore "a" "endless" 100 10 1 500 60 "Trainee" in
      let b := Cpp.mkPlayerScore "b" "endless" 100 10 1 nan 60 "Trainee" in
      let c := Cpp.mkPlayerScore "c" "endless" 100 10 1 600 60 "Trainee" in
      Cpp.ranks_before a b = false /\ Cpp.ranks_before b a = false
      /\ Cpp.ranks_before b c = false /\ Cpp.ranks_before c b = false
      /\ Cpp.ranks_before a c = true).
Proof.
  split; [|split; [|split]].
  - intros a. apply goes_before_irrefl.
  - intros a b c. apply goes_before_trans.
  - intros a b c. apply goes_before_equivalent.
  - vm_compute. repeat split.
Qed.

(** X5.  [comparePlayers] of the ranking utility is a strict weak ordering
    on players whose times are numbers: irreflexive, transitive, with a
    transitive equivalence; the order is by score, descending, and among equal
    scores by time, ascending. *)
Theorem comparePlayers_strict_weak_ordering :
  (forall a, Leaderboard.comparePlayers a a = false)
  /\ (forall a b c,
        Leaderboard.comparePlayers a b = true -> Leaderboard.comparePlayers b c = true ->
        Leaderboard.comparePlayers a c = true)
  /\ (forall a b c,
        (Leaderboard.time a =? Leaderboard.time a)%float = true ->
        (Leaderboard.time b =? Leaderboard.time b)%float = true ->
        (Leaderboard.time c =? Leaderboard.time c)%float = true ->
        Leaderboard.comparePlayers a b = false -> Leaderboard.comparePlayers b a = false ->
        Leaderboard.comparePlayers b c = false -> Leaderboard.comparePlayers c b = false ->
        Leaderboard.comparePlayers a c = false /\ Leaderboard.comparePlayers c a = false)
  /\ (forall a b, Leaderboard.score a > Leaderboard.score b ->
                  Leaderboard.comparePlayers a b = true)
  /\ (forall a b, Leaderboard.score a = Leaderboard.score b ->
                  Leaderboard.comparePlayers a b
                  = (Leaderboard.time a <? Leaderboard.time b)%float).
Proof.
  split; [|split; [|split; [|split]]].
  - intros a. apply goes_before_irrefl.
  - intros a b c. apply goes_before_trans.
  - intros a b c. apply goes_before_equivalent.
  - intros a b H. unfold Leaderboard.comparePlayers.
    destruct (Z.eqb_spec (Leaderboard.score a) (Leaderboard.score b)); simpl; [lia|].
    apply Z.gtb_lt. lia.
  - intros a b H. unfold Leaderboard.comparePlayers. rewrite H, Z.eqb_refl. reflexivity.
Qed.

(** ** Percentiles and statistics of the ranker *)

Section Percentile.

Import Cpp.

Lemma belowCount_fold (scores : list PlayerScore) (playerPoints count : Z) :
  0 <= count -> count + Z.of_nat (List.length scores) <= 2147483647 ->
  fold_left (fun count s => if totalPoints s <? playerPoints then add32 count 1 else count)
            scores count
  = count + Z.of_nat (List.length (filter (fun s => totalPoints s <? playerPoints) scores)).
Proof.
  revert count. induction scores as [|s scores IH]; intros count H0 Hlen; simpl.
  - lia.
  - simpl in Hlen. destruct (totalPoints s <? playerPoints); simpl.
    + rewrite IH; unfold add32; rewrite wrap32_id by (unfold int_range; lia); lia.
    + rewrite IH; lia.
Qed.

Lemma filter_all {A : Type} (f : A -> bool) (l : list A) :
  (forall x, In x l -> f x = true) -> filter f l = l.
Proof.
  induction l as [|x l IH]; intros H; simpl; [reflexivity|].
  rewrite (H x (or_introl eq_refl)), IH; [reflexivity|].
  intros y Hy. apply H. right. exact Hy.
Qed.

Lemma filter_none {A : Type} (f : A -> bool) (l : list A) :
  (forall x, In x l -> f x = false) -> filter f l = [].
Proof.
  induction l as [|x l IH]; intros H; simpl; [reflexivity|].
  rewrite (H x (or_introl eq_refl)). apply IH.
  intros y Hy. apply H. right. exact Hy.
Qed.

End Percentile.

(** X6.  [calculatePercentile] at its ends.  The loop counts the stored
    scores whose points are below the player's.  With no score stored the
    percentile is 100; with points above those of every stored score it is
    100; with scores stored and points above none of them it is 0.  (Fewer
    than 2^31 scores, the range of the counter.) *)
Theorem calculatePercentile_extremes (scores : list Cpp.PlayerScore) (playerPoints : Z) :
  Z.of_nat (List.length scores) <= 2147483647 ->
  Cpp.belowCount scores playerPoints
    = Z.of_nat (List.length (filter (fun s => Cpp.totalPoints s <? playerPoints) scores))
  /\ (scores = [] -> Cpp.calculatePercentile scores playerPoints = 100%float)
  /\ ((forall s, In s scores -> Cpp.totalPoints s < playerPoints) ->
      Cpp.calculatePercentile scores playerPoints = 100%float)
  /\ (scores <> [] -> (forall s, In s scores -> playerPoints <= Cpp.totalPoints s) ->
      Cpp.calculatePercentile scores playerPoints = 0%float).
Proof.
  intros Hlen.
  assert (Hcount : Cpp.belowCount scores playerPoints
            = Z.of_nat (List.length
                          (filter (fun s => Cpp.totalPoints s <? playerPoints) scores))).
  { unfold Cpp.belowCount. rewrite belowCount_fold by lia. lia. }
  split; [exact Hcount|]. split; [intros ->; reflexivity|]. split.
  - intros Hall. unfold Cpp.calculatePercentile. rewrite Hcount.
    rewrite filter_all by (intros s Hs; apply Z.ltb_lt, Hall, Hs).
    destruct scores as [|s scores]; [reflexivity|].
    apply percent_of_all. cbn [List.length] in *. lia.
  - intros Hne Hall. unfold Cpp.calculatePercentile. rewrite Hcount.
    rewrite filter_none by (intros s Hs; apply Z.ltb_ge, Hall, Hs).
    destruct scores as [|s scores]; [congruence|].
    apply percent_of_none. cbn [List.length] in *. lia.
Qed.

(** X6 on the three records, none of which has fewer than 950 points: a
    player with 950 points is above none of them. *)
Lemma calculatePercentile_extremes_witness :
  Cpp.calculatePercentile three_records 950 = 0%float.
Proof.
  refine (proj2 (proj2 (proj2 (calculatePercentile_extremes three_records 950 _))) _ _).
  - simpl. lia.
  - discriminate.
  - intros s Hs. simpl in Hs.
    destruct Hs as [<- | [<- | [<- | []]]]; simpl; lia.
Defined.

Section Statistics.

Import Cpp.

Lemma Zltb_asym (a b : Z) : (a <? b) = true -> (b <? a) = false.
Proof. intros H. apply Z.ltb_lt in H. apply Z.ltb_ge. lia. Qed.

Lemma sorted_points_ascending (scores : list PlayerScore) :
  Sorted Z.le (sorted_points scores).
Proof.
  unfold sorted_points.
  eapply Sorted_weaken; [|apply (insertion_sort_sorted Z.ltb Zltb_asym)].
  intros a b H. apply Z.ltb_ge in H. exact H.
Qed.

Lemma sorted_points_perm (scores : list PlayerScore) :
  Permutation (sorted_points scores) (map totalPoints scores).
Proof. apply insertion_sort_perm. Qed.

(** A collection of integers has one ascending arrangement. *)
Lemma ascending_unique (l1 l2 : list Z) :
  Sorted Z.le l1 -> Sorted Z.le l2 -> Permutation l1 l2 -> l1 = l2.
Proof.
  intros H1 H2. apply Sorted_StronglySorted in H1; [|intros a b c; lia].
  apply Sorted_StronglySorted in H2; [|intros a b c; lia].
  revert l2 H2. induction H1 as [|a l1 Hs IH Ha]; intros l2 H2 Hp.
  - apply Permutation_nil in Hp. congruence.
  - destruct H2 as [|b l2 Hs2 Hb].
    + apply Permutation_sym, Permutation_nil in Hp. discriminate.
    + assert (a = b).
      { assert (Ina : In a (b :: l2)) by (apply (Permutation_in _ Hp); left; reflexivity).
        assert (Inb : In b (a :: l1))
          by (apply (Permutation_in _ (Permutation_sym Hp)); left; reflexivity).
        rewrite Forall_forall in Ha, Hb.
        destruct Ina as [-> | Ina]; [reflexivity|].
        destruct Inb as [-> | Inb]; [reflexivity|].
        specialize (Ha _ Inb). specialize (Hb _ Ina). lia. }
      subst b. f_equal. apply IH; [exact Hs2|].
      eapply Permutation_cons_inv, Hp.
Qed.

Lemma sorted_points_order_independent (scores scores' : list PlayerScore) :
  Permutation scores scores' -> sorted_points scores = sorted_points scores'.
Proof.
  intros Hp. apply ascending_unique; try apply sorted_points_ascending.
  eapply perm_trans; [apply sorted_points_perm|].
  eapply perm_trans; [apply Permutation_map, Hp|].
  apply Permutation_sym, sorted_points_perm.
Qed.

End Statistics.

(** X7.  The median of [getStatistics].  The points are put in ascending
    order; of an odd number of scores the median is the middle one, of an
    even number half the sum of the two middle ones; the count of games is
    the number of scores; and the median does not depend on the order in
    which the scores were added.  (Fewer than 2^31 scores, the range of the
    counter; the sum of the two middle ones is an [int] sum.) *)
Theorem median_is_the_middle_of_the_sorted_points (scores : list Cpp.PlayerScore) :
  scores <> [] ->
  Z.of_nat (List.length scores) <= 2147483647 ->
  let n := List.length scores in
  let sorted := Cpp.sorted_points scores in
  Sorted Z.le sorted
  /\ Permutation sorted (map Cpp.totalPoints scores)
  /\ Cpp.totalGames (Cpp.getStatistics scores) = Z.of_nat n
  /\ (Nat.odd n = true ->
      Cpp.medianScore (Cpp.getStatistics scores) = to_double (nth (n / 2)%nat sorted 0))
  /\ (Nat.even n = true ->
      Cpp.medianScore (Cpp.getStatistics scores)
      = (to_double (add32 (nth (n / 2 - 1)%nat sorted 0%Z) (nth (n / 2)%nat sorted 0%Z))
         / 2)%float)
  /\ (forall scores', Permutation scores scores' ->
        Cpp.medianScore (Cpp.getStatistics scores')
        = Cpp.medianScore (Cpp.getStatistics scores)).
Proof.
  intros Hne Hlen n sorted.
  assert (Hsize : List.length sorted = n).
  { unfold sorted. rewrite (Permutation_length (sorted_points_perm scores)).
    apply length_map. }
  assert (Hmed : forall l, l <> [] ->
            Cpp.medianScore (Cpp.getStatistics l) = Cpp.median_of (Cpp.sorted_points l)).
  { intros [|x l] H; [congruence | reflexivity]. }
  assert (Hmid : wrap32 (Z.of_nat n / 2) = Z.of_nat (n / 2)).
  { rewrite Nat2Z.inj_div. apply wrap32_id. unfold int_range.
    pose proof (Z.div_pos (Z.of_nat n) 2).
    assert (Z.of_nat n / 2 <= Z.of_nat n) by (apply Z.div_le_upper_bound; lia).
    fold n in Hlen. lia. }
  split; [apply sorted_points_ascending|]. split; [apply sorted_points_perm|].
  split; [|split; [|split]].
  - destruct scores; [congruence|]. cbn [Cpp.getStatistics Cpp.totalGames].
    apply wrap32_id. unfold int_range. fold n. lia.
  - intros Hodd. rewrite (Hmed _ Hne). unfold Cpp.median_of. fold sorted.
    rewrite Hsize, Hmid.
    rewrite Nat.odd_spec in Hodd. destruct Hodd as [k Hk].
    replace (Z.of_nat n mod 2) with 1
      by (rewrite Hk, Nat2Z.inj_add, Nat2Z.inj_mul;
          rewrite Z.add_comm, Z.mul_comm, Z.mod_add by lia; reflexivity).
    change (1 =? 0) with false. cbv iota. rewrite Nat2Z.id. reflexivity.
  - intros Heven. rewrite (Hmed _ Hne). unfold Cpp.median_of. fold sorted.
    rewrite Hsize, Hmid.
    rewrite Nat.even_spec in Heven. destruct Heven as [k Hk].
    replace (Z.of_nat n mod 2) with 0
      by (rewrite Hk, Nat2Z.inj_mul; rewrite Z.mul_comm, Z.mod_mul by lia; reflexivity).
    change (0 =? 0) with true. cbv iota. rewrite Nat2Z.id.
    replace (Z.to_nat (Z.of_nat (n / 2) - 1)) with (n / 2 - 1)%nat by lia. reflexivity.
  - intros scores' Hp.
    assert (Hne' : scores' <> []).
    { intros ->. apply Permutation_sym, Permutation_nil in Hp. congruence. }
    rewrite (Hmed _ Hne), (Hmed _ Hne'), (sorted_points_order_independent _ _ Hp).
    reflexivity.
Qed.

(** X7 on the three records, with 950, 1240 and 1240 points. *)
Lemma median_is_the_middle_of_the_sorted_points_witness :
  Cpp.medianScore (Cpp.getStatistics three_records) = 1240%float.
Proof.
  pose proof (median_is_the_middle_of_the_sorted_points three_records) as H.
  assert (Hne : three_records <> []) by discriminate.
  assert (Hlen : Z.of_nat (List.length three_records) <= 2147483647) by (simpl; lia).
  destruct (H Hne Hlen) as (_ & _ & _ & Hodd & _).
  rewrite (Hodd eq_refl). reflexivity.
Defined.

(** ** The scorers of the C++ and of the Java engine *)




(** ** The color pools *)

Section Pools.

Lemma Colors_Keys_NoDup : NoDup Colors_Keys.
Proof. vm_compute. repeat constructor; simpl; intuition discriminate. Qed.

Lemma GetColorPool_prefix (difficulty : Z) : incl (GetColorPool difficulty) Colors_Keys.
Proof. intros x Hx. unfold GetColorPool in Hx. eapply In_firstn, Hx. Qed.

Lemma GetColorPool_NoDup (difficulty : Z) : NoDup (GetColorPool difficulty).
Proof. unfold GetColorPool. apply NoDup_firstn, Colors_Keys_NoDup. Qed.

(** The count [4 + (difficulty - 1) * 2] where the [int] arithmetic does not
    overflow. *)
Lemma pool_count (difficulty : Z) :
  -1073741821 <= difficulty <= 1073741822 ->
  add32 4 (mul32 (sub32 difficulty 1) 2) = 2 * difficulty + 2.
Proof.
  intros H. unfold add32, mul32, sub32.
  rewrite (wrap32_id (difficulty - 1)) by (unfold int_range; lia).
  rewrite (wrap32_id ((difficulty - 1) * 2)) by (unfold int_range; lia).
  rewrite wrap32_id by (unfold int_range; lia). lia.
Qed.

Lemma GetColorPool_firstn (difficulty : Z) :
  -1073741821 <= difficulty <= 1073741822 ->
  GetColorPool difficulty = firstn (Z.to_nat (Z.min 15 (2 * difficulty + 2))) Colors_Keys.
Proof. intros H. unfold GetColorPool. rewrite (pool_count _ H). reflexivity. Qed.

Lemma GetColorPool_length (difficulty : Z) :
  1 <= difficulty <= 1073741822 ->
  Z.of_nat (List.length (GetColorPool difficulty)) = Z.min 15 (2 * difficulty + 2).
Proof.
  intros H. rewrite GetColorPool_firstn by lia. rewrite length_firstn.
  change (List.length Colors_Keys) with 15%nat. lia.
Qed.

(** The pool of each of the five levels of a session. *)
Lemma level_pool (d : Z) :
  1 <= d <= 5 ->
  NoDup (GetColorPool d) /\ (4 <= List.length (GetColorPool d))%nat
  /\ incl (GetColorPool d) Colors_Keys.
Proof.
  intros Hd. split; [apply GetColorPool_NoDup|]. split; [|apply GetColorPool_prefix].
  pose proof (GetColorPool_length d ltac:(lia)). lia.
Qed.

Lemma wrap32_eq (z : Z) : exists k, wrap32 z = z - 4294967296 * k.
Proof.
  exists ((z + 2147483648) / 4294967296). unfold wrap32.
  rewrite Z.mod_eq by lia. lia.
Qed.

(** The count of a pool is even, or it is 15. *)
Lemma pool_count_not_1 (difficulty : Z) :
  Z.min Colors_Count (add32 4 (mul32 (sub32 difficulty 1) 2)) <> 1.
Proof.
  unfold add32, mul32. change Colors_Count with 15.
  destruct (wrap32_eq (sub32 difficulty 1 * 2)) as [k1 ->].
  destruct (wrap32_eq (4 + (sub32 difficulty 1 * 2 - 4294967296 * k1))) as [k2 ->].
  lia.
Qed.

Lemma GetColorPool_not_single (difficulty : Z) :
  List.length (GetColorPool difficulty) <> 1%nat.
Proof.
  unfold GetColorPool. rewrite length_firstn.
  pose proof (pool_count_not_1 difficulty).
  change (List.length Colors_Keys) with 15%nat. change Colors_Count with 15 in *. lia.
Qed.

End Pools.

(** X9.  The color pool grows with the difficulty: from difficulty 1 on
    (and while [4 + (difficulty - 1) * 2] fits an [int]) the pool is the first
    [min(15, 2 * difficulty + 2)] colors of the registry, in its order and
    without a duplicate; the pool of the next difficulty extends it; from
    difficulty 7 on it is the whole registry; and the Java validator takes the
    same pool. *)
Theorem GetColorPool_grows_with_difficulty (difficulty : Z) :
  1 <= difficulty <= 1073741822 ->
  Z.of_nat (List.length (GetColorPool difficulty)) = Z.min 15 (2 * difficulty + 2)
  /\ GetColorPool difficulty
     = firstn (Z.to_nat (Z.min 15 (2 * difficulty + 2))) Colors_Keys
  /\ NoDup (GetColorPool difficulty)
  /\ (difficulty < 1073741822 ->
      exists more, GetColorPool (difficulty + 1) = GetColorPool difficulty ++ more)
  /\ (7 <= difficulty -> GetColorPool difficulty = Colors_Keys)
  /\ (forall tape, Java.getColorPoolForDifficulty difficulty tape
                   = Ok (GetColorPool difficulty, tape)).
Proof.
  intros H. split; [apply GetColorPool_length, H|].
  pose proof (GetColorPool_firstn difficulty ltac:(lia)) as Hpool.
  split; [exact Hpool|]. split; [apply GetColorPool_NoDup|]. split; [|split].
  - intros Hne.
    pose proof (GetColorPool_firstn (difficulty + 1) ltac:(lia)) as Hnext.
    rewrite Hnext, Hpool.
    set (n := Z.to_nat (Z.min 15 (2 * difficulty + 2))).
    set (n' := Z.to_nat (Z.min 15 (2 * (difficulty + 1) + 2))).
    exists (skipn n (firstn n' Colors_Keys)).
    rewrite <- (firstn_skipn n (firstn n' Colors_Keys)) at 1.
    rewrite firstn_firstn, Nat.min_l by (unfold n, n'; lia). reflexivity.
  - intros H7. rewrite Hpool. rewrite Z.min_l by lia. reflexivity.
  - intros tape. unfold Java.getColorPoolForDifficulty.
    rewrite (pool_count difficulty) by lia.
    change (Z.of_nat (List.length Colors_Keys)) with 15.
    destruct (Z.ltb_spec (Z.min 15 (2 * difficulty + 2)) 0); [lia|].
    rewrite Hpool. reflexivity.
Qed.

(** X9 at difficulty 3, the pool of eight colors. *)
Lemma GetColorPool_grows_with_difficulty_witness :
  Z.of_nat (List.length (GetColorPool 3)) = Z.min 15 (2 * 3 + 2).
Proof.
  refine (proj1 (GetColorPool_grows_with_difficulty 3 _)). lia.
Defined.

(** The count of a pool, for every difficulty: [2 * difficulty + 2], wrapped
    once. *)
Lemma pool_count_wrapped (difficulty : Z) :
  add32 4 (mul32 (sub32 difficulty 1) 2) = wrap32 (2 * difficulty + 2).
Proof.
  pose proof (wrap32_range (2 * difficulty + 2)) as Hr.
  destruct (wrap32_eq (2 * difficulty + 2)) as [k Hk].
  unfold add32, mul32, sub32.
  pose proof (wrap32_range (4 + wrap32 (wrap32 (difficulty - 1) * 2))) as Hr'.
  destruct (wrap32_eq (4 + wrap32 (wrap32 (difficulty - 1) * 2))) as [k1 Hk1].
  destruct (wrap32_eq (wrap32 (difficulty - 1) * 2)) as [k2 Hk2].
  destruct (wrap32_eq (difficulty - 1)) as [k3 Hk3].
  unfold int_range in *. lia.
Qed.

Lemma pool_count_below (difficulty : Z) :
  -2147483648 <= difficulty <= -1073741826 ->
  wrap32 (2 * difficulty + 2) = 2 * (difficulty + 2147483648) + 2.
Proof.
  intros H. pose proof (wrap32_range (2 * difficulty + 2)) as Hr.
  destruct (wrap32_eq (2 * difficulty + 2)) as [k Hk]. unfold int_range in *. lia.
Qed.

Lemma pool_count_above (difficulty : Z) :
  1073741823 <= difficulty <= 2147483647 ->
  wrap32 (2 * difficulty + 2) = 2 * (difficulty - 2147483648) + 2.
Proof.
  intros H. pose proof (wrap32_range (2 * difficulty + 2)) as Hr.
  destruct (wrap32_eq (2 * difficulty + 2)) as [k Hk]. unfold int_range in *. lia.
Qed.

Lemma pool_count_between (difficulty : Z) :
  -1073741825 <= difficulty <= 1073741822 ->
  wrap32 (2 * difficulty + 2) = 2 * difficulty + 2.
Proof. intros H. apply wrap32_id. unfold int_range. lia. Qed.

(** X10.  The pools outside the levels 1 to 1073741822, for every other
    [int].  At difficulty 0 the pool is Red and Blue.  From -1 down to
    -1073741825 the count is 0 or negative: the C# pool is empty, and the Java
    validator takes the empty pool at -1 and throws from -2 down, where
    [subList] gets a negative end.  Below, from -1073741826 down to the least
    [int], the count has wrapped around and is positive again: the pool is
    that of the difficulty 2^31 higher, never empty, the whole registry at
    -1073741826 and Red and Blue at the least [int], and the Java validator
    takes it without throwing.  From 1073741823 up the count overflows: the C#
    pool is empty, and the Java validator throws up to 2147483646 and takes
    the empty pool at 2147483647.  On an empty pool both generators throw: C#
    when it indexes the pool, Java when it asks for a random number below
    0. *)
Theorem pools_outside_the_levels :
  GetColorPool 0 = ["Red"; "Blue"]%string
  /\ (forall difficulty, -1073741825 <= difficulty <= -1 -> GetColorPool difficulty = [])
  /\ (forall difficulty, -2147483648 <= difficulty <= -1073741826 ->
        GetColorPool difficulty
        = firstn (Z.to_nat (Z.min 15 (2 * (difficulty + 2147483648) + 2))) Colors_Keys
        /\ GetColorPool difficulty = GetColorPool (difficulty + 2147483648)
        /\ GetColorPool difficulty <> [])
  /\ GetColorPool (-2147483648) = ["Red"; "Blue"]%string
  /\ GetColorPool (-1073741826) = Colors_Keys
  /\ (forall difficulty, 1073741823 <= difficulty <= 2147483647 -> GetColorPool difficulty = [])
  /\ (forall tape, Java.getColorPoolForDifficulty (-1) tape = Ok ([], tape))
  /\ (forall difficulty tape, -1073741825 <= difficulty <= -2 ->
        Java.getColorPoolForDifficulty difficulty tape = Throw "IllegalArgumentException")
  /\ (forall difficulty tape, -2147483648 <= difficulty <= -1073741826 ->
        Java.getColorPoolForDifficulty difficulty tape = Ok (GetColorPool difficulty, tape))
  /\ (forall difficulty tape, 1073741823 <= difficulty <= 2147483646 ->
        Java.getColorPoolForDifficulty difficulty tape = Throw "IllegalArgumentException")
  /\ (forall tape, Java.getColorPoolForDifficulty 2147483647 tape = Ok ([], tape))
  /\ (forall v tape, CSharp.generate [] (v :: tape) = Throw "index out of range")
  /\ (forall tape, Java.generateQuestion [] tape = Throw "IllegalArgumentException").
Proof.
  assert (Hlow : forall d, -2147483648 <= d <= -1073741826 ->
            GetColorPool d = firstn (Z.to_nat (Z.min 15 (2 * (d + 2147483648) + 2))) Colors_Keys).
  { intros d H. unfold GetColorPool.
    rewrite pool_count_wrapped, (pool_count_below d H). reflexivity. }
  split; [reflexivity|].
  split.
  { intros d H. unfold GetColorPool.
    rewrite pool_count_wrapped, pool_count_between by lia.
    change Colors_Count with 15.
    replace (Z.to_nat (Z.min 15 (2 * d + 2))) with 0%nat by lia. reflexivity. }
  split.
  { intros d H. split; [apply Hlow, H|]. split.
    - rewrite (Hlow d H). unfold GetColorPool.
      rewrite pool_count_wrapped, pool_count_between by lia. reflexivity.
    - rewrite (Hlow d H). intros E. apply (f_equal (@List.length string)) in E.
      rewrite length_firstn in E. change (List.length Colors_Keys) with 15%nat in E.
      cbn [List.length] in E. lia. }
  split; [reflexivity|]. split; [reflexivity|].
  split.
  { intros d H. unfold GetColorPool.
    rewrite pool_count_wrapped, (pool_count_above d H). change Colors_Count with 15.
    replace (Z.to_nat (Z.min 15 (2 * (d - 2147483648) + 2))) with 0%nat by lia. reflexivity. }
  split; [reflexivity|].
  split.
  { intros d tape H. unfold Java.getColorPoolForDifficulty.
    rewrite pool_count_wrapped, pool_count_between by lia.
    change (Z.of_nat (List.length Colors_Keys)) with 15.
    destruct (Z.ltb_spec (Z.min 15 (2 * d + 2)) 0); [reflexivity | lia]. }
  split.
  { intros d tape H. unfold Java.getColorPoolForDifficulty, GetColorPool.
    rewrite pool_count_wrapped, (pool_count_below d H).
    change (Z.of_nat (List.length Colors_Keys)) with 15. change Colors_Count with 15.
    destruct (Z.ltb_spec (Z.min 15 (2 * (d + 2147483648) + 2)) 0); [lia | reflexivity]. }
  split.
  { intros d tape H. unfold Java.getColorPoolForDifficulty.
    rewrite pool_count_wrapped, pool_count_above by lia.
    change (Z.of_nat (List.length Colors_Keys)) with 15.
    destruct (Z.ltb_spec (Z.min 15 (2 * (d - 2147483648) + 2)) 0); [reflexivity | lia]. }
  split; [reflexivity|]. split; reflexivity.
Qed.

(** X11.  The fallback word is never taken.  The pool of any difficulty has
    no single color (its count is even, or 15), so whenever a generator
    returns a question over it the displayed word is the upper-cased name of
    a pool color other than the font color, and not the default "Black" the
    code provides for a pool with the font color alone. *)
Theorem word_is_never_the_default (difficulty : Z) :
  List.length (GetColorPool difficulty) <> 1%nat
  /\ (forall (tape tape' : list Z) (q : CSharp.StroopQuestion),
        CSharp.generate (GetColorPool difficulty) tape = Ok (q, tape') ->
        exists word, In word (GetColorPool difficulty)
                     /\ word <> CSharp.FontColorName q
                     /\ CSharp.TextWord q = toUpper word)
  /\ (forall (tape tape' : list Z) (q : Java.StroopQuestion),
        Java.generateQuestion (GetColorPool difficulty) tape = Ok (q, tape') ->
        exists word, In word (GetColorPool difficulty)
                     /\ word <> Java.fontColorName q
                     /\ Java.textWord q = toUpper word).
Proof.
  pose proof (GetColorPool_not_single difficulty) as Hn1.
  pose proof (GetColorPool_NoDup difficulty) as Hnd.
  set (pool := GetColorPool difficulty) in *.
  split; [exact Hn1|]. split.
  - intros tape tape' q H. unfold CSharp.generate in H.
    apply bind_Ok in H. destruct H as (i & t1 & _ & H).
    apply bind_Ok in H. destruct H as (fontColor & t2 & Hfont & H).
    apply item_Ok in Hfont. destruct Hfont as [Hfont _].
    assert (Hlen : (2 <= List.length pool)%nat).
    { destruct pool as [|a [|b r]]; simpl in *; try lia; contradiction. }
    apply bind_Ok in H. destruct H as (textWord & t3 & Hword & H).
    pose proof (filter_neq_nonempty pool fontColor Hnd Hlen) as Hne.
    destruct (Z.gtb_spec (Z.of_nat (List.length
               (filter (fun c => negb (String.eqb c fontColor)) pool))) 0) as [_ | Hz].
    2:{ exfalso. apply Hne. apply length_zero_iff_nil. lia. }
    apply bind_Ok in Hword. destruct Hword as (j & t4 & _ & Hword).
    apply item_Ok in Hword. destruct Hword as [Hword _].
    apply filter_In in Hword. destruct Hword as [Hwpool Hwne].
    apply negb_true_iff in Hwne. apply String.eqb_neq in Hwne.
    apply bind_Ok in H. destruct H as (shuffled & t5 & _ & H).
    apply bind_Ok in H. destruct H as (filled & t6 & _ & H).
    apply bind_Ok in H. destruct H as (options & t7 & _ & H).
    injection H as <- _. simpl. exists textWord. repeat split; assumption.
  - intros tape tape' q H. unfold Java.generateQuestion in H.
    apply bind_Ok in H. destruct H as (i & t1 & _ & H).
    apply bind_Ok in H. destruct H as (fontColor & t2 & Hfont & H).
    apply item_Ok in Hfont. destruct Hfont as [Hfont _].
    assert (Hlen : (2 <= List.length pool)%nat).
    { destruct pool as [|a [|b r]]; simpl in *; try lia; contradiction. }
    apply bind_Ok in H. destruct H as (textWord & t3 & Hword & H).
    pose proof (filter_neq_nonempty pool fontColor Hnd Hlen) as Hne.
    destruct (filter (fun c => negb (String.eqb c fontColor)) pool) as [|c0 cs] eqn:Hcand;
      [congruence|].
    apply bind_Ok in Hword. destruct Hword as (j & t4 & _ & Hword).
    apply item_Ok in Hword. destruct Hword as [Hword _].
    rewrite <- Hcand in Hword.
    apply filter_In in Hword. destruct Hword as [Hwpool Hwne].
    apply negb_true_iff in Hwne. apply String.eqb_neq in Hwne.
    apply bind_Ok in H. destruct H as (shuffled & t5 & _ & H).
    apply bind_Ok in H. destruct H as (filled & t6 & _ & H).
    apply bind_Ok in H. destruct H as (options & t7 & _ & H).
    injection H as <- _. simpl. exists textWord. repeat split; assumption.
Qed.

(** ** The session: what one call does *)

Section SessionSteps.

Import CSharp.

Lemma SubmitAnswer_Rejected s sel rt :
  kind_of s sel = Rejected -> snd (SubmitAnswer s sel rt) = s.
Proof.
  unfold kind_of, SubmitAnswer. destruct (CurrentQuestion s) as [q|]; [|reflexivity].
  destruct (negb (GameState_eqb (State s) Active)); [reflexivity|].
  destruct (equalsIgnoreCase (FontColorName q) sel); discriminate.
Qed.

Lemma SubmitAnswer_Right s sel rt :
  kind_of s sel = Right ->
  let s' := snd (SubmitAnswer s sel rt) in
  State s = Active
  /\ _reactions s' = _reactions s ++ [rt]
  /\ Score s' = add32 (Score s) 1
  /\ Combo s' = add32 (Combo s) 1
  /\ MaxCombo s' = Z.max (MaxCombo s) (add32 (Combo s) 1)
  /\ TotalPoints s' = add32 (TotalPoints s)
                            (CalculatePoints rt (add32 (Combo s) 1) (Difficulty s))
  /\ WrongAnswers s' = WrongAnswers s
  /\ Lives s' = Lives s
  /\ TimeLeft s' = (if GameMode_eqb (Mode s) Survival then (TimeLeft s + 3)%float else TimeLeft s)
  /\ Difficulty s' = (if rem32 (add32 (Score s) 1) 5 =? 0
                      then ScaleDifficulty (add32 (Score s) 1) else Difficulty s)
  /\ _colorPool s' = (if rem32 (add32 (Score s) 1) 5 =? 0
                      then GetColorPool (ScaleDifficulty (add32 (Score s) 1))
                      else _colorPool s)
  /\ State s' = (if GameMode_eqb (Mode s) SpeedRun && (add32 (Score s) 1 >=? Target s)
                 then Finished else Active)
  /\ Mode s' = Mode s /\ Target s' = Target s
  /\ CurrentQuestion s' = CurrentQuestion s /\ _random s' = _random s
  /\ StartTime s' = StartTime s.
Proof.
  unfold kind_of, SubmitAnswer. destruct (CurrentQuestion s) as [q|]; [|discriminate].
  destruct (State s) eqn:Hs; simpl; try discriminate.
  destruct (equalsIgnoreCase (FontColorName q) sel); [|discriminate].
  intros _. simpl. repeat split. destruct (rem32 _ 5 =? 0); reflexivity.
Qed.

Lemma SubmitAnswer_Wrong s sel rt :
  kind_of s sel = Wrong ->
  let s' := snd (SubmitAnswer s sel rt) in
  State s = Active
  /\ _reactions s' = _reactions s ++ [rt]
  /\ Score s' = Score s
  /\ Combo s' = 0
  /\ MaxCombo s' = MaxCombo s
  /\ WrongAnswers s' = add32 (WrongAnswers s) 1
  /\ Difficulty s' = Difficulty s
  /\ _colorPool s' = _colorPool s
  /\ Mode s' = Mode s /\ Target s' = Target s
  /\ CurrentQuestion s' = CurrentQuestion s /\ _random s' = _random s
  /\ StartTime s' = StartTime s
  /\ match Mode s with
     | Endless =>
         Lives s' = sub32 (Lives s) 1 /\ TimeLeft s' = TimeLeft s
         /\ TotalPoints s' = TotalPoints s
         /\ State s' = (if sub32 (Lives s) 1 <=? 0 then Finished else Active)
     | Survival =>
         Lives s' = Lives s /\ TimeLeft s' = Math_Max 0 (TimeLeft s - 3)%float
         /\ TotalPoints s' = TotalPoints s
         /\ State s' = (if (Math_Max 0 (TimeLeft s - 3) <=? 0)%float then Finished else Active)
     | SpeedRun =>
         Lives s' = Lives s /\ TimeLeft s' = TimeLeft s
         /\ TotalPoints s' = Z.max 0 (sub32 (TotalPoints s) 5)
         /\ State s' = (if Score s >=? Target s then Finished else Active)
     end.
Proof.
  unfold kind_of, SubmitAnswer. destruct (CurrentQuestion s) as [q|]; [|discriminate].
  destruct (State s) eqn:Hs; simpl; try discriminate.
  destruct (equalsIgnoreCase (FontColorName q) sel); [discriminate|].
  intros _. destruct (Mode s); simpl; repeat split.
Qed.

Lemma NextQuestion_cases s s' q :
  NextQuestion s = Ok (q, s') ->
  (q = None /\ s' = s /\ State s <> Active)
  \/ (exists q' tape', q = Some q' /\ State s = Active
        /\ generate (_colorPool s) (_random s) = Ok (q', tape')
        /\ s' = with_question s q' tape').
Proof.
  unfold NextQuestion. destruct (State s) eqn:Hs; simpl;
    try (intros H; injection H as <- <-; left; repeat split; discriminate).
  destruct (generate (_colorPool s) (_random s)) as [[q' tape']| |]; try discriminate.
  intros H. injection H as <- <-. right. exists q', tape'. repeat split.
Qed.


End SessionSteps.

(** ** The session: its invariants *)

Section SessionInvariants.

Import CSharp.

Lemma ScaleDifficulty_range (score : Z) : 1 <= ScaleDifficulty score <= 5.
Proof.
  unfold ScaleDifficulty.
  repeat match goal with |- context [if ?b then _ else _] => destruct b end; lia.
Qed.

(** What holds of every session, however many answers it took. *)
Lemma session_invariant (mode : GameMode) (tape : list Z) (s : GameSession) :
  reachable (new_GameSession mode tape) s ->
  Mode s = mode
  /\ Target s = (match mode with SpeedRun => 50 | _ => -1 end)
  /\ (mode <> Endless -> Lives s = -1)
  /\ (mode <> Survival -> TimeLeft s = (-1)%float)
  /\ State s <> Paused
  /\ 1 <= Difficulty s <= 5
  /\ _colorPool s = GetColorPool (Difficulty s)
  /\ Combo s <= MaxCombo s
  /\ 0 <= MaxCombo s
  /\ (State s = Finished ->
      match mode with
      | Endless => Lives s <= 0
      | Survival => (TimeLeft s <=? 0)%float = true
      | SpeedRun => Score s >= 50
      end).
Proof.
  induction 1 as [|s now Hr IH|s s' q Hr IH Hn|s sel rt Hr IH].
  - destruct mode; simpl; repeat split; try congruence; try lia.
  - destruct IH as (I1 & I2 & I3 & I4 & I5 & I6 & I7 & I8 & I8' & I9).
    simpl. repeat split; try assumption; try lia; try discriminate.
  - destruct (NextQuestion_cases _ _ _ Hn) as [(_ & -> & _) | (q' & tape' & _ & _ & _ & ->)];
      [exact IH|].
    destruct IH as (I1 & I2 & I3 & I4 & I5 & I6 & I7 & I8 & I8' & I9).
    simpl. repeat split; try assumption; try lia.
  - destruct IH as (I1 & I2 & I3 & I4 & I5 & I6 & I7 & I8 & I8' & I9).
    destruct (kind_of s sel) eqn:Hk.
    + rewrite (SubmitAnswer_Rejected _ _ rt Hk). repeat split; try assumption; lia.
    + destruct (SubmitAnswer_Right _ _ rt Hk)
        as (Hs & _ & Hsc & Hco & Hmx & _ & _ & Hl & Ht & Hd & Hp & Hst & Hm & Htg & _).
      rewrite Hm, Htg, Hl, Ht, Hd, Hp, Hco, Hmx, Hst, Hsc, I1, I2.
      split; [reflexivity|]. split; [reflexivity|]. split; [exact I3|].
      split. { intros Hne. destruct mode; simpl; try congruence; apply I4, Hne. }
      split. { match goal with |- (if ?b then _ else _) <> _ => destruct b; discriminate end. }
      split. { destruct (_ =? 0); [apply ScaleDifficulty_range | exact I6]. }
      split. { destruct (_ =? 0); [reflexivity | exact I7]. }
      split; [lia|]. split; [lia|].
      destruct mode; simpl; try discriminate.
      destruct (Z.geb_spec (add32 (Score s) 1) 50); [lia | discriminate].
    + destruct (SubmitAnswer_Wrong _ _ rt Hk)
        as (Hs & _ & Hsc & Hco & Hmx & _ & Hd & Hp & Hm & Htg & _ & _ & _ & Hmode).
      rewrite Hm, Htg, Hd, Hp, Hco, Hmx, Hsc, I1, I2. rewrite I1 in Hmode.
      split; [reflexivity|]. split; [reflexivity|].
      destruct mode; destruct Hmode as (Hl & Ht & _ & Hst); rewrite Hl, Ht, Hst; simpl.
      * split; [congruence|]. split; [intros _; apply I4; discriminate|].
        split. { match goal with |- (if ?b then _ else _) <> _ => destruct b; discriminate end. }
        split; [exact I6|]. split; [exact I7|]. split; [exact I8'|]. split; [exact I8'|].
        destruct (Z.leb_spec (sub32 (Lives s) 1) 0); [lia | discriminate].
      * split; [intros _; apply I3; discriminate|]. split; [congruence|].
        split. { match goal with |- (if ?b then _ else _) <> _ => destruct b; discriminate end. }
        split; [exact I6|]. split; [exact I7|]. split; [exact I8'|]. split; [exact I8'|].
        match goal with |- (if ?b then _ else _) = _ -> _ => destruct b; [reflexivity | discriminate] end.
      * split; [intros _; apply I3; discriminate|].
        split; [intros _; apply I4; discriminate|].
        split. { match goal with |- (if ?b then _ else _) <> _ => destruct b; discriminate end. }
        split; [exact I6|]. split; [exact I7|]. split; [exact I8'|]. split; [exact I8'|].
        match goal with |- (if ?a >=? ?b then _ else _) = _ -> _ =>
          destruct (Z.geb_spec a b); [intros _; simpl in *; lia | discriminate] end.
Qed.


Lemma ScaleDifficulty_next (score : Z) :
  0 <= score -> Z.rem (score + 1) 5 <> 0 ->
  ScaleDifficulty score = ScaleDifficulty (score + 1).
Proof.
  intros Hs Hr.
  assert (H : score + 1 <> 10 /\ score + 1 <> 20 /\ score + 1 <> 30 /\ score + 1 <> 40).
  { repeat split; intros E; rewrite E in Hr; apply Hr; reflexivity. }
  unfold ScaleDifficulty.
  repeat match goal with |- context [?a >=? ?b] => destruct (Z.geb_spec a b) end; lia.
Qed.

(** What holds of a session that took fewer than 2^31 answers, so that none
    of its counters has wrapped around. *)
Lemma session_counters (mode : GameMode) (tape : list Z) (s : GameSession) :
  reachable (new_GameSession mode tape) s ->
  Z.of_nat (List.length (_reactions s)) <= 2147483647 ->
  Score s + WrongAnswers s = Z.of_nat (List.length (_reactions s))
  /\ 0 <= WrongAnswers s /\ 0 <= Combo s /\ Combo s <= Score s /\ MaxCombo s <= Score s
  /\ Difficulty s = ScaleDifficulty (Score s)
  /\ (mode = Endless -> Lives s = 3 - WrongAnswers s).
Proof.
  induction 1 as [|s now Hr IH|s s' q Hr IH Hn|s sel rt Hr IH].
  - intros _. destruct mode; simpl; repeat split; try congruence; try lia.
  - exact IH.
  - destruct (NextQuestion_cases _ _ _ Hn) as [(_ & -> & _) | (q' & tape' & _ & _ & _ & ->)];
      exact IH.
  - destruct (kind_of s sel) eqn:Hk.
    + rewrite (SubmitAnswer_Rejected _ _ rt Hk). exact IH.
    + destruct (SubmitAnswer_Right _ _ rt Hk)
        as (Hs & Hre & Hsc & Hco & Hmx & _ & Hw & Hl & _ & Hd & _).
      rewrite Hre, Hsc, Hco, Hmx, Hw, Hl, Hd, length_app. cbn [List.length]. intros Hlen.
      destruct IH as (J1 & J2 & J3 & J4 & J5 & J6 & J7); [lia|].
      assert (Hs1 : add32 (Score s) 1 = Score s + 1) by (apply wrap32_id; unfold int_range; lia).
      assert (Hc1 : add32 (Combo s) 1 = Combo s + 1) by (apply wrap32_id; unfold int_range; lia).
      rewrite Hs1, Hc1.
      repeat split; try lia.
      * unfold rem32.
        assert (Hrem : 0 <= Z.rem (Score s + 1) 5 < 5).
        { rewrite Z.rem_mod_nonneg by lia. apply Z.mod_pos_bound. lia. }
        rewrite wrap32_id by (unfold int_range; lia).
        destruct (Z.eqb_spec (Z.rem (Score s + 1) 5) 0) as [|Hne]; [reflexivity|].
        rewrite J6. apply ScaleDifficulty_next; [lia | assumption].
      * intros Hm. rewrite (J7 Hm). reflexivity.
    + destruct (SubmitAnswer_Wrong _ _ rt Hk)
        as (Hs & Hre & Hsc & Hco & Hmx & Hw & Hd & _ & _ & _ & _ & _ & _ & Hmode).
      rewrite Hre, Hsc, Hco, Hmx, Hw, Hd, length_app. cbn [List.length]. intros Hlen.
      destruct IH as (J1 & J2 & J3 & J4 & J5 & J6 & J7); [lia|].
      assert (Hw1 : add32 (WrongAnswers s) 1 = WrongAnswers s + 1)
        by (apply wrap32_id; unfold int_range; lia).
      rewrite Hw1. repeat split; try lia; try assumption.
      intros Hm. rewrite (proj1 (session_invariant mode tape s Hr)), Hm in Hmode.
      destruct Hmode as (Hl & _). rewrite Hl, (J7 Hm).
      unfold sub32. rewrite wrap32_id by (unfold int_range; lia). lia.
Qed.

End SessionInvariants.

(** ** The generator never throws *)

Section NeverThrows.

Lemma ret_never_throws {A : Type} (a : A) : never_throws (ret a).
Proof. intros tape what. discriminate. Qed.

Lemma bind_never_throws {A B : Type} (m : Rand A) (f : A -> Rand B) (P : A -> Prop) :
  never_throws m ->
  (forall tape tape' a, m tape = Ok (a, tape') -> P a) ->
  (forall a, P a -> never_throws (f a)) ->
  never_throws (bind m f).
Proof.
  intros Hm Hpost Hf tape what. unfold bind.
  destruct (m tape) as [[a mid]|w|] eqn:E.
  - apply (Hf a (Hpost _ _ _ E)).
  - exfalso. apply (Hm tape w E).
  - discriminate.
Qed.

Lemma Next_never_throws (n : Z) : never_throws (CSharp.Next n).
Proof. intros [|v tape] what; discriminate. Qed.

Lemma Next_any_never_throws : never_throws CSharp.Next_any.
Proof. intros [|v tape] what; discriminate. Qed.

Lemma item_never_throws (l : list string) (i : Z) :
  0 <= i < Z.of_nat (List.length l) -> never_throws (item l i).
Proof.
  intros Hi tape what. unfold item.
  destruct (Z.ltb_spec i 0); [lia|].
  destruct (Z.leb_spec (Z.of_nat (List.length l)) i); [lia|]. simpl.
  destruct (nth_error l (Z.to_nat i)) as [x|] eqn:Hn; [discriminate|].
  apply nth_error_None in Hn. lia.
Qed.

Lemma draw_keys_never_throws (source : list string) : never_throws (CSharp.draw_keys source).
Proof.
  induction source as [|c rest IH]; simpl.
  - apply ret_never_throws.
  - apply (bind_never_throws _ _ (fun _ => True)); [apply Next_any_never_throws | trivial |].
    intros k _.
    apply (bind_never_throws _ _ (fun _ => True)); [exact IH | trivial |].
    intros keyed _. apply ret_never_throws.
Qed.

Lemma OrderBy_random_never_throws (source : list string) :
  never_throws (CSharp.OrderBy_random source).
Proof.
  unfold CSharp.OrderBy_random.
  apply (bind_never_throws _ _ (fun _ => True)); [apply draw_keys_never_throws | trivial |].
  intros keyed _. apply ret_never_throws.
Qed.

Lemma fill_options_never_throws (options : list string) : never_throws (fill_options options).
Proof.
  intros tape. revert options. induction tape as [|v tape IH]; intros options what; simpl.
  - destruct (Z.of_nat (List.length options) <? 4); discriminate.
  - destruct (Z.of_nat (List.length options) <? 4); [|discriminate].
    destruct (Colors_Keys_at v) as [filler ->]. apply IH.
Qed.

Lemma CSharp_generate_never_throws (pool : list string) :
  NoDup pool -> (2 <= List.length pool)%nat -> never_throws (CSharp.generate pool).
Proof.
  intros Hnd Hlen. unfold CSharp.generate.
  apply (bind_never_throws _ _ (fun i => 0 <= i < Z.of_nat (List.length pool)));
    [apply Next_never_throws | intros tape tape' i; apply Next_range; lia |].
  intros i Hi.
  apply (bind_never_throws _ _ (fun _ => True)); [apply item_never_throws, Hi | trivial |].
  intros fontColor _. cbv zeta.
  pose proof (filter_neq_nonempty pool fontColor Hnd Hlen) as Hne.
  set (wordCandidates := filter (fun c => negb (String.eqb c fontColor)) pool) in *.
  assert (Hwc : 0 < Z.of_nat (List.length wordCandidates)).
  { destruct wordCandidates; [congruence | simpl; lia]. }
  destruct (Z.gtb_spec (Z.of_nat (List.length wordCandidates)) 0) as [_ | Hz]; [|lia].
  apply (bind_never_throws _ _ (fun _ => True)); [|trivial|].
  { apply (bind_never_throws _ _ (fun j => 0 <= j < Z.of_nat (List.length wordCandidates)));
      [apply Next_never_throws | intros tape tape' j; apply Next_range; lia |].
    intros j Hj. apply item_never_throws, Hj. }
  intros textWord _.
  apply (bind_never_throws _ _ (fun _ => True));
    [apply OrderBy_random_never_throws | trivial |].
  intros shuffled _.
  apply (bind_never_throws _ _ (fun _ => True)); [apply fill_options_never_throws | trivial |].
  intros filled _.
  apply (bind_never_throws _ _ (fun _ => True));
    [apply OrderBy_random_never_throws | trivial |].
  intros options _. apply ret_never_throws.
Qed.

End NeverThrows.

Section Questions.
Import CSharp.

(** The current question of a session was generated over the pool of one of
    the five levels. *)
Lemma current_question_invariant (mode : GameMode) (tape : list Z) (s : GameSession)
    (q : StroopQuestion) :
  reachable (new_GameSession mode tape) s ->
  CurrentQuestion s = Some q ->
  exists d, 1 <= d <= 5
    /\ Spec.well_formed_question (GetColorPool d) (TextWord q) (FontColorName q) (Options q).
Proof.
  intros Hr. revert q.
  induction Hr as [|s now Hr IH|s s' q0 Hr IH Hn|s sel rt Hr IH]; intros q Hq.
  - discriminate.
  - exact (IH q Hq).
  - destruct (NextQuestion_cases _ _ _ Hn) as [(_ & -> & _) | (q' & tape' & _ & _ & Hg & ->)].
    + exact (IH q Hq).
    + simpl in Hq. injection Hq as ->.
      destruct (session_invariant mode tape s Hr) as (_ & _ & _ & _ & _ & Hd & Hp & _).
      exists (Difficulty s). split; [exact Hd|].
      rewrite Hp in Hg. destruct (level_pool _ Hd) as (Hnd & Hlen & Hincl).
      eapply CSharp_generate_well_formed; eassumption.
  - apply IH. rewrite <- Hq.
    destruct (kind_of s sel) eqn:Hk.
    + rewrite (SubmitAnswer_Rejected _ _ rt Hk). reflexivity.
    + symmetry. apply (SubmitAnswer_Right _ _ rt Hk).
    + symmetry. apply (SubmitAnswer_Wrong _ _ rt Hk).
Qed.

(** A session no answer was submitted to has the counters of a new one. *)
Lemma unanswered_invariant (mode : GameMode) (tape : list Z) (s : GameSession) :
  reachable (new_GameSession mode tape) s ->
  _reactions s = [] ->
  Score s = 0 /\ WrongAnswers s = 0 /\ TotalPoints s = 0 /\ Combo s = 0 /\ MaxCombo s = 0
  /\ Difficulty s = 1
  /\ Lives s = Lives (new_GameSession mode tape)
  /\ TimeLeft s = TimeLeft (new_GameSession mode tape)
  /\ State s <> Finished.
Proof.
  induction 1 as [|s now Hr IH|s s' q0 Hr IH Hn|s sel rt Hr IH]; intros He.
  - repeat split. discriminate.
  - destruct (IH He) as (? & ? & ? & ? & ? & ? & ? & ? & ?). repeat split; try assumption.
    discriminate.
  - destruct (NextQuestion_cases _ _ _ Hn) as [(_ & -> & _) | (q' & tape' & _ & _ & _ & ->)];
      exact (IH He).
  - destruct (kind_of s sel) eqn:Hk.
    + rewrite (SubmitAnswer_Rejected _ _ rt Hk) in *. exact (IH He).
    + destruct (SubmitAnswer_Right _ _ rt Hk) as (_ & Hre & _).
      rewrite Hre in He. destruct (_reactions s); discriminate.
    + destruct (SubmitAnswer_Wrong _ _ rt Hk) as (_ & Hre & _).
      rewrite Hre in He. destruct (_reactions s); discriminate.
Qed.

End Questions.

(** ** The session: what its callers can rely on *)

Lemma correct_answers_reachable (s0 s : CSharp.GameSession) (n : nat) (rt : Z) :
  CSharp.reachable s0 s -> CSharp.reachable s0 (correct_answers n rt s).
Proof.
  revert s. induction n as [|n IH]; intros s Hs; simpl.
  - exact Hs.
  - apply IH, CSharp.reach_SubmitAnswer, Hs.
Qed.

Lemma endless_asked_reachable :
  CSharp.reachable (CSharp.new_GameSession CSharp.Endless sample_tape) endless_asked.
Proof.
  eapply CSharp.reach_NextQuestion;
    [apply CSharp.reach_Start, CSharp.reach_here | vm_compute; reflexivity].
Qed.

Lemma ScaleDifficulty_closed (score : Z) :
  0 <= score -> CSharp.ScaleDifficulty score = 1 + Z.min 4 (score / 10).
Proof.
  intros Hs. unfold CSharp.ScaleDifficulty.
  pose proof (Z.div_mod score 10 ltac:(lia)) as Hdm.
  pose proof (Z.mod_pos_bound score 10 ltac:(lia)) as Hb.
  repeat match goal with |- context [?a >=? ?b] => destruct (Z.geb_spec a b) end; lia.
Qed.

(** X12.  Every answer is counted once.  In a session that took fewer than
    2^31 answers the score and the count of wrong answers add up to the number
    of reaction times recorded; the combo is between 0 and the longest combo,
    which is at most the score; and the report gives the two counts and a star
    for every ten correct answers. *)
Theorem every_answer_is_counted (mode : CSharp.GameMode) (tape : list Z)
    (s : CSharp.GameSession) :
  CSharp.reachable (CSharp.new_GameSession mode tape) s ->
  Z.of_nat (List.length (CSharp._reactions s)) <= 2147483647 ->
  CSharp.Score s + CSharp.WrongAnswers s = Z.of_nat (List.length (CSharp._reactions s))
  /\ 0 <= CSharp.Combo s <= CSharp.MaxCombo s
  /\ CSharp.MaxCombo s <= CSharp.Score s
  /\ 0 <= CSharp.WrongAnswers s
  /\ forall now,
       CSharp.CorrectAnswers (CSharp.GetFinalReport s now)
       + CSharp.r_WrongAnswers (CSharp.GetFinalReport s now)
       = Z.of_nat (List.length (CSharp._reactions s))
       /\ CSharp.StarsEarned (CSharp.GetFinalReport s now) = CSharp.Score s / 10.
Proof.
  intros Hr Hlen.
  destruct (session_counters mode tape s Hr Hlen) as (H1 & H2 & H3 & H4 & H5 & _).
  destruct (session_invariant mode tape s Hr) as (_ & _ & _ & _ & _ & _ & _ & H6 & _).
  repeat split; try lia; try exact H1.
  cbn [CSharp.GetFinalReport CSharp.StarsEarned]. unfold CSharp.CalculateStars, div32.
  rewrite Z.quot_div_nonneg by lia.
  apply wrap32_id. unfold int_range.
  pose proof (Z.div_pos (CSharp.Score s) 10 ltac:(lia) ltac:(lia)).
  assert (CSharp.Score s / 10 <= CSharp.Score s) by (apply Z.div_le_upper_bound; lia). lia.
Qed.

(** X12 on the Endless session after four correct answers. *)
Lemma every_answer_is_counted_witness :
  CSharp.Score (correct_answers 4 1900 endless_asked)
  + CSharp.WrongAnswers (correct_answers 4 1900 endless_asked) = 4.
Proof.
  refine (proj1 (every_answer_is_counted CSharp.Endless sample_tape
                   (correct_answers 4 1900 endless_asked) _ _)).
  - apply correct_answers_reachable, endless_asked_reachable.
  - vm_compute. discriminate.
Defined.

(** X13.  The difficulty follows the score.  In a session that took fewer
    than 2^31 answers the difficulty is [1 + min(4, Score / 10)], although
    [ScaleDifficulty] only runs at every fifth correct answer, and the pool is
    the first [2 * Difficulty + 2] colors of the registry: 4, 6, 8, 10, 12. *)
Theorem difficulty_follows_the_score (mode : CSharp.GameMode) (tape : list Z)
    (s : CSharp.GameSession) :
  CSharp.reachable (CSharp.new_GameSession mode tape) s ->
  Z.of_nat (List.length (CSharp._reactions s)) <= 2147483647 ->
  CSharp.Difficulty s = 1 + Z.min 4 (CSharp.Score s / 10)
  /\ CSharp._colorPool s = firstn (Z.to_nat (2 * CSharp.Difficulty s + 2)) Colors_Keys.
Proof.
  intros Hr Hlen.
  destruct (session_counters mode tape s Hr Hlen) as (H1 & H2 & H3 & H4 & H5 & H6 & _).
  destruct (session_invariant mode tape s Hr) as (_ & _ & _ & _ & _ & Hd & Hp & _).
  split.
  - rewrite H6. apply ScaleDifficulty_closed. lia.
  - rewrite Hp.
    rewrite (GetColorPool_firstn (CSharp.Difficulty s)) by lia.
    f_equal. lia.
Qed.

(** X13 on the Endless session after ten correct answers: difficulty 2 and
    the pool of six colors. *)
Lemma difficulty_follows_the_score_witness :
  CSharp.Difficulty (correct_answers 10 1900 endless_asked) = 2
  /\ CSharp._colorPool (correct_answers 10 1900 endless_asked)
     = ["Red"; "Blue"; "Green"; "Yellow"; "Purple"; "Orange"]%string.
Proof.
  pose proof (difficulty_follows_the_score CSharp.Endless sample_tape
                (correct_answers 10 1900 endless_asked)
                (correct_answers_reachable _ _ 10 1900 endless_asked_reachable)) as H.
  assert (Hlen : Z.of_nat (List.length (CSharp._reactions (correct_answers 10 1900 endless_asked)))
                 <= 2147483647) by (vm_compute; discriminate).
  destruct (H Hlen) as [Hd Hp]. split.
  - rewrite Hd. reflexivity.
  - rewrite Hp, Hd. reflexivity.
Defined.

(** X14.  A session ends for the reason of its mode.  A session keeps its
    mode and is never Paused; it is Finished only with no life left (Endless),
    no time left (Survival) or a score of 50 or more (SpeedRun); the lives of
    the other modes stay -1, the time of the other modes stays -1, the target
    is 50 in SpeedRun and -1 otherwise; and the lives of an Endless session
    that took fewer than 2^31 answers are 3 less the wrong answers. *)
Theorem session_ends_for_the_reason_of_its_mode (mode : CSharp.GameMode) (tape : list Z)
    (s : CSharp.GameSession) :
  CSharp.reachable (CSharp.new_GameSession mode tape) s ->
  CSharp.Mode s = mode
  /\ CSharp.State s <> CSharp.Paused
  /\ (CSharp.State s = CSharp.Finished ->
      match mode with
      | CSharp.Endless => CSharp.Lives s <= 0
      | CSharp.Survival => (CSharp.TimeLeft s <=? 0)%float = true
      | CSharp.SpeedRun => CSharp.Score s >= 50
      end)
  /\ CSharp.Target s = (match mode with CSharp.SpeedRun => 50 | _ => -1 end)
  /\ (mode <> CSharp.Endless -> CSharp.Lives s = -1)
  /\ (mode <> CSharp.Survival -> CSharp.TimeLeft s = (-1)%float)
  /\ (mode = CSharp.Endless ->
      Z.of_nat (List.length (CSharp._reactions s)) <= 2147483647 ->
      CSharp.Lives s = 3 - CSharp.WrongAnswers s).
Proof.
  intros Hr.
  destruct (session_invariant mode tape s Hr) as (H1 & H2 & H3 & H4 & H5 & _ & _ & _ & _ & H9).
  split; [exact H1|]. split; [exact H5|]. split; [exact H9|]. split; [exact H2|].
  split; [exact H3|]. split; [exact H4|].
  intros Hm Hlen. apply (session_counters mode tape s Hr Hlen), Hm.
Qed.

(** X14 on the Endless session that lost its three lives. *)
Lemma session_ends_for_the_reason_of_its_mode_witness :
  CSharp.State endless_finished = CSharp.Finished /\ CSharp.Lives endless_finished <= 0.
Proof.
  pose proof (session_ends_for_the_reason_of_its_mode CSharp.Endless sample_tape
                endless_finished
                (wrong_answers_reachable _ _ 3 endless_asked_reachable)) as H.
  destruct H as (_ & _ & Hf & _).
  assert (Hs : CSharp.State endless_finished = CSharp.Finished) by reflexivity.
  split; [exact Hs | exact (Hf Hs)].
Defined.

(** X15.  [NextQuestion] does not throw in a session: whatever was called
    on it before, the pool has the four colors or more the generator needs,
    so the call returns (or is still drawing); and the question it returns on
    an Active session is well formed over the pool of the difficulty the
    session has, the session changing in its question and its random source
    only. *)
Theorem NextQuestion_never_throws (mode : CSharp.GameMode) (tape : list Z)
    (s : CSharp.GameSession) :
  CSharp.reachable (CSharp.new_GameSession mode tape) s ->
  (forall what, CSharp.NextQuestion s <> Throw what)
  /\ (forall q s', CSharp.NextQuestion s = Ok (Some q, s') ->
        CSharp.State s = CSharp.Active
        /\ Spec.well_formed_question (GetColorPool (CSharp.Difficulty s))
             (CSharp.TextWord q) (CSharp.FontColorName q) (CSharp.Options q)
        /\ s' = CSharp.with_question s q (CSharp._random s')).
Proof.
  intros Hr.
  destruct (session_invariant mode tape s Hr) as (_ & _ & _ & _ & _ & Hd & Hp & _).
  destruct (level_pool _ Hd) as (Hnd & Hlen & Hincl).
  split.
  - intros what. unfold CSharp.NextQuestion.
    destruct (negb (CSharp.GameState_eqb (CSharp.State s) CSharp.Active)); [discriminate|].
    destruct (CSharp.generate (CSharp._colorPool s) (CSharp._random s)) as [[q t]|w|] eqn:Hg;
      try discriminate.
    exfalso. rewrite Hp in Hg.
    apply (CSharp_generate_never_throws (GetColorPool (CSharp.Difficulty s)) Hnd
             ltac:(lia) _ _ Hg).
  - intros q s' Hn.
    destruct (NextQuestion_cases _ _ _ Hn) as [(Hnone & _) | (q' & tape' & Hq & Hs & Hg & ->)];
      [discriminate|].
    injection Hq as <-. rewrite Hp in Hg.
    split; [exact Hs|]. split; [|reflexivity].
    eapply CSharp_generate_well_formed; eassumption.
Qed.

(** X15 on a started Endless session. *)
Lemma NextQuestion_never_throws_witness :
  CSharp.NextQuestion (CSharp.Start (CSharp.new_GameSession CSharp.Endless sample_tape) 0)
  <> Throw "index out of range".
Proof.
  refine (proj1 (NextQuestion_never_throws CSharp.Endless sample_tape
                   (CSharp.Start (CSharp.new_GameSession CSharp.Endless sample_tape) 0) _)
            "index out of range"%string).
  apply CSharp.reach_Start, CSharp.reach_here.
Defined.

(** The options of a well-formed question are colors of the registry. *)
Lemma well_formed_options_are_keys (pool : list string) (word color : string)
    (options : list string) :
  incl pool Colors_Keys ->
  Spec.well_formed_question pool word color options ->
  In color Colors_Keys /\ incl options Colors_Keys.
Proof.
  intros Hincl (w & picked & fillers & Hc & _ & _ & _ & _ & _ & _ & _ & _ & Hperm & Hp & _ & Hf).
  split; [apply Hincl, Hc|].
  intros o Ho. apply (Permutation_in _ Hperm) in Ho.
  destruct Ho as [<- | Ho]; [apply Hincl, Hc|].
  apply in_app_or in Ho. destruct Ho as [Ho | Ho]; [|apply Hf, Ho].
  apply Hp in Ho. apply filter_In in Ho. apply Hincl, Ho.
Qed.

(** X16.  Of the options of the current question exactly one is the right
    answer: the font color is among the options, and [SubmitAnswer] with an
    option reports it correct exactly when the option is the font color,
    in the case the option is written in as in upper case. *)
Theorem one_option_is_the_correct_answer (mode : CSharp.GameMode) (tape : list Z)
    (s : CSharp.GameSession) (q : CSharp.StroopQuestion) (option : string)
    (reactionTimeMs : Z) :
  CSharp.reachable (CSharp.new_GameSession mode tape) s ->
  CSharp.State s = CSharp.Active ->
  CSharp.CurrentQuestion s = Some q ->
  In option (CSharp.Options q) ->
  In (CSharp.FontColorName q) (CSharp.Options q)
  /\ CSharp.correct_of (fst (CSharp.SubmitAnswer s option reactionTimeMs))
     = Some (String.eqb option (CSharp.FontColorName q))
  /\ CSharp.correct_of (fst (CSharp.SubmitAnswer s (toUpper option) reactionTimeMs))
     = Some (String.eqb option (CSharp.FontColorName q)).
Proof.
  intros Hr Hs Hq Ho.
  destruct (current_question_invariant mode tape s q Hr Hq) as (d & Hd & Hwf).
  destruct (well_formed_options_are_keys _ _ _ _ (GetColorPool_prefix d) Hwf) as [Hck Hok].
  assert (Hin : In (CSharp.FontColorName q) (CSharp.Options q)).
  { destruct Hwf as (w & picked & fillers & H). apply H. }
  assert (Heq : equalsIgnoreCase (CSharp.FontColorName q) option
                = String.eqb option (CSharp.FontColorName q)).
  { destruct (String.eqb_spec option (CSharp.FontColorName q)) as [-> | Hne].
    - unfold equalsIgnoreCase. apply String.eqb_refl.
    - apply Colors_Keys_ignore_case; [exact Hck | apply Hok, Ho | congruence]. }
  assert (Hup : equalsIgnoreCase (CSharp.FontColorName q) (toUpper option)
                = equalsIgnoreCase (CSharp.FontColorName q) option).
  { unfold equalsIgnoreCase. rewrite toUpper_idem. reflexivity. }
  split; [exact Hin|].
  unfold CSharp.SubmitAnswer. rewrite Hq, Hs. cbn [CSharp.GameState_eqb negb].
  rewrite Hup, Heq.
  destruct (String.eqb option (CSharp.FontColorName q)); [split; reflexivity|].
  destruct (CSharp.Mode s); split; reflexivity.
Qed.

(** X16 on the first question, the word RED in Yellow: Green is wrong,
    Yellow is right. *)
Lemma one_option_is_the_correct_answer_witness :
  CSharp.correct_of (fst (CSharp.SubmitAnswer endless_asked "Green" 700)) = Some false
  /\ CSharp.correct_of (fst (CSharp.SubmitAnswer endless_asked "Yellow" 700)) = Some true.
Proof.
  split.
  - refine (proj1 (proj2 (one_option_is_the_correct_answer CSharp.Endless sample_tape
                     endless_asked
                     (CSharp.mkStroopQuestion "RED" "Yellow" "#eab308"
                        ["Green"; "Blue"; "Violet"; "Yellow"]%string)
                     "Green" 700 endless_asked_reachable _ _ _))).
    + reflexivity.
    + reflexivity.
    + simpl. tauto.
  - reflexivity.
Defined.

(** X17.  The report of a session no answer was submitted to: no points, no
    answers, averages and extremes of 0 (no division by the count of 0), an
    accuracy of 0, the rating Trainee, no coins and no stars, whatever the
    mode and whether the session was started and asked questions or not. *)
Theorem report_without_answers (mode : CSharp.GameMode) (tape : list Z)
    (s : CSharp.GameSession) (now : Z) :
  CSharp.reachable (CSharp.new_GameSession mode tape) s ->
  CSharp._reactions s = [] ->
  CSharp.GetFinalReport s now
  = {| CSharp.r_Mode := mode;
       CSharp.r_TotalPoints := 0;
       CSharp.CorrectAnswers := 0;
       CSharp.r_WrongAnswers := 0;
       CSharp.r_MaxCombo := 0;
       CSharp.AvgReactionMs := 0;
       CSharp.FastestReaction := 0;
       CSharp.SlowestReaction := 0;
       CSharp.ElapsedSeconds := (to_double (wrap64 (now - CSharp.StartTime s)) / 10000000)%float;
       CSharp.Accuracy := 0;
       CSharp.Rating := "Trainee";
       CSharp.CoinsEarned := 0;
       CSharp.StarsEarned := 0 |}.
Proof.
  intros Hr He.
  destruct (unanswered_invariant mode tape s Hr He) as (H1 & H2 & H3 & H4 & H5 & _).
  destruct (session_invariant mode tape s Hr) as (Hm & _).
  unfold CSharp.GetFinalReport. rewrite He, H1, H2, H3, H5, Hm. reflexivity.
Qed.

(** X17 on the Endless session that was started and asked a question. *)
Lemma report_without_answers_witness :
  CSharp.Rating (CSharp.GetFinalReport endless_asked 10000000) = "Trainee"%string.
Proof.
  rewrite (report_without_answers CSharp.Endless sample_tape endless_asked 10000000
             endless_asked_reachable eq_refl).
  reflexivity.
Defined.

(** ** Reaction times *)

Section Extremes.

Lemma fold_min_spec (r : list Z) (x : Z) :
  (fold_left Z.min r x = x \/ In (fold_left Z.min r x) r)
  /\ fold_left Z.min r x <= x
  /\ (forall y, In y r -> fold_left Z.min r x <= y).
Proof.
  revert x. induction r as [|a r IH]; intros x; simpl.
  - split; [left; reflexivity|]. split; [lia | intros y []].
  - destruct (IH (Z.min x a)) as (Hin & Hle & Hall). split; [|split].
    + destruct Hin as [-> | Hin]; [|right; right; exact Hin].
      destruct (Z.min_spec x a) as [[_ ->] | [_ ->]]; [left | right; left]; reflexivity.
    + lia.
    + intros y [<- | Hy]; [lia | apply Hall, Hy].
Qed.

Lemma fold_max_spec (r : list Z) (x : Z) :
  (fold_left Z.max r x = x \/ In (fold_left Z.max r x) r)
  /\ x <= fold_left Z.max r x
  /\ (forall y, In y r -> y <= fold_left Z.max r x).
Proof.
  revert x. induction r as [|a r IH]; intros x; simpl.
  - split; [left; reflexivity|]. split; [lia | intros y []].
  - destruct (IH (Z.max x a)) as (Hin & Hle & Hall). split; [|split].
    + destruct Hin as [-> | Hin]; [|right; right; exact Hin].
      destruct (Z.max_spec x a) as [[_ ->] | [_ ->]]; [right; left | left]; reflexivity.
    + lia.
    + intros y [<- | Hy]; [lia | apply Hall, Hy].
Qed.

End Extremes.

(** X18.  The fastest and the slowest reaction.  Of reaction times that were
    recorded, the fastest and the slowest are recorded ones and every recorded
    one lies between them; the Java analyzer returns them, and the C# report
    carries them converted to [double]. *)
Theorem fastest_and_slowest_reaction (reactions : list Z) :
  reactions <> [] ->
  In (CSharp.Min reactions) reactions
  /\ In (CSharp.Max reactions) reactions
  /\ (forall rt, In rt reactions -> CSharp.Min reactions <= rt <= CSharp.Max reactions)
  /\ (forall (a : Java.SessionAnalyzer),
        Java.reactionTimes a = reactions ->
        Java.getFastestReaction a = CSharp.Min reactions
        /\ Java.getSlowestReaction a = CSharp.Max reactions)
  /\ (forall (s : CSharp.GameSession) (now : Z),
        CSharp._reactions s = reactions ->
        CSharp.FastestReaction (CSharp.GetFinalReport s now) = to_double (CSharp.Min reactions)
        /\ CSharp.SlowestReaction (CSharp.GetFinalReport s now)
           = to_double (CSharp.Max reactions)).
Proof.
  intros Hne. destruct reactions as [|x r]; [congruence|].
  unfold CSharp.Min, CSharp.Max.
  destruct (fold_min_spec r x) as (Hmin & Hminx & Hminall).
  destruct (fold_max_spec r x) as (Hmax & Hmaxx & Hmaxall).
  split; [|split; [|split; [|split]]].
  - destruct Hmin as [-> | H]; [left; reflexivity | right; exact H].
  - destruct Hmax as [-> | H]; [left; reflexivity | right; exact H].
  - intros rt [<- | Hrt]; [lia|]. split; [apply Hminall, Hrt | apply Hmaxall, Hrt].
  - intros a Ha. unfold Java.getFastestReaction, Java.getSlowestReaction. rewrite Ha.
    split; reflexivity.
  - intros s now Hs. unfold CSharp.GetFinalReport. rewrite Hs. split; reflexivity.
Qed.

(** X18 on three reaction times. *)
Lemma fastest_and_slowest_reaction_witness :
  In (CSharp.Min [700; 300; 1900]) [700; 300; 1900].
Proof.
  refine (proj1 (fastest_and_slowest_reaction [700; 300; 1900] _)). discriminate.
Defined.

(** ** The combo tracker *)

Section Streaks.

Lemma trailing_snoc (l : list bool) (b : bool) :
  trailing (l ++ [b]) = if b then S (trailing l) else O.
Proof. unfold trailing. rewrite rev_app_distr. destruct b; reflexivity. Qed.

Lemma leading_split (l : list bool) :
  exists rest, l = repeat true (leading l) ++ rest
               /\ (rest = [] \/ exists rest', rest = false :: rest').
Proof.
  induction l as [|[] l IH]; simpl.
  - exists []. split; [reflexivity | left; reflexivity].
  - destruct IH as (rest & Hl & Hrest). exists rest. split; [congruence | exact Hrest].
  - exists (false :: l). split; [reflexivity | right; eexists; reflexivity].
Qed.

Lemma rev_repeat {A : Type} (x : A) (n : nat) : rev (repeat x n) = repeat x n.
Proof.
  induction n as [|n IH]; simpl; [reflexivity|].
  rewrite IH. symmetry. apply repeat_cons.
Qed.

Lemma trailing_split (l : list bool) :
  exists before, l = before ++ repeat true (trailing l)
                 /\ (before = [] \/ exists before', before = before' ++ [false]).
Proof.
  unfold trailing. destruct (leading_split (rev l)) as (rest & Hl & Hrest).
  exists (rev rest). split.
  - apply (f_equal (@rev bool)) in Hl.
    rewrite rev_involutive, rev_app_distr, rev_repeat in Hl. exact Hl.
  - destruct Hrest as [-> | [rest' ->]]; [left; reflexivity | right].
    exists (rev rest'). reflexivity.
Qed.

Lemma leading_repeat (n : nat) (rest : list bool) : (n <= leading (repeat true n ++ rest))%nat.
Proof. induction n as [|n IH]; simpl; lia. Qed.

Lemma trailing_suffix (before : list bool) (n : nat) :
  (n <= trailing (before ++ repeat true n))%nat.
Proof.
  unfold trailing. rewrite rev_app_distr, rev_repeat. apply leading_repeat.
Qed.

End Streaks.

Lemma snoc_or_nil {A : Type} (l : list A) : l = [] \/ exists l' x, l = l' ++ [x].
Proof.
  induction l as [|x l' _] using rev_ind; [left; reflexivity | right; eauto].
Qed.

Lemma record_all_snoc (answers : list bool) (b : bool) :
  Java.record_all (answers ++ [b]) = Java.record (Java.record_all answers) b.
Proof. unfold Java.record_all. rewrite fold_left_app. reflexivity. Qed.

(** The tracker after a sequence of answers, while no counter overflows. *)
Lemma record_all_spec (answers : list bool) :
  Z.of_nat (List.length answers) <= 2147483647 ->
  let t := Java.record_all answers in
  Java.totalCorrect t = Z.of_nat (count_occ bool_dec answers true)
  /\ Java.totalWrong t = Z.of_nat (count_occ bool_dec answers false)
  /\ Java.currentCombo t = Z.of_nat (trailing answers)
  /\ (exists before after,
        answers = before ++ repeat true (Z.to_nat (Java.maxCombo t)) ++ after)
  /\ 0 <= Java.maxCombo t
  /\ (forall before n after,
        answers = before ++ repeat true n ++ after -> Z.of_nat n <= Java.maxCombo t).
Proof.
  induction answers as [|b answers IH] using rev_ind; intros Hlen t.
  - subst t. simpl. repeat split; try lia.
    + exists [], []. reflexivity.
    + intros before n after H. destruct before; [|discriminate].
      destruct n; [simpl; lia | discriminate].
  - rewrite length_app in Hlen. cbn [List.length] in Hlen.
    destruct IH as (Hc & Hw & Hcur & (before0 & after0 & Hmax) & Hpos & Hall); [lia|].
    assert (Hcounts : (count_occ bool_dec answers true + count_occ bool_dec answers false
                       = List.length answers)%nat).
    { clear. induction answers as [|[] l IHl]; simpl; lia. }
    assert (Htr : (trailing answers <= count_occ bool_dec answers true)%nat).
    { destruct (trailing_split answers) as (bf & Hbf & _).
      rewrite Hbf at 2. rewrite count_occ_app.
      rewrite (count_occ_repeat_eq bool_dec (trailing answers) (eq_refl true)). lia. }
    subst t. rewrite record_all_snoc, !count_occ_app, trailing_snoc.
    destruct b; cbn [Java.record Java.recordCorrect Java.recordWrong Java.totalCorrect Java.totalWrong
                       Java.currentCombo Java.maxCombo count_occ].
    + destruct (bool_dec true true) as [_|]; [|congruence].
      destruct (bool_dec true false) as [|_]; [congruence|].
      rewrite Hc, Hw, Hcur.
      assert (H1 : add32 (Z.of_nat (count_occ bool_dec answers true)) 1
                   = Z.of_nat (count_occ bool_dec answers true) + 1)
        by (apply wrap32_id; unfold int_range; lia).
      assert (H2 : add32 (Z.of_nat (trailing answers)) 1 = Z.of_nat (trailing answers) + 1)
        by (apply wrap32_id; unfold int_range; lia).
      rewrite H1, H2.
      split; [lia|]. split; [lia|]. split; [lia|]. split; [|split; [lia|]].
      * destruct (Z.max_spec (Java.maxCombo (Java.record_all answers)) (Z.of_nat (trailing answers) + 1))
          as [[_ ->] | [_ ->]].
        -- destruct (trailing_split (answers ++ [true])) as (bf & Hbf & _).
           rewrite trailing_snoc in Hbf.
           exists bf, []. rewrite app_nil_r.
           replace (Z.to_nat (Z.of_nat (trailing answers) + 1)) with (S (trailing answers)) by lia.
           exact Hbf.
        -- exists before0, (after0 ++ [true]).
           rewrite Hmax at 1. rewrite <- !app_assoc. reflexivity.
      * intros before n after H.
        destruct (snoc_or_nil after) as [-> | (after' & x & ->)].
        -- rewrite app_nil_r in H.
           pose proof (trailing_suffix before n) as Hn. rewrite <- H, trailing_snoc in Hn. lia.
        -- rewrite !app_assoc in H. apply app_inj_tail in H. destruct H as [H _].
           rewrite <- app_assoc in H. specialize (Hall _ _ _ H). lia.
    + destruct (bool_dec false true) as [|_]; [congruence|].
      destruct (bool_dec false false) as [_|]; [|congruence].
      rewrite Hc, Hw.
      assert (H1 : add32 (Z.of_nat (count_occ bool_dec answers false)) 1
                   = Z.of_nat (count_occ bool_dec answers false) + 1)
        by (apply wrap32_id; unfold int_range; lia).
      rewrite H1.
      split; [lia|]. split; [lia|]. split; [reflexivity|]. split; [|split; [exact Hpos|]].
      * exists before0, (after0 ++ [false]).
        rewrite Hmax at 1. rewrite <- !app_assoc. reflexivity.
      * intros before n after H.
        destruct (snoc_or_nil after) as [-> | (after' & x & ->)].
        -- rewrite app_nil_r in H. destruct n as [|n]; [lia|].
           exfalso. rewrite <- (rev_repeat true (S n)) in H.
           simpl in H. rewrite app_assoc in H. apply app_inj_tail in H.
           destruct H as [_ H]. discriminate.
        -- rewrite !app_assoc in H. apply app_inj_tail in H. destruct H as [H _].
           rewrite <- app_assoc in H. specialize (Hall _ _ _ H). lia.
Qed.

(** X19.  The combo tracker after a sequence of answers, fewer than 2^31:
    the totals are the numbers of correct and of wrong answers, and add up to
    the number of answers; the current combo is the number of correct answers
    the sequence ends with; and the longest combo is the length of a longest
    run of correct answers: some run of the sequence has that length, and no
    run is longer. *)
Theorem ComboTracker_counts_and_streaks (answers : list bool) :
  Z.of_nat (List.length answers) <= 2147483647 ->
  let t := Java.record_all answers in
  Java.totalCorrect t = Z.of_nat (count_occ bool_dec answers true)
  /\ Java.totalWrong t = Z.of_nat (count_occ bool_dec answers false)
  /\ Java.getTotalAnswers t = Z.of_nat (List.length answers)
  /\ Java.currentCombo t = Z.of_nat (trailing answers)
  /\ (exists before after,
        answers = before ++ repeat true (Z.to_nat (Java.maxCombo t)) ++ after)
  /\ (forall before n after,
        answers = before ++ repeat true n ++ after -> Z.of_nat n <= Java.maxCombo t).
Proof.
  intros Hlen t.
  destruct (record_all_spec answers Hlen) as (Hc & Hw & Hcur & Hrun & _ & Hall).
  fold t in Hc, Hw, Hcur, Hrun, Hall.
  split; [exact Hc|]. split; [exact Hw|]. split; [|split; [exact Hcur|split; assumption]].
  unfold Java.getTotalAnswers. rewrite Hc, Hw.
  assert (Hcounts : (count_occ bool_dec answers true + count_occ bool_dec answers false
                     = List.length answers)%nat).
  { clear. induction answers as [|[] l IHl]; simpl; lia. }
  unfold add32. rewrite wrap32_id by (unfold int_range; lia). lia.
Qed.

(** X19 on seven answers, two wrong ones among them: the tracker ends with
    no combo and a longest combo of 3. *)
Lemma ComboTracker_counts_and_streaks_witness :
  Java.currentCombo (Java.record_all [true; true; false; true; true; true; false])
  = Z.of_nat (trailing [true; true; false; true; true; true; false]).
Proof.
  refine (proj1 (proj2 (proj2 (proj2
            (ComboTracker_counts_and_streaks
               [true; true; false; true; true; true; false] _))))).
  simpl. lia.
Defined.

(** ** The validator *)

(** X20.  Of the options of a question the Java generator returns, exactly
    one is validated: the font color is among the options, and
    [validateAnswer] accepts an option exactly when it is the font color,
    in the case it is written in as in upper case. *)
Theorem validateAnswer_accepts_one_option (pool : list string) (tape tape' : list Z)
    (q : Java.StroopQuestion) (option : string) :
  NoDup pool ->
  (4 <= List.length pool)%nat ->
  incl pool Colors_Keys ->
  Java.generateQuestion pool tape = Ok (q, tape') ->
  In option (Java.options q) ->
  In (Java.fontColorName q) (Java.options q)
  /\ Java.validateAnswer q option = String.eqb option (Java.fontColorName q)
  /\ Java.validateAnswer q (toUpper option) = String.eqb option (Java.fontColorName q).
Proof.
  intros Hnd Hlen Hincl Hg Ho.
  pose proof (Java_generateQuestion_well_formed pool tape tape' q Hnd Hlen Hincl Hg) as Hwf.
  destruct (well_formed_options_are_keys _ _ _ _ Hincl Hwf) as [Hck Hok].
  assert (Hin : In (Java.fontColorName q) (Java.options q)).
  { destruct Hwf as (w & picked & fillers & H). apply H. }
  assert (Heq : equalsIgnoreCase (Java.fontColorName q) option
                = String.eqb option (Java.fontColorName q)).
  { destruct (String.eqb_spec option (Java.fontColorName q)) as [-> | Hne].
    - unfold equalsIgnoreCase. apply String.eqb_refl.
    - apply Colors_Keys_ignore_case; [exact Hck | apply Hok, Ho | congruence]. }
  split; [exact Hin|]. unfold Java.validateAnswer. split; [exact Heq|].
  unfold equalsIgnoreCase in *. rewrite toUpper_idem. exact Heq.
Qed.

(** X20 on the question the Java generator returns over the pool of
    difficulty 1 on the sample tape, the word RED in Yellow: Blue is not
    accepted. *)
Lemma validateAnswer_accepts_one_option_witness :
  Java.validateAnswer
    (Java.mkStroopQuestion "RED" "Yellow" "#eab308"
       ["Blue"; "Orange"; "Yellow"; "Green"]%string)
    "Blue"
  = false.
Proof.
  refine (proj1 (proj2 (validateAnswer_accepts_one_option (GetColorPool 1) sample_tape [6; 7; 8]
                          (Java.mkStroopQuestion "RED" "Yellow" "#eab308"
                             ["Blue"; "Orange"; "Yellow"; "Green"]%string)
                          "Blue" _ _ _ _ _))).
  - apply GetColorPool_NoDup.
  - vm_compute. lia.
  - apply GetColorPool_prefix.
  - vm_compute. reflexivity.
  - simpl. tauto.
Defined.

(** * The client, [app.js] *)

(** ** The questions of the client *)

Section ClientQuestions.

Lemma strict_equals_eq (a b : option string) : Js.strict_equals a b = true <-> a = b.
Proof.
  destruct a as [x|], b as [y|]; simpl; try (split; [discriminate | congruence]).
  - rewrite String.eqb_eq. split; congruence.
  - tauto.
Qed.

Lemma includes_In (options : list (option string)) (x : option string) :
  Js.includes options x = true <-> In x options.
Proof.
  unfold Js.includes. rewrite existsb_exists. split.
  - intros (y & Hy & He). apply strict_equals_eq in He. subst. exact Hy.
  - intros H. exists x. split; [exact H | apply strict_equals_eq; reflexivity].
Qed.

(** An index that [random_index] returns is inside a list that is not empty. *)
Lemma at_random_index (array : list string) (v : Z) :
  array <> [] ->
  let length := Z.of_nat (List.length array) in
  exists c, Js.at_index array (if length <=? 0 then 0 else v mod length) = Some c
            /\ In c array.
Proof.
  intros Hne length.
  assert (Hpos : 0 < length).
  { subst length. destruct array; [congruence | simpl; lia]. }
  destruct (Z.leb_spec length 0) as [|_]; [lia|].
  pose proof (Z.mod_pos_bound v length Hpos) as Hb.
  unfold Js.at_index. destruct (Z.ltb_spec (v mod length) 0) as [|_]; [lia|].
  destruct (nth_error array (Z.to_nat (v mod length))) as [c|] eqn:Hn.
  - exists c. split; [reflexivity | eapply nth_error_In, Hn].
  - apply nth_error_None in Hn. subst length. lia.
Qed.

Lemma fill_full (distractors : list string) (options : list (option string)) (tape : list Z) :
  (4 <= List.length options)%nat -> Js.fill distractors options tape = Ok (options, tape).
Proof.
  intros H. destruct tape; simpl;
    destruct (Z.ltb_spec (Z.of_nat (List.length options)) 4); try lia; reflexivity.
Qed.

Lemma fill_Ok (distractors : list string) (tape : list Z) :
  distractors <> [] ->
  forall (options out : list (option string)) (tape' : list Z),
    Js.fill distractors options tape = Ok (out, tape') ->
    ((List.length options <= 4)%nat -> List.length out = 4%nat)
    /\ (NoDup options -> NoDup out)
    /\ (forall x, In x options -> In x out)
    /\ (forall x, In x out -> In x options \/ exists c, x = Some c /\ In c distractors).
Proof.
  intros Hne. induction tape as [|v tape IH]; intros options out tape' H; simpl in H.
  - destruct (Z.ltb_spec (Z.of_nat (List.length options)) 4) as [|Hge]; [discriminate|].
    injection H as <- <-. repeat split; try tauto. lia.
  - destruct (Z.ltb_spec (Z.of_nat (List.length options)) 4) as [Hlt|Hge].
    + destruct (at_random_index distractors v Hne) as (c & Hc & Hin).
      cbv zeta in Hc. rewrite Hc in H.
      apply IH in H. destruct H as (Hlen & Hnd & Hkeep & Hfrom).
      destruct (Js.includes options (Some c)) eqn:Hi; cbn [negb] in *.
      * repeat split; assumption.
      * assert (Hfresh : ~ In (Some c) options).
        { intros Hin'. apply includes_In in Hin'. congruence. }
        split; [|split; [|split]].
        -- intros _. apply Hlen. rewrite length_app. simpl. lia.
        -- intros Hn. apply Hnd. apply NoDup_app; [exact Hn | repeat constructor; simpl; tauto |].
           intros x Hx [<- | []]. exact (Hfresh Hx).
        -- intros x Hx. apply Hkeep, in_or_app. left. exact Hx.
        -- intros x Hx. apply Hfrom in Hx. destruct Hx as [Hx | Hx]; [|right; exact Hx].
           apply in_app_or in Hx. destruct Hx as [Hx | [<- | []]]; [left; exact Hx|].
           right. exists c. split; [reflexivity | exact Hin].
    + injection H as <- <-. repeat split; try tauto. lia.
Qed.

Lemma fill_steady (distractors : list string) (options : list (option string)) :
  steady (Js.fill distractors options).
Proof.
  intros tape. revert options.
  induction tape as [|v tape IH]; intros options tape' more out H; simpl in H.
  - destruct (Z.ltb_spec (Z.of_nat (List.length options)) 4) as [Hlt|Hge]; [discriminate|].
    injection H as <- <-. apply fill_full. lia.
  - simpl. destruct (Z.ltb_spec (Z.of_nat (List.length options)) 4) as [Hlt|Hge].
    + apply IH, H.
    + injection H as <- <-. reflexivity.
Qed.

(** Four distinct distractors hold one that fewer than four options do not
    include, at an index that a draw can yield. *)
Lemma fresh_distractor (distractors : list string) (options : list (option string)) :
  NoDup distractors -> (4 <= List.length distractors)%nat -> (List.length options < 4)%nat ->
  exists (v : Z) (c : string),
    let length := Z.of_nat (List.length distractors) in
    Js.at_index distractors (if length <=? 0 then 0 else v mod length) = Some c
    /\ Js.includes options (Some c) = false.
Proof.
  intros Hnd Hlen Hopt.
  destruct (find (fun c => negb (Js.includes options (Some c))) distractors) as [c|] eqn:Hf.
  - apply find_some in Hf. destruct Hf as [Hin Hc].
    apply In_nth_error in Hin. destruct Hin as [n Hn].
    assert (Hrange : (n < List.length distractors)%nat).
    { apply nth_error_Some. congruence. }
    exists (Z.of_nat n), c. cbv zeta.
    destruct (Z.leb_spec (Z.of_nat (List.length distractors)) 0) as [|_]; [lia|].
    rewrite Z.mod_small by lia. unfold Js.at_index.
    destruct (Z.ltb_spec (Z.of_nat n) 0) as [|_]; [lia|].
    rewrite Nat2Z.id. split; [exact Hn | apply negb_true_iff, Hc].
  - exfalso.
    assert (Hincl : incl (map Some distractors) options).
    { intros x Hx. apply in_map_iff in Hx. destruct Hx as (c & <- & Hc).
      pose proof (find_none _ _ Hf c Hc) as Hi.
      apply negb_false_iff in Hi. apply includes_In, Hi. }
    assert (Hnd' : NoDup (map (@Some string) distractors)).
    { apply Finite.Injective_map_NoDup; [intros a b; congruence | exact Hnd]. }
    pose proof (NoDup_incl_length Hnd' Hincl) as Hle.
    rewrite length_map in Hle. lia.
Qed.

Lemma fill_completes (distractors : list string) :
  NoDup distractors -> (4 <= List.length distractors)%nat ->
  forall options, completes (Js.fill distractors options).
Proof.
  intros Hnd Hlen options.
  remember (4 - List.length options)%nat as k eqn:Hk.
  revert options Hk. induction k as [|k IHk]; intros options Hk tape.
  { exists [], options, (tape ++ []). apply fill_full. lia. }
  assert (Hne : distractors <> []) by (intros E; rewrite E in Hlen; simpl in Hlen; lia).
  assert (Hpush : forall c tape0, exists more out tape',
             Js.fill distractors (options ++ [Some c]) (tape0 ++ more) = Ok (out, tape')).
  { intros c tape0. apply (IHk (options ++ [Some c])). rewrite length_app.
    change (List.length [Some c]) with 1%nat. lia. }
  induction tape as [|v tape IH].
  - destruct (fresh_distractor distractors options Hnd Hlen ltac:(lia)) as (v & c & Hv & Hc).
    cbv zeta in Hv.
    destruct (Hpush c []) as (more & out & tape' & Hfill).
    exists (v :: more), out, tape'. simpl.
    destruct (Z.ltb_spec (Z.of_nat (List.length options)) 4); [|lia].
    rewrite Hv, Hc. exact Hfill.
  - destruct (at_random_index distractors v Hne) as (c & Hv & _). cbv zeta in Hv.
    destruct (Js.includes options (Some c)) eqn:Hc.
    + destruct IH as (more & out & tape' & Hfill).
      exists more, out, tape'. simpl.
      destruct (Z.ltb_spec (Z.of_nat (List.length options)) 4); [|lia].
      rewrite Hv, Hc. exact Hfill.
    + destruct (Hpush c tape) as (more & out & tape' & Hfill).
      exists more, out, tape'. simpl.
      destruct (Z.ltb_spec (Z.of_nat (List.length options)) 4); [|lia].
      rewrite Hv, Hc. exact Hfill.
Qed.

Lemma random_index_productive (length : Z) : productive (Js.random_index length).
Proof.
  split.
  - intros [|v tape] tape' more a H; simpl in H; [discriminate|].
    injection H as <- <-. reflexivity.
  - intros [|v tape].
    + exists [0], (if length <=? 0 then 0 else 0 mod length), []. reflexivity.
    + exists [], (if length <=? 0 then 0 else v mod length), (tape ++ []).
      simpl. rewrite app_nil_r. reflexivity.
Qed.

Lemma random_index_word (tape tape' : list Z) (i : Z) :
  Js.random_index (Z.of_nat (List.length Js.WORD_LIST)) tape = Ok (i, tape') ->
  exists c, Js.at_index Js.WORD_LIST i = Some c /\ In c Js.WORD_LIST.
Proof.
  destruct tape as [|v tape]; simpl; [discriminate|]. intros H. injection H as <- <-.
  apply (at_random_index Js.WORD_LIST v). discriminate.
Qed.

(** The word that is shown, for a font color [font] and a first pick
    [picked] of the list. *)
Lemma word_shown (font picked : string) :
  In font Js.WORD_LIST -> In picked Js.WORD_LIST ->
  exists word,
    (if Js.strict_equals (Some picked) (Some font) then
       match find (fun c => negb (Js.strict_equals (Some c) (Some font))) Js.WORD_LIST with
       | Some c => Some c
       | None => Some "Black"%string
       end
     else Some picked) = Some word
    /\ In word Js.WORD_LIST /\ word <> font
    /\ (picked <> font -> word = picked)
    /\ (picked = font -> word = if String.eqb font "Red" then "Blue"%string else "Red"%string).
Proof.
  intros Hf Hp. cbn [Js.strict_equals].
  destruct (String.eqb_spec picked font) as [-> | Hne].
  - simpl in Hf. repeat (destruct Hf as [<- | Hf]); [.. | destruct Hf];
      eexists; (split; [reflexivity|]); simpl;
      (split; [tauto|]); (split; [discriminate|]); (split; [congruence | reflexivity]).
  - exists picked. repeat split; try assumption; congruence.
Qed.

End ClientQuestions.

(** X21.  The client's own question generator, [ask] of
    [startConfusionMode], whatever order its random sort leaves the options
    in: it returns on almost every run of draws, and what it shows is a word
    of the list of six in the font color of another word of the list, with
    four distinct options of the list, none undefined, of which one is the font
    color and none is the word shown. *)
Theorem client_questions_are_well_formed
  (sort : list (option string) -> Rand (list (option string))) :
  (forall l, productive (sort l)) ->
  (forall l tape out tape', sort l tape = Ok (out, tape') -> Permutation out l) ->
  productive (Js.ask sort)
  /\ forall tape q tape', Js.ask sort tape = Ok (q, tape') ->
       exists font word : string,
         Js.fontColorName q = Some font /\ Js.textColorName q = Some word
         /\ In font Js.WORD_LIST /\ In word Js.WORD_LIST /\ word <> font
         /\ List.length (Js.options q) = 4%nat
         /\ NoDup (Js.options q)
         /\ In (Some font) (Js.options q)
         /\ ~ In (Some word) (Js.options q)
         /\ forall opt, In opt (Js.options q) -> exists c, opt = Some c /\ In c Js.WORD_LIST.
Proof.
  intros Hprod Hperm.
  assert (Hnd : NoDup Js.WORD_LIST).
  { vm_compute. repeat constructor; simpl; intuition discriminate. }
  assert (Hd : forall font word,
             let distractors :=
               filter (fun c => negb (Js.strict_equals (Some c) (Some font))
                                && negb (Js.strict_equals (Some c) (Some word)))
                      Js.WORD_LIST in
             NoDup distractors /\ (4 <= List.length distractors)%nat).
  { intros font word distractors. split; [apply NoDup_filter, Hnd|].
    pose proof (distractors_length Js.WORD_LIST font word Hnd) as H.
    change (List.length Js.WORD_LIST) with 6%nat in H.
    subst distractors. cbn [Js.strict_equals]. lia. }
  split.
  - unfold Js.ask.
    apply bind_productive with
      (P := fun i => exists c, Js.at_index Js.WORD_LIST i = Some c /\ In c Js.WORD_LIST);
      [apply random_index_productive | apply random_index_word |].
    intros i (font & Hi & Hfont). rewrite Hi.
    apply bind_productive with
      (P := fun j => exists c, Js.at_index Js.WORD_LIST j = Some c /\ In c Js.WORD_LIST);
      [apply random_index_productive | apply random_index_word |].
    intros j (picked & Hj & Hpicked). rewrite Hj.
    destruct (word_shown font picked Hfont Hpicked) as (word & -> & _).
    destruct (Hd font word) as [Hnd' Hlen].
    apply bind_productive with (P := fun _ => True).
    + split; [apply fill_steady | apply fill_completes; assumption].
    + trivial.
    + intros options _. apply bind_productive with (P := fun _ => True);
        [apply Hprod | trivial | intros; apply ret_productive].
  - intros tape q tape' H. unfold Js.ask in H.
    apply bind_Ok in H. destruct H as (i & t1 & Hi & H).
    apply random_index_word in Hi. destruct Hi as (font & Hi & Hfont). rewrite Hi in H.
    apply bind_Ok in H. destruct H as (j & t2 & Hj & H).
    apply random_index_word in Hj. destruct Hj as (picked & Hj & Hpicked). rewrite Hj in H.
    destruct (word_shown font picked Hfont Hpicked) as (word & Hw & Hword & Hne & _).
    rewrite Hw in H.
    destruct (Hd font word) as [Hnd' Hlen].
    apply bind_Ok in H. destruct H as (filled & t3 & Hfill & H).
    apply bind_Ok in H. destruct H as (sorted & t4 & Hsort & H).
    injection H as <- <-.
    apply Hperm in Hsort.
    apply fill_Ok in Hfill;
      [|intros E; rewrite E in Hlen; simpl in Hlen; lia].
    destruct Hfill as (Hlen4 & Hnd4 & Hkeep & Hfrom).
    exists font, word. cbn [Js.fontColorName Js.textColorName Js.options].
    assert (Hfrom' : forall x, In x filled ->
              exists c, x = Some c /\ In c Js.WORD_LIST /\ c <> word).
    { intros x Hx. apply Hfrom in Hx. destruct Hx as [[<- | []] | (c & -> & Hc)].
      - exists font. repeat split; [assumption | congruence].
      - apply filter_In in Hc. destruct Hc as [Hc Hk].
        exists c. repeat split; [assumption|].
        apply andb_prop in Hk. destruct Hk as [_ Hk].
        apply negb_true_iff in Hk. intros ->.
        cbn [Js.strict_equals] in Hk. rewrite String.eqb_refl in Hk. discriminate. }
    repeat split; try assumption.
    + rewrite (Permutation_length Hsort). apply Hlen4. simpl. lia.
    + apply (Permutation_NoDup (Permutation_sym Hsort)). apply Hnd4.
      repeat constructor. simpl. tauto.
    + apply (Permutation_in _ (Permutation_sym Hsort)). apply Hkeep. left. reflexivity.
    + intros Hin. apply (Permutation_in _ Hsort) in Hin.
      apply Hfrom' in Hin. destruct Hin as (c & Hc & _ & Hcw). congruence.
    + intros opt Hin. apply (Permutation_in _ Hsort) in Hin.
      apply Hfrom' in Hin. destruct Hin as (c & Hc & Hcin & _). exists c. tauto.
Qed.

(** X21 for a sort that leaves the options as they are. *)
Lemma client_questions_are_well_formed_witness :
  productive (Js.ask (fun l => ret l)).
Proof.
  refine (proj1 (client_questions_are_well_formed (fun l => ret l) _ _)).
  - intros l. apply ret_productive.
  - intros l tape out tape' H. injection H as <- _. apply Permutation_refl.
Defined.

(** ** The rating the client shows *)

Ltac below avg k E :=
  repeat match goal with
         | |- context [(avg <? ?c)%float] => rewrite (ltb_trans avg k c E eq_refl)
         end.

Ltac count_cases :=
  repeat match goal with
         | |- context [?a >? ?b] => destruct (Z.gtb_spec a b); try lia
         end.

(** X22.  The rating on the result card of the client against the rating of
    the engines for the same average and the same count of correct answers,
    by the place of a name in the order Trainee 0, Beginner 1, Intermediate 2,
    Proficient 3, Advanced 4, Expert 5, Master 6, Grandmaster 7, Legendary 8:
    the client names four ratings; its Grandmaster is Master, Grandmaster or
    Legendary of the engines, its Expert is Advanced, Expert or Master, its
    Advanced is Proficient or Advanced, and its Trainee is Trainee, Beginner
    or Intermediate.  At 550 ms and 45 correct answers the client shows
    Grandmaster and the engines Master; at 1100 ms and 12 correct answers the
    client shows Trainee and the engines Intermediate. *)
Theorem client_rating_and_engine_rating (avgRT : float) (score : Z) :
  let shown := Js.rating avgRT score in
  let engine := rating_tier (Cpp.getPerformanceRating avgRT score) in
  ((shown = "Grandmaster"%string /\ 6 <= engine <= 8)
   \/ (shown = "Expert"%string /\ 4 <= engine <= 6)
   \/ (shown = "Advanced"%string /\ 3 <= engine <= 4)
   \/ (shown = "Trainee"%string /\ 0 <= engine <= 2))
  /\ (Js.rating 550 45 = "Grandmaster"%string
      /\ Cpp.getPerformanceRating 550 45 = "Master"%string)
  /\ (Js.rating 1100 12 = "Trainee"%string
      /\ Cpp.getPerformanceRating 1100 12 = "Intermediate"%string).
Proof.
  split; [|split; split; reflexivity].
  unfold Js.rating, Cpp.getPerformanceRating.
  destruct (avgRT <? 400)%float eqn:E400; [below avgRT 400%float E400|];
  [|destruct (avgRT <? 500)%float eqn:E500; [below avgRT 500%float E500|]];
  [| |destruct (avgRT <? 600)%float eqn:E600; [below avgRT 600%float E600|]];
  [| | |destruct (avgRT <? 700)%float eqn:E700; [below avgRT 700%float E700|]];
  [| | | |destruct (avgRT <? 800)%float eqn:E800; [below avgRT 800%float E800|]];
  [| | | | |destruct (avgRT <? 1000)%float eqn:E1000; [below avgRT 1000%float E1000|]];
  [| | | | | |destruct (avgRT <? 1200)%float eqn:E1200; [below avgRT 1200%float E1200|]];
  [| | | | | | |destruct (avgRT <? 1500)%float eqn:E1500];
  cbn [andb]; count_cases; vm_compute; intuition (discriminate || congruence).
Qed.

(** ** Room Observer *)

(** X23.  The four answers offered for an object of Room Observer, before
    they are shuffled: they are distinct and hold the color of the object, and
    every other answer is one of Red, Blue, Green and Yellow.  So an object in
    one of these four colors is asked with exactly these four, and an object
    in any other color with its color, Red, Blue and Green: an answer outside
    the four is always the right one. *)
Theorem answers_offered_for_an_object (color : string) :
  In color Js.colorNames ->
  List.length (Js.pool color) = 4%nat
  /\ NoDup (Js.pool color)
  /\ In color (Js.pool color)
  /\ (forall opt, In opt (Js.pool color) -> opt <> color ->
        In opt ["Red"; "Blue"; "Green"; "Yellow"]%string)
  /\ (In color ["Red"; "Blue"; "Green"; "Yellow"]%string ->
        forall opt, In opt (Js.pool color) <-> In opt ["Red"; "Blue"; "Green"; "Yellow"]%string)
  /\ (~ In color ["Red"; "Blue"; "Green"; "Yellow"]%string ->
        Js.pool color = [color; "Red"; "Blue"; "Green"]%string).
Proof.
  intros Hin.
  repeat (destruct Hin as [<- | Hin]); [.. | destruct Hin];
    (split; [reflexivity|]);
    (split; [vm_compute; repeat constructor; simpl; intuition discriminate|]);
    (split; [vm_compute; tauto|]);
    (split; [vm_compute; intros opt H Hne; intuition congruence|]);
    (split; [intros H; try (exfalso; vm_compute in H; intuition discriminate);
             intros opt; vm_compute; tauto
            | intros H; try (exfalso; apply H; vm_compute; tauto); reflexivity]).
Qed.

(** X23 for a pink object. *)
Lemma answers_offered_for_an_object_witness :
  Js.pool "Pink" = ["Pink"; "Red"; "Blue"; "Green"]%string.
Proof.
  refine (proj2 (proj2 (proj2 (proj2 (proj2 (answers_offered_for_an_object "Pink" _))))) _).
  - vm_compute. tauto.
  - vm_compute. intuition discriminate.
Defined.

Lemma ceil_of_share (n : Z) :
  1 <= n <= 17 ->
  Js.Math_ceil (to_double n * 0.6) = (3 * n + 4) / 5
  /\ Js.Math_ceil (to_double n * 0.8) = (4 * n + 4) / 5.
Proof.
  intros H.
  assert (Hn : In n [1; 2; 3; 4; 5; 6; 7; 8; 9; 10; 11; 12; 13; 14; 15; 16; 17])
    by (simpl; lia).
  repeat (destruct Hn as [<- | Hn]); [.. | destruct Hn]; split; vm_compute; reflexivity.
Qed.

Lemma roomObjects_length_range (level : Z) :
  1 <= level ->
  5 <= Js.roomObjects_length level <= 17
  /\ (Js.roomObjects_length level = 17 <-> 61 <= level).
Proof.
  intros H. unfold Js.roomObjects_length, Js.objectCount.
  change (Z.of_nat (List.length Js.objectNames)) with 17.
  pose proof (Z.div_mod (level - 1) 5 ltac:(lia)) as D.
  pose proof (Z.mod_pos_bound (level - 1) 5 ltac:(lia)) as M.
  assert (0 <= (level - 1) / 5) by (apply Z.div_pos; lia). lia.
Qed.

Ltac compare_counts :=
  repeat match goal with
         | |- context [?a >=? ?b] => destruct (Z.geb_spec a b)
         | |- context [?a =? ?b] => destruct (Z.eqb_spec a b)
         end.

(** X24.  The end of a level of Room Observer, for a level from 1 on and a
    score between 0 and the number of questions, which is the number of
    objects in the room, between 5 and 17, and 17 from level 61 on.  The two
    thresholds that [Math.ceil] computes on doubles are the exact shares: the
    level is cleared exactly with 60 % of the answers right, it earns three
    stars exactly with all of them right, two with 80 % and one with 60 %, and
    none exactly when it is not cleared; a coin is earned exactly when the
    level is cleared and had not been failed before.  A cleared level adds the stars and the coin,
    goes one level up, never beyond 300, and forgets the failure; a failed
    level changes neither stars nor coins nor the level and is remembered;
    the high score is the larger of the old one and [score * 10 * level]. *)
Theorem memory_level_stars_and_success (state : Js.State) (score level : Z) :
  1 <= level ->
  let totalQs := Js.roomObjects_length level in
  0 <= score <= totalQs ->
  let failed := Js.hasFailedCurrent (Js.memory state) in
  let r := Js.level_result failed score totalQs level in
  let state' := Js.finishMemoryLevel state score totalQs level in
  5 <= totalQs <= 17
  /\ (totalQs = 17 <-> 61 <= level)
  /\ (Js.success r = true <-> 3 * totalQs <= 5 * score)
  /\ (Js.starsEarned r = 3 <-> score = totalQs)
  /\ (Js.starsEarned r = 2 <-> 4 * totalQs <= 5 * score /\ score < totalQs)
  /\ (Js.starsEarned r = 1 <-> 3 * totalQs <= 5 * score < 4 * totalQs)
  /\ (Js.starsEarned r = 0 <-> Js.success r = false)
  /\ (Js.coinsEarned r = 1 <-> Js.success r = true /\ failed = false)
  /\ (Js.coinsEarned r = 0 <-> Js.success r = false \/ failed = true)
  /\ (Js.success r = true ->
        Js.stars state' = Js.stars state + Js.starsEarned r
        /\ Js.coins state' = Js.coins state + Js.coinsEarned r
        /\ Js.level (Js.memory state') = Z.min 300 (level + 1)
        /\ Js.levelsCompleted (Js.memory state') = Js.levelsCompleted (Js.memory state) + 1
        /\ Js.hasFailedCurrent (Js.memory state') = false)
  /\ (Js.success r = false ->
        Js.stars state' = Js.stars state
        /\ Js.coins state' = Js.coins state
        /\ Js.level (Js.memory state') = Js.level (Js.memory state)
        /\ Js.levelsCompleted (Js.memory state') = Js.levelsCompleted (Js.memory state)
        /\ Js.hasFailedCurrent (Js.memory state') = true)
  /\ Js.highScore (Js.memory state') = Z.max (Js.highScore (Js.memory state)) (score * 10 * level).
Proof.
  intros Hl totalQs Hs failed r state'.
  destruct (roomObjects_length_range level Hl) as [Hq Hq17]. fold totalQs in Hq, Hq17.
  split; [exact Hq|]. split; [exact Hq17|]. clear Hq17.
  assert (Hstate : (Js.success r = true ->
        Js.stars state' = Js.stars state + Js.starsEarned r
        /\ Js.coins state' = Js.coins state + Js.coinsEarned r
        /\ Js.level (Js.memory state') = Z.min 300 (level + 1)
        /\ Js.levelsCompleted (Js.memory state') = Js.levelsCompleted (Js.memory state) + 1
        /\ Js.hasFailedCurrent (Js.memory state') = false)
  /\ (Js.success r = false ->
        Js.stars state' = Js.stars state
        /\ Js.coins state' = Js.coins state
        /\ Js.level (Js.memory state') = Js.level (Js.memory state)
        /\ Js.levelsCompleted (Js.memory state') = Js.levelsCompleted (Js.memory state)
        /\ Js.hasFailedCurrent (Js.memory state') = true)
  /\ Js.highScore (Js.memory state') = Z.max (Js.highScore (Js.memory state)) (score * 10 * level)).
  { subst state'. unfold Js.finishMemoryLevel. fold failed. fold r.
    destruct (Js.success r); repeat split; intros; try discriminate; reflexivity. }
  clearbody state'.
  destruct (ceil_of_share totalQs ltac:(lia)) as [H6 H8].
  subst r. unfold Js.level_result in *.
  cbn [Js.success Js.starsEarned Js.coinsEarned] in *.
  rewrite H6, H8 in *. clearbody totalQs failed. clear H6 H8.
  pose proof (Z.div_mod (3 * totalQs + 4) 5 ltac:(lia)) as D6.
  pose proof (Z.mod_pos_bound (3 * totalQs + 4) 5 ltac:(lia)) as M6.
  pose proof (Z.div_mod (4 * totalQs + 4) 5 ltac:(lia)) as D8.
  pose proof (Z.mod_pos_bound (4 * totalQs + 4) 5 ltac:(lia)) as M8.
  (split; [|split; [|split; [|split; [|split; [|split; [|split; [|exact Hstate]]]]]]]);
    clear Hstate;
    destruct failed; compare_counts; cbn [andb negb];
    repeat split; intros; try discriminate; try lia; try tauto;
    try (intuition (discriminate || lia)).
Qed.

(** X24 at level 7, with six objects in the room, and five right answers. *)
Lemma memory_level_stars_and_success_witness :
  Js.starsEarned (Js.level_result false 5 (Js.roomObjects_length 7) 7) = 2
  <-> 4 * Js.roomObjects_length 7 <= 5 * 5 /\ 5 < Js.roomObjects_length 7.
Proof.
  refine (proj1 (proj2 (proj2 (proj2 (proj2
           (memory_level_stars_and_success
              (Js.mkState 0 0 (Js.mkMemoryData 7 0 0 0 false) None 0) 5 7 _ _)))))).
  - lia.
  - vm_compute. split; discriminate.
Defined.

(** ** What is reported to the server *)

(** X25.  The gains that [syncScore] reports to the server against what the
    games credit to the state.  For the memory game the report assumes five
    questions and does not look at an earlier failure: up to level 5, where a
    room has five objects, the stars agree, and so does the coin on a level
    that was not failed before, while a level that was failed before and is
    cleared now is reported with a coin it did not earn; at level 6, six
    right answers of six earn three stars and are reported as two, and three
    right answers fail the level and are reported with a coin.  For Color
    Confusion the report takes a coin for every 10 points and a star for every
    5 points, where the game credits a coin for every 100 points and a star
    for every 10 right answers: the coins agree below 10 points only.  For F1
    Reflex and the Schulte grid the report is what the game credits. *)
Theorem gains_reported_and_gains_credited :
  (forall (failed : bool) (score level : Z),
      1 <= level <= 5 -> 0 <= score <= Js.roomObjects_length level ->
      let r := Js.level_result failed score (Js.roomObjects_length level) level in
      Js.stars_gained "memory" score = (if Js.success r then Js.starsEarned r else 0)
      /\ Js.coins_gained "memory" score = (if Js.success r then 1 else 0)
      /\ (failed = false -> Js.coins_gained "memory" score = Js.coinsEarned r)
      /\ (failed = true -> Js.coinsEarned r = 0))
  /\ (Js.stars_gained "memory" 6 = 2
      /\ Js.starsEarned (Js.level_result false 6 (Js.roomObjects_length 6) 6) = 3
      /\ Js.coins_gained "memory" 3 = 1
      /\ Js.success (Js.level_result false 3 (Js.roomObjects_length 6) 6) = false)
  /\ (forall totalPoints : Z,
        0 <= totalPoints ->
        Js.coins_gained "confusion" totalPoints = totalPoints / 10
        /\ 10 * Js.confusion_coins totalPoints <= Js.coins_gained "confusion" totalPoints
        /\ (Js.coins_gained "confusion" totalPoints = Js.confusion_coins totalPoints
            <-> totalPoints < 10)
        /\ Js.stars_gained "confusion" totalPoints = totalPoints / 5)
  /\ (forall (state : Js.State) (time : Z),
        Js.coins (Js.showF1Result state time) = Js.coins state + Js.coins_gained "f1" time
        /\ Js.stars (Js.showF1Result state time)
           = Js.stars state + Js.stars_gained "f1" time)
  /\ (forall elapsed : Z,
        Js.coins_gained "schulte" elapsed = 30 /\ Js.stars_gained "schulte" elapsed = 2).
Proof.
  split; [|split; [|split; [|split]]].
  - intros failed score level Hl Hs r.
    assert (Hq : Js.roomObjects_length level = 5).
    { unfold Js.roomObjects_length, Js.objectCount.
      rewrite (Z.div_small (level - 1) 5) by lia. reflexivity. }
    subst r. rewrite Hq in *. unfold Js.level_result.
    cbn [Js.success Js.starsEarned Js.coinsEarned].
    change (Js.Math_ceil (to_double 5 * 0.6)) with 3.
    change (Js.Math_ceil (to_double 5 * 0.8)) with 4.
    unfold Js.stars_gained, Js.coins_gained.
    change (Js.Math_ceil (5 * 0.6)) with 3. cbn [String.eqb Ascii.eqb Bool.eqb].
    destruct failed; compare_counts; cbn [andb negb]; repeat split; intros; try lia; try discriminate.
  - vm_compute. repeat split.
  - intros totalPoints H. unfold Js.coins_gained, Js.stars_gained, Js.confusion_coins.
    cbn [String.eqb Ascii.eqb Bool.eqb].
    pose proof (Z.div_mod totalPoints 10 ltac:(lia)) as D1.
    pose proof (Z.mod_pos_bound totalPoints 10 ltac:(lia)) as M1.
    pose proof (Z.div_mod totalPoints 100 ltac:(lia)) as D2.
    pose proof (Z.mod_pos_bound totalPoints 100 ltac:(lia)) as M2.
    repeat split; try lia.
  - intros state time. change (Js.coins_gained "f1" time) with 20.
    change (Js.stars_gained "f1" time) with 0.
    unfold Js.showF1Result. cbn [Js.coins Js.stars]. lia.
  - intros elapsed. split; reflexivity.
Qed.

(** ** F1 Reflex *)

Ltac settle_comparison :=
  match goal with
  | |- context [Z.ltb ?a ?b] =>
      let v := eval vm_compute in (Z.ltb a b) in
      match v with
      | true => change (Z.ltb a b) with true
      | false => change (Z.ltb a b) with false
      end
  | |- context [Z.leb ?a ?b] =>
      let v := eval vm_compute in (Z.leb a b) in
      match v with
      | true => change (Z.leb a b) with true
      | false => change (Z.leb a b) with false
      end
  | |- context [Z.ltb ?a ?b] => destruct (Z.ltb_spec a b); try lia
  | |- context [Z.leb ?a ?b] => destruct (Z.leb_spec a b); try lia
  end.

Lemma f1_rank_counts (time : Z) :
  Js.f1_rank time
  = 1 + Z.of_nat (List.length (filter (fun d => snd d <=? time) Js.drivers)).
Proof.
  unfold Js.f1_rank, Js.f1_table, Js.drivers.
  repeat (cbn -[Z.ltb Z.leb Z.add Z.of_nat]; settle_comparison); reflexivity.
Qed.

Lemma best_time_after (times : list Z) (state : Js.State) :
  let state' := fold_left Js.showF1Result times state in
  Js.f1_bestTime state'
  = fold_left (fun best time => match best with
                                | None => Some time
                                | Some b => Some (Z.min b time)
                                end) times (Js.f1_bestTime state)
  /\ Js.coins state' = Js.coins state + 20 * Z.of_nat (List.length times)
  /\ Js.f1_gamesPlayed state' = Js.f1_gamesPlayed state + Z.of_nat (List.length times)
  /\ Js.stars state' = Js.stars state /\ Js.memory state' = Js.memory state.
Proof.
  revert state. induction times as [|t times IH]; intros state; cbn [fold_left List.length].
  - cbn zeta. repeat split; lia.
  - specialize (IH (Js.showF1Result state t)). cbn zeta in *.
    destruct IH as (Hb & Hc & Hg & Hs & Hm). rewrite Hb, Hc, Hg, Hs, Hm.
    unfold Js.showF1Result. cbn [Js.f1_bestTime Js.coins Js.f1_gamesPlayed Js.stars Js.memory].
    repeat split; try lia.
    f_equal. destruct (Js.f1_bestTime state) as [b|]; [|reflexivity].
    destruct (Z.ltb_spec t b); f_equal; lia.
Qed.

Lemma best_time_from (times : list Z) (b : Z) :
  fold_left (fun best time => match best with
                              | None => Some time
                              | Some b => Some (Z.min b time)
                              end) times (Some b)
  = Some (fold_left Z.min times b).
Proof.
  revert b. induction times as [|t times IH]; intros b; [reflexivity|]. simpl. apply IH.
Qed.

(** X26.  The rank on the result card of F1 Reflex is one more than the
    number of the seven drivers whose time is not longer than the player's:
    the player is behind a driver of the same time, first only below 175 ms
    and last from 215 ms on.  After a series of races the best time is the
    shortest of the earlier best time and the times of the series, every race
    has added 20 coins and counted as a game, and the stars and the data of
    the memory game are as before. *)
Theorem f1_rank_and_best_time :
  (forall time : Z,
      Js.f1_rank time
      = 1 + Z.of_nat (List.length (filter (fun d => snd d <=? time) Js.drivers))
      /\ 1 <= Js.f1_rank time <= 8
      /\ (Js.f1_rank time = 1 <-> time < 175)
      /\ (Js.f1_rank time = 8 <-> 215 <= time))
  /\ (forall (time : Z) (times : list Z) (state : Js.State),
        let state' := fold_left Js.showF1Result (time :: times) state in
        Js.f1_bestTime state'
        = Some (fold_left Z.min times (match Js.f1_bestTime state with
                                       | None => time
                                       | Some bestTime => Z.min bestTime time
                                       end))
        /\ Js.coins state' = Js.coins state + 20 * Z.of_nat (List.length (time :: times))
        /\ Js.f1_gamesPlayed state'
           = Js.f1_gamesPlayed state + Z.of_nat (List.length (time :: times))
        /\ Js.stars state' = Js.stars state
        /\ Js.memory state' = Js.memory state).
Proof.
  split.
  - intros time. rewrite f1_rank_counts. unfold Js.drivers.
    cbn -[Z.leb Z.add Z.of_nat].
    repeat match goal with
           | |- context [?a <=? ?b] => destruct (Z.leb_spec a b); try lia
           end; cbn [List.length]; lia.
  - intros time times state state'.
    destruct (best_time_after (time :: times) state) as (Hb & Hrest).
    fold state' in Hb, Hrest. split; [|exact Hrest].
    rewrite Hb. cbn [fold_left].
    destruct (Js.f1_bestTime state); apply best_time_from.
Qed.

(** ** The Schulte grid *)

Lemma subsequence_of_nil {A : Type} (m : list A) : subsequence [] m.
Proof. induction m; constructor; assumption. Qed.

Lemma subsequence_tail {A : Type} (x : A) (l m : list A) :
  subsequence (x :: l) m -> subsequence l m.
Proof.
  revert l. induction m as [|y m IH]; intros l H; inversion H; subst.
  - apply subsequence_skip. assumption.
  - apply subsequence_skip. apply IH. assumption.
Qed.

Lemma click_from (clicks : list Z) (n : Z) : n <= fold_left Js.click clicks n.
Proof.
  revert n. induction clicks as [|v clicks IH]; intros n; simpl; [lia|].
  unfold Js.click at 2. destruct (v =? n); [specialize (IH (n + 1)) | specialize (IH n)]; lia.
Qed.

Lemma clicks_in_order (clicks : list Z) (n : Z) (k : nat) :
  n + Z.of_nat k <= fold_left Js.click clicks n <-> subsequence (Js.run n k) clicks.
Proof.
  revert n k. induction clicks as [|v clicks IH]; intros n k.
  - simpl. destruct k as [|k]; simpl.
    + split; [constructor | lia].
    + split; [lia | intros H; inversion H].
  - simpl. unfold Js.click at 2. destruct (Z.eqb_spec v n) as [-> | Hne].
    + destruct k as [|k].
      * simpl. split; [intros _; apply subsequence_of_nil|].
        intros _. pose proof (click_from clicks (n + 1)). lia.
      * simpl Js.run. split.
        -- intros H. apply subsequence_take. apply IH. lia.
        -- intros H. inversion H; subst.
           ++ apply IH in H1. lia.
           ++ apply subsequence_tail in H2. apply IH in H2. lia.
    + rewrite IH. split.
      * apply subsequence_skip.
      * intros H. inversion H; subst; [|assumption].
        destruct k; simpl in *; [discriminate|]. congruence.
Qed.

(** X27.  The Schulte grid, for any sequence of clicks on its cells: the
    number looked for has passed 25, which ends the game, exactly when the
    numbers 1 to 25 occur among the clicks in this order, whatever is clicked
    in between; in general it is one more than the longest run 1, 2, ...
    that occurs among the clicks in order, and it is never beyond one more
    than the number of clicks. *)
Theorem schulte_grid_is_finished_by_the_numbers_in_order (clicks : list Z) :
  (25 < Js.nextNum_after clicks <-> subsequence (Js.run 1 25) clicks)
  /\ (forall k : nat, Js.nextNum_after clicks = 1 + Z.of_nat k ->
        subsequence (Js.run 1 k) clicks /\ ~ subsequence (Js.run 1 (S k)) clicks)
  /\ 1 <= Js.nextNum_after clicks <= 1 + Z.of_nat (List.length clicks).
Proof.
  unfold Js.nextNum_after. split; [|split].
  - rewrite <- clicks_in_order. simpl. lia.
  - intros k Hk. rewrite <- !clicks_in_order. lia.
  - split; [apply click_from|].
    assert (H : forall n, fold_left Js.click clicks n <= n + Z.of_nat (List.length clicks)).
    { induction clicks as [|v clicks IH]; intros n; [simpl; lia|].
      cbn [fold_left List.length]. unfold Js.click at 2.
      destruct (v =? n); [specialize (IH (n + 1)) | specialize (IH n)]; lia. }
    apply H.
Qed.

